(** * cloud_manager.py: the orchestration backend of the cloud manager

    A shallow embedding of class [CloudManager] of [src/cloud_manager.py]
    and of the handlers of its window, class [CloudManagerGUI], with the
    properties of the disk, ISO, registry and launch operations.

    Python values are modelled as follows: [str] is [string] (one
    character per cell, the characters below 256), [int] is [Z] (CPython's
    optional bound on the digits of a conversion between [int] and [str]
    is not modelled), [float] is IEEE 754 binary64 as [spec_float] with
    [prec = 53] and [emax = 1024], a raised exception is the [Raises]
    outcome.  The operating system (files, external tools, processes) is
    an explicit [World] threaded through every method; a file holds the
    text that reading it yields, so a file whose bytes are no text is
    outside the model.  The JSON reader comes without and with the
    interpreter's recursion limit, [Json.loads] and
    [Json.loads_within]. *)

From Stdlib Require Import ZArith String Ascii List QArith Qabs Qround SpecFloat.
From Stdlib Require Import Decimal DecimalFacts DecimalString DecimalPos DecimalZ Lia.
From stdpp Require Import gmap strings.

Local Open Scope string_scope.
Local Open Scope Z_scope.

(** ** Python primitives *)

Module Py.

(** The exception classes the methods of [CloudManager] raise or catch. *)
Inductive exn :=
| IndexError
| ValueError
| OverflowError
| TypeError
| AttributeError
| JSONDecodeError
| OSError (strerror : string)
| CalledProcessError (cmd : list string) (returncode : Z) (stderr : string)
| TimeoutExpired
| RecursionError.

Inductive outcome (A : Type) :=
| Ok (a : A)
| Raises (e : exn).
Arguments Ok {A} a.
Arguments Raises {A} e.

Definition obind {A B} (o : outcome A) (k : A -> outcome B) : outcome B :=
  match o with
  | Ok a => k a
  | Raises e => Raises e
  end.

(** [json.JSONDecodeError] derives from [ValueError]; every class above
    derives from [Exception]. *)
Definition is_OSError (e : exn) : bool :=
  match e with OSError _ => true | _ => false end.

Definition is_CalledProcessError (e : exn) : bool :=
  match e with CalledProcessError _ _ _ => true | _ => false end.

(** *** Characters and slices *)

(** [c.upper()] for a one-character string.  Only the ASCII letters are
    mapped: no character outside ASCII has an ASCII upper case, so the
    comparisons against ['G'], ['M'] and ['K'] below are not affected. *)
Definition upper_char (c : ascii) : ascii :=
  let n := nat_of_ascii c in
  if ((97 <=? n) && (n <=? 122))%nat then ascii_of_nat (n - 32) else c.

(** [s[-1]]: [None] stands for the [IndexError] of the empty string. *)
Fixpoint last_char (s : string) : option ascii :=
  match s with
  | EmptyString => None
  | String c EmptyString => Some c
  | String _ r => last_char r
  end.

(** [s[:-1]]; the empty string is its own slice. *)
Fixpoint drop_last (s : string) : string :=
  match s with
  | EmptyString => EmptyString
  | String _ EmptyString => EmptyString
  | String c r => String c (drop_last r)
  end.

Definition char_in (c : ascii) (l : list ascii) : bool :=
  existsb (Ascii.eqb c) l.


(** *** Numerals: [int(s)], [float(s)], [str(n)] *)

Definition is_digit (c : ascii) : bool :=
  let n := nat_of_ascii c in ((48 <=? n) && (n <=? 57))%nat.

(** [c.isspace()] on the characters below 256. *)
Definition is_space (c : ascii) : bool :=
  let n := nat_of_ascii c in
  (((9 <=? n) && (n <=? 13)) || ((28 <=? n) && (n <=? 32))
   || (n =? 133) || (n =? 160))%nat.

Fixpoint lstrip (s : string) : string :=
  match s with
  | String c r => if is_space c then lstrip r else s
  | EmptyString => EmptyString
  end.

Fixpoint rstrip (s : string) : string :=
  match s with
  | EmptyString => EmptyString
  | String c r =>
      match rstrip r with
      | EmptyString =>
          if is_space c then EmptyString else String c EmptyString
      | r' => String c r'
      end
  end.

(** [s.strip()] *)
Definition strip (s : string) : string := rstrip (lstrip s).

(** The longest prefix of the form digit (["_"] digit)*, with its
    underscores removed, and what follows it. *)
Fixpoint digitpart (s : string) : string * string :=
  match s with
  | String c r =>
      if is_digit c then
        match r with
        | String "_" (String c' _ as r1) =>
            if is_digit c' then
              let '(d, rest) := digitpart r1 in (String c d, rest)
            else (String c EmptyString, r)
        | _ => let '(d, rest) := digitpart r in (String c d, rest)
        end
      else (EmptyString, s)
  | EmptyString => (EmptyString, EmptyString)
  end.

Definition digits_value (d : string) : Z :=
  match NilEmpty.uint_of_string d with
  | Some u => Z.of_uint u
  | None => 0
  end.

Definition split_sign (s : string) : bool * string :=
  match s with
  | String "-" r => (true, r)
  | String "+" r => (false, r)
  | _ => (false, s)
  end.

(** [int(s)] for a [str]: surrounding white space, a sign, decimal
    digits with single underscores between them. *)
Definition int_of_str (s : string) : outcome Z :=
  let '(neg, body) := split_sign (strip s) in
  match digitpart body with
  | (String _ _ as d, EmptyString) =>
      Ok (if neg then - digits_value d else digits_value d)
  | _ => Raises ValueError
  end.

(** [str(n)] for an [int]. *)
Definition str_of_int (n : Z) : string :=
  NilZero.string_of_int (Z.to_int n).

(** *** Floats: IEEE 754 binary64 *)

Definition f64_prec : Z := 53.
Definition f64_emax : Z := 1024.

Definition f64_mul : spec_float -> spec_float -> spec_float :=
  SFmul f64_prec f64_emax.

(** The double nearest to [num / den] (ties to even): what [float(s)]
    returns for a decimal numeral and what [a / b] returns for two
    [int]s. *)
Definition f64_of_ratio (neg : bool) (num : Z) (den : positive)
  : spec_float :=
  match num with
  | Zpos n =>
      SFdiv f64_prec f64_emax
        (S754_finite neg n 0) (S754_finite false den 0)
  | _ => S754_zero neg
  end.

(** [float(n)] for an [int] that a double holds exactly, as in
    [x * 1024]. *)
Definition f64_of_int (n : Z) : spec_float :=
  binary_normalize f64_prec f64_emax n 0 false.

Definition lower_char (c : ascii) : ascii :=
  let n := nat_of_ascii c in
  if ((65 <=? n) && (n <=? 90))%nat then ascii_of_nat (n + 32) else c.

Fixpoint lower (s : string) : string :=
  match s with
  | EmptyString => EmptyString
  | String c r => String (lower_char c) (lower r)
  end.

(** The exponent part of a float numeral: [Some (e, rest)], with
    [e = 0] when there is none, [None] when an ["e"] is not followed by
    digits. *)
Definition exponent_part (s : string) : option (Z * string) :=
  match s with
  | String c r =>
      if char_in c ["e"; "E"]%char then
        let '(neg, r') := split_sign r in
        match digitpart r' with
        | (String _ _ as d, rest) =>
            Some (if neg then - digits_value d else digits_value d, rest)
        | _ => None
        end
      else Some (0, s)
  | EmptyString => Some (0, s)
  end.

(** [float(s)] for a [str]: surrounding white space, a sign, then
    [inf], [infinity], [nan] in any case or a decimal numeral with an
    optional fraction and exponent. *)
Definition float_of_str (s : string) : outcome spec_float :=
  let '(neg, body) := split_sign (strip s) in
  let word := lower body in
  if (word =? "inf")%string || (word =? "infinity")%string
  then Ok (S754_infinity neg)
  else if (word =? "nan")%string then Ok S754_nan
  else
    let '(ip, r1) := digitpart body in
    let '(fp, r2) :=
      match r1 with
      | String "." r => digitpart r
      | _ => (EmptyString, r1)
      end in
    match ip ++ fp, exponent_part r2 with
    | String _ _ as m, Some (e, EmptyString) =>
        let e10 := e - Z.of_nat (String.length fp) in
        Ok (if 0 <=? e10
            then f64_of_ratio neg (digits_value m * 10 ^ e10) 1
            else f64_of_ratio neg (digits_value m)
                   (Z.to_pos (10 ^ (- e10))))
    | _, _ => Raises ValueError
    end.

(** [int(x)] for a [float]: truncation toward zero. *)
Definition int_of_float (x : spec_float) : outcome Z :=
  match x with
  | S754_zero _ => Ok 0
  | S754_infinity _ => Raises OverflowError
  | S754_nan => Raises ValueError
  | S754_finite s m e =>
      let a := if 0 <=? e then Zpos m * 2 ^ e else Zpos m / 2 ^ (- e) in
      Ok (if s then - a else a)
  end.

(** The integer nearest to [num / den], ties to even. *)
Definition round_half_even (num : Z) (den : positive) : Z :=
  let q := num / Zpos den in
  let r := num mod Zpos den in
  match 2 * r ?= Zpos den with
  | Lt => q
  | Gt => q + 1
  | Eq => if Z.even q then q else q + 1
  end.

(** [f"{x:.2f}"] for a [float]. *)
Definition format_2f (x : spec_float) : string :=
  let fixed (s : bool) (n : Z) : string :=
    let frac := n mod 100 in
    (if s then "-" else "") ++ str_of_int (n / 100) ++ "." ++
    (if frac <? 10 then "0" else "") ++ str_of_int frac in
  match x with
  | S754_zero s => fixed s 0
  | S754_infinity s => if s then "-inf" else "inf"
  | S754_nan => "nan"
  | S754_finite s m e =>
      fixed s (if 0 <=? e then Zpos m * 2 ^ e * 100
               else round_half_even (Zpos m * 100) (Z.to_pos (2 ^ (- e))))
  end.


(** *** Text *)

(** [sep.join(l)] *)
Definition join (sep : string) (l : list string) : string :=
  String.concat sep l.

(** [s.replace(a, b)] for one-character [a] and [b]. *)
Fixpoint replace_char (a b : ascii) (s : string) : string :=
  match s with
  | EmptyString => EmptyString
  | String c r =>
      String (if Ascii.eqb c a then b else c) (replace_char a b r)
  end.

(** [sub in s] *)
Fixpoint contains (sub s : string) : bool :=
  String.prefix sub s ||
  match s with
  | EmptyString => false
  | String _ r => contains sub r
  end.

(** [s.split(sep)] for a non-empty [sep]: [skip] counts the characters
    of a separator found that are still to be passed over. *)
Fixpoint split_from (sep s : string) (skip : nat) : list string :=
  match s with
  | EmptyString => [EmptyString]
  | String c r =>
      match skip with
      | S k => split_from sep r k
      | O =>
          if String.prefix sep s
          then EmptyString :: split_from sep r (String.length sep - 1)
          else match split_from sep r O with
               | piece :: pieces => String c piece :: pieces
               | [] => [String c EmptyString]
               end
      end
  end.

Definition split (sep s : string) : list string := split_from sep s O.

(** The line boundaries of [str.splitlines] among the characters below
    256: LF, VT, FF, CR, FS, GS, RS and NEL. *)
Definition is_linebreak (c : ascii) : bool :=
  let n := nat_of_ascii c in
  (((10 <=? n) && (n <=? 13)) || ((28 <=? n) && (n <=? 30))
   || (n =? 133))%nat.

(** [s.splitlines()], [cur] being the line read so far: CR LF is one
    boundary, and a boundary at the very end opens no empty line. *)
Fixpoint splitlines_from (cur s : string) : list string :=
  match s with
  | EmptyString =>
      match cur with EmptyString => [] | _ => [cur] end
  | String c r =>
      if is_linebreak c then
        cur :: match c, r with
               | "013"%char, String "010"%char r' =>
                   splitlines_from EmptyString r'
               | _, _ => splitlines_from EmptyString r
               end
      else splitlines_from (cur ++ String c EmptyString) r
  end.

Definition splitlines (s : string) : list string :=
  splitlines_from EmptyString s.

(** [s.endswith(suffix)]: some tail of [s] is [suffix]. *)
Fixpoint endswith (suffix s : string) : bool :=
  (s =? suffix)%string ||
  match s with
  | EmptyString => false
  | String _ r => endswith suffix r
  end.

End Py.

Import Py.

(** ** Size strings *)

(** The first statement of the [try] block of [create_virtual_disk]:
<<
    if not disk_size[-1].upper() in ['G', 'M', 'K']:
        disk_size += 'G'
>>
    It yields the size handed to the disk-image tool. *)
Definition normalize_size (disk_size : string) : outcome string :=
  match last_char disk_size with
  | None => Raises IndexError
  | Some c =>
      if char_in (upper_char c) ["G"; "M"; "K"]%char
      then Ok disk_size
      else Ok (disk_size ++ "G")
  end.

(** ** Values, libraries and the operating system *)

(** The values that [json.load] returns and [json.dump] accepts. *)
#[warning="-register-all"]
Inductive pyval :=
| PNone
| PBool (b : bool)
| PInt (n : Z)
| PFloat (x : spec_float)
| PStr (s : string)
| PList (items : list pyval)
| PDict (entries : list (string * pyval)).

(** The library functions whose results depend on the platform or on a
    text format: [json.dump(obj, f, indent=4)] as the text it writes,
    [json.load] on the text read, [os.path.join], [os.path.abspath],
    [os.path.basename] and [str(e)] for an exception [e]. *)
Class Runtime := {
  json_dumps : pyval -> string;
  json_loads : string -> outcome pyval;
  path_join : string -> string -> string;
  path_abspath : string -> string;
  path_basename : string -> string;
  exn_str : exn -> string
}.

Inductive node :=
| File (data : string)
| Dir (names : list string).

(** What a method does to its surroundings, in the order it does it. *)
Inductive event :=
| Makedirs (path : string)
| WriteText (path data : string)
| Run (argv : list string)
| Popen (argv : list string) (new_console pipes : bool)
| Rename (src dst : string)
| Copy2 (src dst : string)
| Print (text : string).

(** A process started by [subprocess.Popen]: [wait_1s] is what
    [process.wait(timeout=1)] returns, [None] for [TimeoutExpired];
    [stderr_text] is [process.stderr.read().decode('utf-8',
    errors='ignore')]. *)
Record process := {
  wait_1s : option Z;
  stderr_text : string
}.

Record completed := {
  returncode : Z;
  stdout : string;
  stderr : string
}.

(** The result of a system call: done, or failed with the [OSError] of
    the given text. *)
Inductive os_result (A : Type) :=
| Done (a : A)
| Failed (strerror : string).
Arguments Done {A} a.
Arguments Failed {A} strerror.

(** The operating system: the platform name, the files, the behaviour
    of external programs and of the system calls that can fail for
    reasons outside the file table, and the log of effects. *)
Record World := {
  w_system : string;
  w_fs : gmap string node;
  w_tool : list string -> gmap string node ->
           os_result completed * gmap string node;
  w_spawn : list string -> os_result process;
  w_rename : string -> string -> gmap string node ->
             os_result (gmap string node);
  w_copy2 : string -> string -> gmap string node ->
            os_result (gmap string node);
  w_log : list event
}.

(** A [CloudManager] object in its world.  [disks_dir], [iso_dir] and
    [vms_file] are set once by [__init__] and are constants below. *)
Record State := {
  os : World;
  virtual_machines : pyval
}.

Definition with_fs (fs : gmap string node) (w : World) : World :=
  {| w_system := w_system w; w_fs := fs; w_tool := w_tool w;
     w_spawn := w_spawn w; w_rename := w_rename w; w_copy2 := w_copy2 w;
     w_log := w_log w |}.

Definition with_event (e : event) (w : World) : World :=
  {| w_system := w_system w; w_fs := w_fs w; w_tool := w_tool w;
     w_spawn := w_spawn w; w_rename := w_rename w; w_copy2 := w_copy2 w;
     w_log := w_log w ++ [e] |}.

Definition with_os (w : World) (st : State) : State :=
  {| os := w; virtual_machines := virtual_machines st |}.

(** *** Methods as state transformers that may raise *)

Definition M (A : Type) : Type := State -> outcome A * State.

Definition ret {A} (a : A) : M A := fun st => (Ok a, st).

Definition raise {A} (e : exn) : M A := fun st => (Raises e, st).

Definition bind {A B} (m : M A) (k : A -> M B) : M B :=
  fun st =>
    match m st with
    | (Ok a, st') => k a st'
    | (Raises e, st') => (Raises e, st')
    end.

Declare Scope py_scope.
Delimit Scope py_scope with py.
Notation "x <- m ;; k" := (bind m (fun x => k))
  (at level 20, m at level 99, k at level 200, only parsing) : py_scope.
Notation "m ;; k" := (bind m (fun _ => k))
  (at level 100, k at level 200, only parsing, right associativity)
  : py_scope.
Local Open Scope py_scope.

Definition lift {A} (o : outcome A) : M A := fun st => (o, st).

(** [try: body except C as e: handler e], [C] given by [handles]. *)
Definition try_except {A} (body : M A) (handles : exn -> bool)
  (handler : exn -> M A) : M A :=
  fun st =>
    match body st with
    | (Raises e, st') =>
        if handles e then handler e st' else (Raises e, st')
    | r => r
    end.

Definition get_vms : M pyval := fun st => (Ok (virtual_machines st), st).

Definition set_vms (v : pyval) : M unit :=
  fun st => (Ok tt, {| os := os st; virtual_machines := v |}).

Definition get_os : M World := fun st => (Ok (os st), st).

Definition put_os (w : World) : M unit :=
  fun st => (Ok tt, with_os w st).

Definition emit (e : event) : M unit :=
  fun st => (Ok tt, with_os (with_event e (os st)) st).

(** *** System and library calls *)

Definition newline : string := String "010" EmptyString.

(** What is at path [p]; nothing is at the empty path. *)
Definition lookup_path (p : string) (w : World) : option node :=
  if (p =? "")%string then None else w_fs w !! p.

(** [os.path.exists(p)] *)
Definition path_exists (p : string) : M bool :=
  w <- get_os ;;
  ret (match lookup_path p w with Some _ => true | None => false end).

(** [os.path.isfile(p)] *)
Definition path_isfile (p : string) : M bool :=
  w <- get_os ;;
  ret (match lookup_path p w with Some (File _) => true | _ => false end).

(** [os.path.getsize(p)]; the methods ask it of regular files only. *)
Definition path_getsize (p : string) : M Z :=
  w <- get_os ;;
  match lookup_path p w with
  | Some (File data) => ret (Z.of_nat (String.length data))
  | Some (Dir _) => ret 4096
  | None => raise (OSError "No such file or directory")
  end.

(** [os.listdir(p)] *)
Definition listdir (p : string) : M (list string) :=
  w <- get_os ;;
  match lookup_path p w with
  | Some (Dir names) => ret names
  | Some (File _) => raise (OSError "Not a directory")
  | None => raise (OSError "No such file or directory")
  end.

(** [os.makedirs(p)] *)
Definition makedirs (p : string) : M unit :=
  w <- get_os ;;
  match lookup_path p w with
  | Some _ => raise (OSError "File exists")
  | None =>
      emit (Makedirs p) ;;
      w <- get_os ;;
      put_os (with_fs (<[p := Dir []]> (w_fs w)) w)
  end.

(** [with open(p, 'r') as f: f.read()] *)
Definition read_text (p : string) : M string :=
  w <- get_os ;;
  match lookup_path p w with
  | Some (File data) => ret data
  | Some (Dir _) => raise (OSError "Is a directory")
  | None => raise (OSError "No such file or directory")
  end.

(** [with open(p, 'w') as f: f.write(data)] *)
Definition write_text (p data : string) : M unit :=
  w <- get_os ;;
  match lookup_path p w with
  | Some (Dir _) => raise (OSError "Is a directory")
  | _ =>
      emit (WriteText p data) ;;
      w <- get_os ;;
      put_os (with_fs (<[p := File data]> (w_fs w)) w)
  end.

(** [print(text)] *)
Definition print (text : string) : M unit := emit (Print text).

(** [subprocess.run(argv, check=True, capture_output=True, text=True)] *)
Definition subprocess_run (argv : list string) : M completed :=
  emit (Run argv) ;;
  w <- get_os ;;
  let '(r, fs) := w_tool w argv (w_fs w) in
  put_os (with_fs fs w) ;;
  match r with
  | Done c =>
      if returncode c =? 0 then ret c
      else raise (CalledProcessError argv (returncode c) (stderr c))
  | Failed msg => raise (OSError msg)
  end.

(** [subprocess.Popen(argv, ...)]: [new_console] for
    [creationflags=subprocess.CREATE_NEW_CONSOLE], [pipes] for
    [stdout=subprocess.PIPE, stderr=subprocess.PIPE]. *)
Definition subprocess_Popen (argv : list string) (new_console pipes : bool)
  : M process :=
  emit (Popen argv new_console pipes) ;;
  w <- get_os ;;
  match w_spawn w argv with
  | Done p => ret p
  | Failed msg => raise (OSError msg)
  end.

(** [process.wait(timeout=1)] *)
Definition process_wait (p : process) : M Z :=
  match wait_1s p with
  | Some code => ret code
  | None => raise TimeoutExpired
  end.

(** [os.rename(src, dst)] *)
Definition os_rename (src dst : string) : M unit :=
  emit (Rename src dst) ;;
  w <- get_os ;;
  match w_rename w src dst (w_fs w) with
  | Done fs => put_os (with_fs fs w)
  | Failed msg => raise (OSError msg)
  end.

(** [shutil.copy2(src, dst)] *)
Definition shutil_copy2 (src dst : string) : M unit :=
  emit (Copy2 src dst) ;;
  w <- get_os ;;
  match w_copy2 w src dst (w_fs w) with
  | Done fs => put_os (with_fs fs w)
  | Failed msg => raise (OSError msg)
  end.

(** [platform.system()] *)
Definition platform_system : M string :=
  w <- get_os ;; ret (w_system w).

(** ** Class [CloudManager] *)

Definition disks_dir : string := "virtual_disks".
Definition iso_dir : string := "iso_images".
Definition vms_file : string := "virtual_machines.json".

(** An entry of the list returned by [list_virtual_disks]. *)
Record disk_info := {
  index : Z;
  name : string;
  path : string;
  format : string;
  size : string
}.

(** An entry of the list returned by [list_iso_files]: the values
    under ["name"], ["path"] and ["size"]. *)
Record iso_info := {
  iso_name : string;
  iso_path : string;
  iso_size : string
}.

(** A VM definition, the five fields of [vm_config]. *)
Record VirtualMachine := {
  vm_name : string;
  vm_cpu_cores : Z;
  vm_memory : string;
  vm_disk : string;
  vm_iso : option string
}.

(** The dictionary [vm_config] that [create_virtual_machine] builds. *)
Definition vm_config (vm_name : string) (cpu_cores : Z)
  (memory_size disk_path : string) (iso_path : option string) : pyval :=
  PDict [("name", PStr vm_name);
         ("cpu_cores", PInt cpu_cores);
         ("memory", PStr memory_size);
         ("disk", PStr disk_path);
         ("iso", match iso_path with
                 | Some p => PStr p
                 | None => PNone
                 end)].

(** The registry entry of a VM definition. *)
Definition config_of (vm : VirtualMachine) : pyval :=
  vm_config (vm_name vm) (vm_cpu_cores vm) (vm_memory vm) (vm_disk vm)
    (vm_iso vm).

(** [d[key]] and [d.get(key)] *)
Fixpoint dict_get (key : string) (d : list (string * pyval))
  : option pyval :=
  match d with
  | [] => None
  | (k, v) :: r => if (k =? key)%string then Some v else dict_get key r
  end.

(** A registry entry read as a VM definition: a dictionary with a string
    under ["name"], ["memory"] and ["disk"], an integer under
    ["cpu_cores"] and a string, [None] or nothing under ["iso"]. *)
Definition vm_of_pyval (v : pyval) : option VirtualMachine :=
  match v with
  | PDict d =>
      match dict_get "name" d, dict_get "cpu_cores" d,
            dict_get "memory" d, dict_get "disk" d with
      | Some (PStr n), Some (PInt c), Some (PStr m), Some (PStr dk) =>
          match dict_get "iso" d with
          | Some (PStr i) =>
              Some {| vm_name := n; vm_cpu_cores := c; vm_memory := m;
                      vm_disk := dk; vm_iso := Some i |}
          | Some PNone | None =>
              Some {| vm_name := n; vm_cpu_cores := c; vm_memory := m;
                      vm_disk := dk; vm_iso := None |}
          | Some _ => None
          end
      | _, _, _, _ => None
      end
  | _ => None
  end.

(** [l[i]] for a list, negative indices counting from the end. *)
Definition list_index {A} (l : list A) (i : Z) : outcome A :=
  let n := Z.of_nat (List.length l) in
  let k := if i <? 0 then i + n else i in
  if (0 <=? k) && (k <? n) then
    match nth_error l (Z.to_nat k) with
    | Some a => Ok a
    | None => Raises IndexError
    end
  else Raises IndexError.

(** [vm = self.virtual_machines[vm_index]], read as a VM definition.  An
    entry or a registry of another shape is outside the data model;
    Python raises [KeyError] or [TypeError] on it, here [TypeError]. *)
Definition registry_entry (registry : pyval) (vm_index : Z)
  : outcome VirtualMachine :=
  match registry with
  | PList l =>
      obind (list_index l vm_index) (fun v =>
        match vm_of_pyval v with
        | Some vm => Ok vm
        | None => Raises TypeError
        end)
  | _ => Raises TypeError
  end.

(** Lines 131-136 of [start_virtual_machine]:
<<
    if memory[-1].upper() == 'G':
        memory_mb = int(float(memory[:-1]) * 1024)
    else:  # Assume MB
        memory_mb = int(memory[:-1])
>> *)
Definition launch_memory_mb (memory : string) : outcome Z :=
  match last_char memory with
  | None => Raises IndexError
  | Some c =>
      if Ascii.eqb (upper_char c) "G" then
        obind (float_of_str (drop_last memory)) (fun x =>
          int_of_float (f64_mul x (f64_of_int 1024)))
      else int_of_str (drop_last memory)
  end.

(** The lines of the output of [qemu-img info], scanned in order: the
    last line holding a label decides. *)
Fixpoint scan_info (lines : list string) (format_info size_info : string)
  : string * string :=
  match lines with
  | [] => (format_info, size_info)
  | line :: rest =>
      let format_info :=
        if contains "file format:" line
        then strip (nth 1 (split "file format:" line) "")
        else format_info in
      let size_info :=
        if contains "virtual size:" line
        then strip (nth 1 (split "virtual size:" line) "")
        else size_info in
      scan_info rest format_info size_info
  end.

Section Methods.

Context `{RT : Runtime}.

Definition ensure_dir (d : string) : M unit :=
  present <- path_exists d ;;
  if present then ret tt else makedirs d.

(** [CloudManager.__init__] *)
Definition init : M unit :=
  set_vms (PList []) ;;
  ensure_dir disks_dir ;;
  ensure_dir iso_dir ;;
  present <- path_exists vms_file ;;
  if present then
    try_except
      (text <- read_text vms_file ;;
       registry <- lift (json_loads text) ;;
       set_vms registry)
      (fun e => match e with JSONDecodeError => true | _ => false end)
      (fun _ => set_vms (PList []))
  else ret tt.

(** [CloudManager.create_virtual_disk] *)
Definition create_virtual_disk (disk_name disk_format disk_size : string)
  : M (bool * string) :=
  let disk_path :=
    path_join disks_dir (disk_name ++ "." ++ disk_format) in
  try_except
    (disk_size <- lift (normalize_size disk_size) ;;
     ensure_dir disks_dir ;;
     let disk_path_abs := path_abspath disk_path in
     let command := ["qemu-img"; "create"; "-f"; disk_format;
                     disk_path_abs; disk_size] in
     print ("Running command: " ++ join " " command) ;;
     result <- subprocess_run command ;;
     ret (true, "Success! Virtual disk created at: " ++ disk_path ++
                newline ++ stdout result))
    is_CalledProcessError
    (fun e =>
       ret (false, "Error creating disk: " ++ exn_str e ++ newline ++
                   "Command output: " ++
                   match e with
                   | CalledProcessError _ _ err => err
                   | _ => ""
                   end)).

(** The body of the loop of [list_virtual_disks] for the directory
    entries [names], numbered from [i]. *)
Fixpoint list_disks_from (i : Z) (names : list string)
  (disks : list disk_info) : M (list disk_info) :=
  match names with
  | [] => ret disks
  | filename :: rest =>
      is_file <- path_isfile (path_join disks_dir filename) ;;
      if is_file then
        let disk_path := path_join disks_dir filename in
        size_bytes <- path_getsize disk_path ;;
        let size_mb := f64_of_ratio false size_bytes (1024 * 1024) in
        entry <-
          try_except
            (result <- subprocess_run ["qemu-img"; "info"; disk_path] ;;
             let info := stdout result in
             let '(format_info, size_info) :=
               scan_info (splitlines info) "Unknown"
                 (format_2f size_mb ++ " MB (physical)") in
             ret {| index := i; name := filename; path := disk_path;
                    format := format_info; size := size_info |})
            is_CalledProcessError
            (fun _ =>
               ret {| index := i; name := filename; path := disk_path;
                      format := "Unknown";
                      size := format_2f size_mb ++ " MB" |}) ;;
        list_disks_from (i + 1) rest (disks ++ [entry])
      else list_disks_from (i + 1) rest disks
  end.

(** [CloudManager.list_virtual_disks] *)
Definition list_virtual_disks : M (list disk_info) :=
  names <- listdir disks_dir ;;
  list_disks_from 1 names [].

(** [CloudManager.create_virtual_machine] *)
Definition create_virtual_machine (vm_name : string) (cpu_cores : Z)
  (memory_size disk_path : string) (iso_path : option string)
  : M (bool * string) :=
  let vm_config :=
    vm_config vm_name cpu_cores memory_size disk_path iso_path in
  registry <- get_vms ;;
  match registry with
  | PList l => set_vms (PList (l ++ [vm_config]))
  | _ => raise AttributeError
  end ;;
  registry <- get_vms ;;
  write_text vms_file (json_dumps registry) ;;
  ret (true, "Virtual Machine '" ++ vm_name ++
             "' created successfully!").

(** The ISO test of [start_virtual_machine]:
    [vm.get('iso') and os.path.exists(vm['iso'])]. *)
Definition iso_attached (vm : VirtualMachine) : M (option string) :=
  match vm_iso vm with
  | Some p =>
      if (p =? "")%string then ret None
      else
        present <- path_exists p ;;
        ret (if present then Some p else None)
  | None => ret None
  end.

(** [CloudManager.start_virtual_machine] *)
Definition start_virtual_machine (vm_index : Z) : M (bool * string) :=
  registry <- get_vms ;;
  vm <- lift (registry_entry registry vm_index) ;;
  memory_mb <- lift (launch_memory_mb (vm_memory vm)) ;;
  let disk_path := replace_char "\" "/" (path_abspath (vm_disk vm)) in
  let debug_info :=
    "Starting VM '" ++ vm_name vm ++ "' with:" ++ newline ++
    "- CPU: " ++ str_of_int (vm_cpu_cores vm) ++ " cores" ++ newline ++
    "- Memory: " ++ str_of_int memory_mb ++ "MB" ++ newline ++
    "- Disk: " ++ disk_path ++ newline in
  let qemu_cmd :=
    ["qemu-system-x86_64";
     "-name"; vm_name vm;
     "-m"; str_of_int memory_mb;
     "-smp"; str_of_int (vm_cpu_cores vm)] in
  let qemu_cmd := (qemu_cmd ++ ["-hda"; disk_path])%list in
  iso <- iso_attached vm ;;
  let '(qemu_cmd, debug_info) :=
    match iso with
    | Some p =>
        let iso_path := replace_char "\" "/" (path_abspath p) in
        ((qemu_cmd ++ ["-cdrom"; iso_path] ++ ["-boot"; "d"])%list,
         debug_info ++ "- ISO: " ++ iso_path ++ newline ++
         "- Boot order: CD-ROM, then Hard Disk" ++ newline)
    | None =>
        ((qemu_cmd ++ ["-boot"; "c"])%list,
         debug_info ++ "- Boot order: Hard Disk only" ++ newline)
    end in
  let qemu_cmd :=
    (qemu_cmd ++ ["-device"; "e1000,netdev=net0";
                  "-netdev"; "user,id=net0"])%list in
  let qemu_cmd := (qemu_cmd ++ ["-accel"; "tcg"])%list in
  let qemu_cmd := (qemu_cmd ++ ["-display"] ++ ["sdl"])%list in
  let debug_info :=
    debug_info ++ "Full command: " ++ join " " qemu_cmd ++ newline in
  print debug_info ;;
  try_except
    (system <- platform_system ;;
     early <-
       (if (system =? "Windows")%string then
          process <- subprocess_Popen qemu_cmd true true ;;
          try_except
            (returncode <- process_wait process ;;
             if negb (returncode =? 0) then
               ret (Some (false,
                          "QEMU process exited with code " ++
                          str_of_int returncode ++ ": " ++
                          stderr_text process))
             else ret None)
            (fun e => match e with TimeoutExpired => true | _ => false end)
            (fun _ => ret None)
        else
          subprocess_Popen qemu_cmd false false ;;
          ret None) ;;
     match early with
     | Some result => ret result
     | None =>
         ret (true, "VM '" ++ vm_name vm ++ "' started successfully!" ++
                    newline ++ debug_info)
     end)
    (fun _ => true)
    (fun e =>
       ret (false, "Error starting VM: " ++ exn_str e ++ newline ++
                   debug_info)).

(** The body of the loop of [list_iso_files] for the directory entries
    [names].  [filename.lower()] is taken on the ASCII letters: no other
    character below 256 lowers to a character of ['.iso']. *)
Fixpoint list_isos_from (names : list string) (iso_files : list iso_info)
  : M (list iso_info) :=
  match names with
  | [] => ret iso_files
  | filename :: rest =>
      if endswith ".iso" (lower filename) then
        is_file <- path_isfile (path_join iso_dir filename) ;;
        if is_file then
          let file_path := path_join iso_dir filename in
          size_bytes <- path_getsize file_path ;;
          let size_mb := f64_of_ratio false size_bytes (1024 * 1024) in
          list_isos_from rest
            (iso_files ++ [ {| iso_name := filename; iso_path := file_path;
                               iso_size := format_2f size_mb ++ " MB" |} ])
        else list_isos_from rest iso_files
      else list_isos_from rest iso_files
  end.

(** [CloudManager.list_iso_files] *)
Definition list_iso_files : M (list iso_info) :=
  present <- path_exists iso_dir ;;
  if present then
    names <- listdir iso_dir ;;
    list_isos_from names []
  else ret [].

(** [CloudManager.import_iso_file] *)
Definition import_iso_file (source_path : string)
  (dest_name : option string) : M (bool * string) :=
  present <- path_exists source_path ;;
  if negb present then
    ret (false, "File not found: " ++ source_path)
  else
    let dest_name :=
      match dest_name with
      | None => path_basename source_path
      | Some n => n
      end in
    let dest_path := path_join iso_dir dest_name in
    try_except
      (try_except
         (os_rename source_path dest_path)
         is_OSError
         (fun _ => shutil_copy2 source_path dest_path) ;;
       ret (true, "ISO file imported successfully to " ++ dest_path))
      (fun _ => true)
      (fun e => ret (false, "Error importing ISO file: " ++ exn_str e)).

End Methods.

(** ** Class [CloudManagerGUI]: the handlers of the window *)

(** The window is modelled by what its handlers read and write: the text
    variables of the forms, the lines the list boxes and combo boxes
    show, the two path lists kept beside the combo boxes, and the modal
    dialogs opened.  The layout code ([setup_disks_tab],
    [setup_vms_tab], [setup_iso_tab]) only builds widgets and is left
    out.  What the user has selected or answers is read from [User]; each
    handler reads it before it updates any widget. *)

(** A modal dialog of [tkinter.messagebox]. *)
Inductive dialog :=
| ShowError (title message : string)
| ShowInfo (title message : string)
| AskYesNo (title message : string).

(** The [tk.StringVar]s. *)
Record Form := {
  disk_name_var : string;
  disk_format_var : string;
  disk_size_var : string;
  disk_size_unit_var : string;
  vm_name_var : string;
  cpu_cores_var : string;
  memory_size_var : string;
  memory_unit_var : string;
  iso_path_var : string;
  iso_dest_name_var : string;
  status_var : string
}.

(** The lines of the three list boxes, the values of the two combo
    boxes, and the attributes [disk_paths] and [iso_paths]. *)
Record Lists := {
  disk_listbox : list string;
  vm_listbox : list string;
  iso_listbox : list string;
  disk_combo_values : list string;
  iso_combo_values : list string;
  disk_paths : list string;
  iso_paths : list string
}.

(** The user's side: [disk_combo.current()], [iso_combo.current()],
    [vm_listbox.curselection()], the answer to [askyesno] and the path
    chosen in [askopenfilename], empty when the dialog is cancelled. *)
Record User := {
  disk_combo_current : Z;
  iso_combo_current : Z;
  vm_listbox_curselection : list Z;
  askyesno_answer : bool;
  askopenfilename_answer : string
}.

Record Gui := {
  cloud_manager : State;
  form : Form;
  lists : Lists;
  user : User;
  dialogs : list dialog
}.

Definition with_manager (st : State) (g : Gui) : Gui :=
  {| cloud_manager := st; form := form g; lists := lists g;
     user := user g; dialogs := dialogs g |}.

Definition with_form (f : Form) (g : Gui) : Gui :=
  {| cloud_manager := cloud_manager g; form := f; lists := lists g;
     user := user g; dialogs := dialogs g |}.

Definition with_lists (l : Lists) (g : Gui) : Gui :=
  {| cloud_manager := cloud_manager g; form := form g; lists := l;
     user := user g; dialogs := dialogs g |}.

Definition with_dialog (d : dialog) (g : Gui) : Gui :=
  {| cloud_manager := cloud_manager g; form := form g; lists := lists g;
     user := user g; dialogs := dialogs g ++ [d] |}.

(** [var.set(v)] for the variables the handlers set. *)
Definition set_disk_name (v : string) (f : Form) : Form :=
  {| disk_name_var := v; disk_format_var := disk_format_var f;
     disk_size_var := disk_size_var f;
     disk_size_unit_var := disk_size_unit_var f;
     vm_name_var := vm_name_var f; cpu_cores_var := cpu_cores_var f;
     memory_size_var := memory_size_var f;
     memory_unit_var := memory_unit_var f;
     iso_path_var := iso_path_var f;
     iso_dest_name_var := iso_dest_name_var f;
     status_var := status_var f |}.

Definition set_vm_name (v : string) (f : Form) : Form :=
  {| disk_name_var := disk_name_var f;
     disk_format_var := disk_format_var f;
     disk_size_var := disk_size_var f;
     disk_size_unit_var := disk_size_unit_var f;
     vm_name_var := v; cpu_cores_var := cpu_cores_var f;
     memory_size_var := memory_size_var f;
     memory_unit_var := memory_unit_var f;
     iso_path_var := iso_path_var f;
     iso_dest_name_var := iso_dest_name_var f;
     status_var := status_var f |}.

Definition set_iso_path (v : string) (f : Form) : Form :=
  {| disk_name_var := disk_name_var f;
     disk_format_var := disk_format_var f;
     disk_size_var := disk_size_var f;
     disk_size_unit_var := disk_size_unit_var f;
     vm_name_var := vm_name_var f; cpu_cores_var := cpu_cores_var f;
     memory_size_var := memory_size_var f;
     memory_unit_var := memory_unit_var f;
     iso_path_var := v;
     iso_dest_name_var := iso_dest_name_var f;
     status_var := status_var f |}.

Definition set_iso_dest_name (v : string) (f : Form) : Form :=
  {| disk_name_var := disk_name_var f;
     disk_format_var := disk_format_var f;
     disk_size_var := disk_size_var f;
     disk_size_unit_var := disk_size_unit_var f;
     vm_name_var := vm_name_var f; cpu_cores_var := cpu_cores_var f;
     memory_size_var := memory_size_var f;
     memory_unit_var := memory_unit_var f;
     iso_path_var := iso_path_var f;
     iso_dest_name_var := v;
     status_var := status_var f |}.

Definition set_status (v : string) (f : Form) : Form :=
  {| disk_name_var := disk_name_var f;
     disk_format_var := disk_format_var f;
     disk_size_var := disk_size_var f;
     disk_size_unit_var := disk_size_unit_var f;
     vm_name_var := vm_name_var f; cpu_cores_var := cpu_cores_var f;
     memory_size_var := memory_size_var f;
     memory_unit_var := memory_unit_var f;
     iso_path_var := iso_path_var f;
     iso_dest_name_var := iso_dest_name_var f;
     status_var := v |}.

(** The list boxes, the combo box values and the path lists, set. *)
Definition set_disk_listbox (v : list string) (l : Lists) : Lists :=
  {| disk_listbox := v; vm_listbox := vm_listbox l;
     iso_listbox := iso_listbox l;
     disk_combo_values := disk_combo_values l;
     iso_combo_values := iso_combo_values l;
     disk_paths := disk_paths l; iso_paths := iso_paths l |}.

Definition set_vm_listbox (v : list string) (l : Lists) : Lists :=
  {| disk_listbox := disk_listbox l; vm_listbox := v;
     iso_listbox := iso_listbox l;
     disk_combo_values := disk_combo_values l;
     iso_combo_values := iso_combo_values l;
     disk_paths := disk_paths l; iso_paths := iso_paths l |}.

Definition set_iso_listbox (v : list string) (l : Lists) : Lists :=
  {| disk_listbox := disk_listbox l; vm_listbox := vm_listbox l;
     iso_listbox := v;
     disk_combo_values := disk_combo_values l;
     iso_combo_values := iso_combo_values l;
     disk_paths := disk_paths l; iso_paths := iso_paths l |}.

Definition set_disk_combo_values (v : list string) (l : Lists) : Lists :=
  {| disk_listbox := disk_listbox l; vm_listbox := vm_listbox l;
     iso_listbox := iso_listbox l;
     disk_combo_values := v;
     iso_combo_values := iso_combo_values l;
     disk_paths := disk_paths l; iso_paths := iso_paths l |}.

Definition set_iso_combo_values (v : list string) (l : Lists) : Lists :=
  {| disk_listbox := disk_listbox l; vm_listbox := vm_listbox l;
     iso_listbox := iso_listbox l;
     disk_combo_values := disk_combo_values l;
     iso_combo_values := v;
     disk_paths := disk_paths l; iso_paths := iso_paths l |}.

Definition set_disk_paths (v : list string) (l : Lists) : Lists :=
  {| disk_listbox := disk_listbox l; vm_listbox := vm_listbox l;
     iso_listbox := iso_listbox l;
     disk_combo_values := disk_combo_values l;
     iso_combo_values := iso_combo_values l;
     disk_paths := v; iso_paths := iso_paths l |}.

Definition set_iso_paths (v : list string) (l : Lists) : Lists :=
  {| disk_listbox := disk_listbox l; vm_listbox := vm_listbox l;
     iso_listbox := iso_listbox l;
     disk_combo_values := disk_combo_values l;
     iso_combo_values := iso_combo_values l;
     disk_paths := disk_paths l; iso_paths := v |}.

(** *** Handlers as transformers of the window that may raise *)

Definition G (A : Type) : Type := Gui -> outcome A * Gui.

Definition gret {A} (a : A) : G A := fun g => (Ok a, g).

Definition graise {A} (e : exn) : G A := fun g => (Raises e, g).

Definition gbind {A B} (m : G A) (k : A -> G B) : G B :=
  fun g =>
    match m g with
    | (Ok a, g') => k a g'
    | (Raises e, g') => (Raises e, g')
    end.

Declare Scope gui_scope.
Delimit Scope gui_scope with gui.
Notation "x <- m ;; k" := (gbind m (fun x => k))
  (at level 20, m at level 99, k at level 200, only parsing) : gui_scope.
Notation "m ;; k" := (gbind m (fun _ => k))
  (at level 100, k at level 200, only parsing, right associativity)
  : gui_scope.

(** A method of [self.cloud_manager], called. *)
Definition call {A} (m : M A) : G A :=
  fun g =>
    let '(r, st) := m (cloud_manager g) in (r, with_manager st g).

Definition get_form : G Form := fun g => (Ok (form g), g).

Definition get_lists : G Lists := fun g => (Ok (lists g), g).

Definition get_user : G User := fun g => (Ok (user g), g).

Definition update_form (f : Form -> Form) : G unit :=
  fun g => (Ok tt, with_form (f (form g)) g).

Definition update_lists (f : Lists -> Lists) : G unit :=
  fun g => (Ok tt, with_lists (f (lists g)) g).

(** [messagebox.showerror], [messagebox.showinfo] and
    [messagebox.askyesno]. *)
Definition showerror (title message : string) : G unit :=
  fun g => (Ok tt, with_dialog (ShowError title message) g).

Definition showinfo (title message : string) : G unit :=
  fun g => (Ok tt, with_dialog (ShowInfo title message) g).

Definition askyesno (title message : string) : G bool :=
  fun g =>
    (Ok (askyesno_answer (user g)),
     with_dialog (AskYesNo title message) g).

(** [listbox.insert(tk.END, line)] for each of [lines] in turn. *)
Fixpoint insert_lines (insert : string -> Lists -> Lists)
  (lines : list string) : G unit :=
  match lines with
  | [] => gret tt
  | line :: rest =>
      gbind (update_lists (insert line)) (fun _ => insert_lines insert rest)
  end.

Definition disk_listbox_insert (line : string) (l : Lists) : Lists :=
  set_disk_listbox (disk_listbox l ++ [line]) l.

Definition vm_listbox_insert (line : string) (l : Lists) : Lists :=
  set_vm_listbox (vm_listbox l ++ [line]) l.

Definition iso_listbox_insert (line : string) (l : Lists) : Lists :=
  set_iso_listbox (iso_listbox l ++ [line]) l.

(** [f"{disk['name']} ({disk['format']}, {disk['size']})"] *)
Definition disk_line (disk : disk_info) : string :=
  name disk ++ " (" ++ format disk ++ ", " ++ size disk ++ ")".

(** [f"{iso['name']} ({iso['size']})"] *)
Definition iso_line (iso : iso_info) : string :=
  iso_name iso ++ " (" ++ iso_size iso ++ ")".

Definition no_iso_choice : string := "[No ISO (Boot from disk)]".

Definition start_vm_question : string :=
  "Do you want to start this VM now?" ++ newline ++ newline ++
  "Note: If you selected an ISO, the VM will boot from it." ++ newline ++
  "If no ISO was selected, you'll need to have an OS already installed " ++
  "on the disk.".

Section Handlers.

Context `{RT : Runtime}.

Local Open Scope gui_scope.

(** The line of the VM list box for a registry entry:
    [f"{vm['name']} (CPU: {vm['cpu_cores']} cores, Memory:
    {vm['memory']}, Disk: {disk_name})"] with [disk_name] the base name
    of [vm['disk']]. *)
Definition vm_line (vm : VirtualMachine) : string :=
  vm_name vm ++ " (CPU: " ++ str_of_int (vm_cpu_cores vm) ++
  " cores, Memory: " ++ vm_memory vm ++ ", Disk: " ++
  path_basename (vm_disk vm) ++ ")".

(** [CloudManagerGUI.refresh_disk_list] *)
Definition refresh_disk_list : G unit :=
  update_lists (set_disk_listbox []) ;;
  disks <- call list_virtual_disks ;;
  let disk_paths := List.map path disks in
  let disk_display := List.map disk_line disks in
  update_lists (set_disk_combo_values disk_display) ;;
  update_lists (set_disk_paths disk_paths) ;;
  insert_lines disk_listbox_insert (List.map disk_line disks) ;;
  match disks with
  | _ :: _ =>
      update_form
        (set_status ("Found " ++
                     str_of_int (Z.of_nat (List.length disks)) ++
                     " virtual disk(s)"))
  | [] =>
      update_form (set_status "No virtual disks found. Create one first.")
  end.

(** The loop of [refresh_vm_list] over the registry entries, each read
    as a VM definition; as in [registry_entry], an entry of another
    shape is outside the data model and raises [TypeError] here. *)
Fixpoint insert_vm_lines (entries : list pyval) : G unit :=
  match entries with
  | [] => gret tt
  | v :: rest =>
      match vm_of_pyval v with
      | Some vm =>
          update_lists (vm_listbox_insert (vm_line vm)) ;;
          insert_vm_lines rest
      | None => graise TypeError
      end
  end.

(** [CloudManagerGUI.refresh_vm_list] *)
Definition refresh_vm_list : G unit :=
  update_lists (set_vm_listbox []) ;;
  registry <- call get_vms ;;
  match registry with
  | PList entries =>
      insert_vm_lines entries ;;
      match entries with
      | _ :: _ =>
          update_form
            (set_status ("Found " ++
                         str_of_int (Z.of_nat (List.length entries)) ++
                         " virtual machine(s)"))
      | [] =>
          update_form
            (set_status "No virtual machines found. Create one first.")
      end
  | _ => graise TypeError
  end.

(** [CloudManagerGUI.refresh_iso_list]; the window has its [iso_combo]
    from [setup_vms_tab] on. *)
Definition refresh_iso_list : G unit :=
  update_lists (set_iso_listbox []) ;;
  isos <- call list_iso_files ;;
  let iso_paths := List.map iso_path isos in
  let iso_display := List.map iso_line isos in
  update_lists (set_iso_combo_values iso_display) ;;
  match iso_display with
  | _ :: _ =>
      update_lists (set_iso_combo_values (no_iso_choice :: iso_display))
  | [] => update_lists (set_iso_combo_values [no_iso_choice])
  end ;;
  update_lists (set_iso_paths iso_paths) ;;
  insert_lines iso_listbox_insert (List.map iso_line isos) ;;
  match isos with
  | _ :: _ =>
      update_form
        (set_status ("Found " ++
                     str_of_int (Z.of_nat (List.length isos)) ++
                     " ISO image(s)"))
  | [] =>
      update_form (set_status "No ISO images found. Import one first.")
  end.

(** [CloudManagerGUI.create_disk] *)
Definition create_disk : G unit :=
  f <- get_form ;;
  let disk_name := strip (disk_name_var f) in
  let disk_format := disk_format_var f in
  let disk_size := disk_size_var f ++ disk_size_unit_var f in
  if (disk_name =? "")%string then
    showerror "Error" "Disk name cannot be empty"
  else
    result <- call (create_virtual_disk disk_name disk_format disk_size) ;;
    let '(success, message) := result in
    if success then
      showinfo "Success" message ;;
      update_form (set_disk_name "") ;;
      refresh_disk_list
    else showerror "Error" message.

(** The end of [create_vm], from the call of the backend on. *)
Definition create_and_offer_start (vm_name : string) (cpu_cores : Z)
  (memory_size disk_path : string) (iso_path : option string) : G unit :=
  result <- call (create_virtual_machine vm_name cpu_cores memory_size
                    disk_path iso_path) ;;
  let '(success, message) := result in
  if success then
    showinfo "Success" message ;;
    update_form (set_vm_name "") ;;
    refresh_vm_list ;;
    start_now <- askyesno "Start VM" start_vm_question ;;
    if start_now then
      registry <- call get_vms ;;
      match registry with
      | PList entries =>
          let vm_index := Z.of_nat (List.length entries) - 1 in
          result <- call (start_virtual_machine vm_index) ;;
          let '(success, message) := result in
          if success then showinfo "Success" message
          else showerror "Error" message
      | _ => graise TypeError
      end
    else gret tt
  else showerror "Error" message.

(** [CloudManagerGUI.create_vm] *)
Definition create_vm : G unit :=
  f <- get_form ;;
  u <- get_user ;;
  l <- get_lists ;;
  let vm_name := strip (vm_name_var f) in
  match int_of_str (cpu_cores_var f) with
  | Raises ValueError =>
      showerror "Error" "CPU cores must be a valid number"
  | Raises e => graise e
  | Ok cpu_cores =>
      let memory_size := memory_size_var f ++ memory_unit_var f in
      let disk_index := disk_combo_current u in
      if disk_index <? 0 then
        showerror "Error" "Please select a virtual disk"
      else
        match list_index (disk_paths l) disk_index with
        | Raises IndexError | Raises AttributeError =>
            showerror "Error"
              "No virtual disks available. Create one first."
        | Raises e => graise e
        | Ok disk_path =>
            let iso_index := iso_combo_current u in
            let iso_path :=
              if 0 <? iso_index then
                match list_index (iso_paths l) (iso_index - 1) with
                | Ok p => Some p
                | Raises _ => None
                end
              else None in
            if (vm_name =? "")%string then
              showerror "Error" "VM name cannot be empty"
            else
              disk_present <- call (path_exists disk_path) ;;
              if negb disk_present then
                showerror "Error"
                  ("Disk file not found: " ++ disk_path ++ newline ++
                   "Please refresh the disk list and try again.")
              else
                let create :=
                  create_and_offer_start vm_name cpu_cores memory_size
                    disk_path iso_path in
                match iso_path with
                | Some p =>
                    if (p =? "")%string then create
                    else
                      iso_present <- call (path_exists p) ;;
                      if negb iso_present then
                        showerror "Error"
                          ("ISO file not found: " ++ p ++ newline ++
                           "Please refresh the ISO list and try again.")
                      else create
                | None => create
                end
        end
  end.

(** [CloudManagerGUI.start_vm] *)
Definition start_vm : G unit :=
  u <- get_user ;;
  match vm_listbox_curselection u with
  | [] => showerror "Error" "Please select a virtual machine to start"
  | vm_index :: _ =>
      result <- call (start_virtual_machine vm_index) ;;
      let '(success, message) := result in
      if success then showinfo "Success" message
      else showerror "Error" message
  end.

(** [CloudManagerGUI.browse_iso] *)
Definition browse_iso : G unit :=
  u <- get_user ;;
  let file_path := askopenfilename_answer u in
  if (file_path =? "")%string then gret tt
  else
    update_form (set_iso_path file_path) ;;
    update_form (set_iso_dest_name (path_basename file_path)).

(** [CloudManagerGUI.import_iso] *)
Definition import_iso : G unit :=
  f <- get_form ;;
  let source_path := strip (iso_path_var f) in
  let dest_name := strip (iso_dest_name_var f) in
  let dest_name :=
    if (dest_name =? "")%string then None else Some dest_name in
  if (source_path =? "")%string then
    showerror "Error" "Please select an ISO file to import"
  else
    result <- call (import_iso_file source_path dest_name) ;;
    let '(success, message) := result in
    if success then
      showinfo "Success" message ;;
      update_form (set_iso_path "") ;;
      update_form (set_iso_dest_name "") ;;
      refresh_iso_list
    else showerror "Error" message.

End Handlers.

(** ** A runtime: POSIX paths and the JSON text format *)

Module Posix.

(** [posixpath.join(a, b)] *)
Definition join (a b : string) : string :=
  if String.prefix "/" b then b
  else match last_char a with
       | None => b
       | Some c => if Ascii.eqb c "/" then a ++ b else a ++ "/" ++ b
       end.

(** [posixpath.basename(p)]: what follows the last slash. *)
Definition basename (p : string) : string :=
  List.last (split "/" p) "".

(** One step of the loop of [posixpath.normpath] over the components. *)
Definition normpath_step (rooted : bool) (new_comps : list string)
  (comp : string) : list string :=
  if (comp =? "")%string || (comp =? ".")%string then new_comps
  else if negb (comp =? "..")%string
          || (negb rooted && match new_comps with [] => true | _ => false end)
          || match new_comps with
             | [] => false
             | _ => (List.last new_comps "" =? "..")%string
             end
       then (new_comps ++ [comp])%list
       else List.removelast new_comps.

(** [posixpath.normpath(path)] *)
Definition normpath (path : string) : string :=
  match path with
  | EmptyString => "."
  | _ =>
      let initial_slashes :=
        if String.prefix "/" path then
          if String.prefix "//" path && negb (String.prefix "///" path)
          then "//" else "/"
        else "" in
      let rooted := String.prefix "/" path in
      let comps :=
        fold_left (normpath_step rooted) (split "/" path) [] in
      match initial_slashes ++ Py.join "/" comps with
      | EmptyString => "."
      | r => r
      end
  end.

(** [posixpath.abspath(path)] in the working directory [cwd]. *)
Definition abspath (cwd path : string) : string :=
  if String.prefix "/" path then normpath path
  else normpath (join cwd path).

End Posix.

Module Json.

Definition dquote : ascii := "034"%char.
Definition backslash : ascii := "092"%char.

Definition hex_digit (n : nat) : ascii :=
  if (n <? 10)%nat then ascii_of_nat (48 + n) else ascii_of_nat (87 + n).

(** One character of a string as [json.dump] writes it
    ([ensure_ascii=True]). *)
Definition escape_char (c : ascii) : string :=
  let n := nat_of_ascii c in
  if Ascii.eqb c dquote then String backslash (String dquote "")
  else if Ascii.eqb c backslash then String backslash (String backslash "")
  else if (n =? 8)%nat then String backslash "b"
  else if (n =? 9)%nat then String backslash "t"
  else if (n =? 10)%nat then String backslash "n"
  else if (n =? 12)%nat then String backslash "f"
  else if (n =? 13)%nat then String backslash "r"
  else if ((32 <=? n) && (n <=? 126))%nat then String c ""
  else String backslash
         (String "u" (String "0" (String "0"
           (String (hex_digit (n / 16))
              (String (hex_digit (n mod 16)) ""))))).

Fixpoint escape (s : string) : string :=
  match s with
  | EmptyString => EmptyString
  | String c r => escape_char c ++ escape r
  end.

Definition encode_string (s : string) : string :=
  String dquote (escape s ++ String dquote "").

(** *** [float.__repr__]: the shortest digits that read back *)

Definition f64_eqb (x y : spec_float) : bool :=
  match x, y with
  | S754_finite s1 m1 e1, S754_finite s2 m2 e2 =>
      Bool.eqb s1 s2 && (m1 =? m2)%positive && (e1 =? e2)
  | _, _ => false
  end.

(** The double read from the digits [c] scaled by [10 ^ p]. *)
Definition f64_of_decimal (c p : Z) : spec_float :=
  if 0 <=? p then f64_of_ratio false (c * 10 ^ p) 1
  else f64_of_ratio false c (Z.to_pos (10 ^ (- p))).

(** [10 ^ k <= num / den] *)
Definition pow10_le (k : Z) (num den : Z) : bool :=
  if 0 <=? k then 10 ^ k * den <=? num else den <=? num * 10 ^ (- k).

(** The largest [k] with [10 ^ k <= num / den], searched upward from an
    estimate below it. *)
Fixpoint decimal_exponent (fuel : nat) (k num den : Z) : Z :=
  match fuel with
  | O => k
  | S fuel' =>
      if pow10_le (k + 1) num den
      then decimal_exponent fuel' (k + 1) num den
      else k
  end.

(** For [n] significant digits: the decimal with [n] digits nearest to
    [num / den] that reads back as [x], as its digits and the power of
    ten of its last digit. *)
Definition candidate (x : spec_float) (num den k : Z) (n : Z)
  : option (Z * Z) :=
  let p := k - n + 1 in
  let '(snum, sden) :=
    if 0 <=? p then (num, den * 10 ^ p) else (num * 10 ^ (- p), den) in
  let lo := snum / sden in
  let r := snum mod sden in
  let ok c := f64_eqb (f64_of_decimal c p) x in
  if r =? 0 then (if ok lo then Some (lo, p) else None)
  else
    match ok lo, ok (lo + 1) with
    | true, false => Some (lo, p)
    | false, true => Some (lo + 1, p)
    | true, true =>
        match 2 * r ?= sden with
        | Lt => Some (lo, p)
        | Gt => Some (lo + 1, p)
        | Eq => Some (if Z.even lo then lo else lo + 1, p)
        end
    | false, false => None
    end.

Fixpoint shortest (fuel : nat) (x : spec_float) (num den k n : Z)
  : Z * Z :=
  match fuel with
  | O => (num / den, 0)
  | S fuel' =>
      match candidate x num den k n with
      | Some r => r
      | None => shortest fuel' x num den k (n + 1)
      end
  end.

Fixpoint strip_zeros (fuel : nat) (c p : Z) : Z * Z :=
  match fuel with
  | O => (c, p)
  | S fuel' =>
      if (c mod 10 =? 0) && negb (c =? 0)
      then strip_zeros fuel' (c / 10) (p + 1)
      else (c, p)
  end.

Fixpoint zeros (n : nat) : string :=
  match n with
  | O => EmptyString
  | S n' => String "0" (zeros n')
  end.

(** [repr(x)] for a positive finite double given as [m * 2 ^ e]. *)
Definition repr_positive (m : positive) (e : Z) : string :=
  let x := S754_finite false m e in
  let '(num, den) :=
    if 0 <=? e then (Zpos m * 2 ^ e, 1) else (Zpos m, 2 ^ (- e)) in
  let estimate := (Z.log2 num - Z.log2 den) * 3 / 10 - 2 in
  let k := decimal_exponent 8 estimate num den in
  let '(c, p) := shortest 17 x num den k 1 in
  let '(c, p) := strip_zeros 400 c p in
  let digits := str_of_int c in
  let ndigits := Z.of_nat (String.length digits) in
  let decpt := p + ndigits in
  if (decpt <=? -4) || (16 <? decpt) then
    let mantissa :=
      match digits with
      | String d EmptyString => digits
      | String d r => String d (String "." r)
      | EmptyString => digits
      end in
    let ex := decpt - 1 in
    mantissa ++ "e" ++ (if ex <? 0 then "-" else "+") ++
    (if Z.abs ex <? 10 then "0" else "") ++ str_of_int (Z.abs ex)
  else if decpt <=? 0 then
    "0." ++ zeros (Z.to_nat (- decpt)) ++ digits
  else if ndigits <=? decpt then
    digits ++ zeros (Z.to_nat (decpt - ndigits)) ++ ".0"
  else
    String.substring 0 (Z.to_nat decpt) digits ++ "." ++
    String.substring (Z.to_nat decpt)
      (Z.to_nat (ndigits - decpt)) digits.

(** A float as [json.dump] writes it. *)
Definition encode_float (x : spec_float) : string :=
  match x with
  | S754_nan => "NaN"
  | S754_infinity s => if s then "-Infinity" else "Infinity"
  | S754_zero s => if s then "-0.0" else "0.0"
  | S754_finite s m e =>
      (if s then "-" else "") ++ repr_positive m e
  end.

(** *** Writing *)

Fixpoint spaces (n : nat) : string :=
  match n with
  | O => EmptyString
  | S n' => String " " (spaces n')
  end.

Definition line_indent (level : nat) : string :=
  newline ++ spaces (4 * level).

(** [json.dumps(v, indent=4)], [level] being the nesting depth. *)
Fixpoint dump (level : nat) (v : pyval) : string :=
  match v with
  | PNone => "null"
  | PBool b => if b then "true" else "false"
  | PInt n => str_of_int n
  | PFloat x => encode_float x
  | PStr s => encode_string s
  | PList [] => "[]"
  | PList items =>
      "[" ++ line_indent (S level) ++
      Py.join ("," ++ line_indent (S level))
        (List.map (dump (S level)) items) ++
      line_indent level ++ "]"
  | PDict [] => "{}"
  | PDict entries =>
      "{" ++ line_indent (S level) ++
      Py.join ("," ++ line_indent (S level))
        (List.map (fun kv => encode_string (fst kv) ++ ": " ++
                             dump (S level) (snd kv)) entries) ++
      line_indent level ++ "}"
  end.

Definition dumps (v : pyval) : string := dump 0 v.

(** *** Reading *)

Definition is_ws (c : ascii) : bool :=
  char_in c [" "; "009"; "010"; "013"]%char.

Fixpoint skip_ws (s : string) : string :=
  match s with
  | String c r => if is_ws c then skip_ws r else s
  | EmptyString => EmptyString
  end.

Definition hex_value (c : ascii) : option nat :=
  let n := nat_of_ascii c in
  if ((48 <=? n) && (n <=? 57))%nat then Some (n - 48)%nat
  else if ((65 <=? n) && (n <=? 70))%nat then Some (n - 55)%nat
  else if ((97 <=? n) && (n <=? 102))%nat then Some (n - 87)%nat
  else None.

(** The character named by the four hexadecimal digits of an escape.  A
    [string] holds the characters below 256 only: an escape naming a
    higher one is reported as a decoding error. *)
Definition unicode_escape (a b c d : ascii) : option ascii :=
  match hex_value a, hex_value b, hex_value c, hex_value d with
  | Some 0%nat, Some 0%nat, Some h, Some l => Some (ascii_of_nat (16 * h + l))
  | _, _, _, _ => None
  end.

(** The rest of a string literal after its opening quote
    ([strict=True]), [acc] being the characters read so far. *)
Fixpoint scan_string (s acc : string) : outcome (string * string) :=
  match s with
  | EmptyString => Raises JSONDecodeError
  | String c r =>
      if Ascii.eqb c dquote then Ok (acc, r)
      else if Ascii.eqb c backslash then
        match r with
        | String "u" (String h1 (String h2 (String h3 (String h4 r')))) =>
            match unicode_escape h1 h2 h3 h4 with
            | Some u => scan_string r' (acc ++ String u "")
            | None => Raises JSONDecodeError
            end
        | String e r' =>
            let plain (u : ascii) := scan_string r' (acc ++ String u "") in
            if Ascii.eqb e dquote then plain dquote
            else if Ascii.eqb e backslash then plain backslash
            else if Ascii.eqb e "/" then plain "/"%char
            else if Ascii.eqb e "b" then plain "008"%char
            else if Ascii.eqb e "f" then plain "012"%char
            else if Ascii.eqb e "n" then plain "010"%char
            else if Ascii.eqb e "r" then plain "013"%char
            else if Ascii.eqb e "t" then plain "009"%char
            else Raises JSONDecodeError
        | EmptyString => Raises JSONDecodeError
        end
      else if (nat_of_ascii c <? 32)%nat then Raises JSONDecodeError
      else scan_string r (acc ++ String c "")
  end.

(** The longest run of digits at the head of [s], and what follows. *)
Fixpoint digit_run (s : string) : string * string :=
  match s with
  | String c r =>
      if is_digit c then let '(d, rest) := digit_run r in (String c d, rest)
      else (EmptyString, s)
  | EmptyString => (EmptyString, EmptyString)
  end.

(** A number at the head of [s], after [NUMBER_RE] of [json.scanner]: an
    optional minus, then a zero or a run of digits not led by a zero, an
    optional fraction, an optional exponent.  Its text, whether it has a
    fraction or an exponent, and what follows. *)
Definition scan_number (s : string) : option (string * bool * string) :=
  let '(sign, body) :=
    match s with
    | String "-" r => ("-", r)
    | _ => ("", s)
    end in
  let integer :=
    match body with
    | String "0" r => Some ("0", r)
    | String c _ =>
        if is_digit c then Some (digit_run body) else None
    | EmptyString => None
    end in
  match integer with
  | None => None
  | Some (ip, r1) =>
      let '(fp, r2) :=
        match r1 with
        | String "." r =>
            match digit_run r with
            | (String _ _ as d, rest) => ("." ++ d, rest)
            | _ => ("", r1)
            end
        | _ => ("", r1)
        end in
      let '(ep, r3) :=
        match r2 with
        | String c r =>
            if char_in c ["e"; "E"]%char then
              let '(es, r') :=
                match r with
                | String "-" t => ("-", t)
                | String "+" t => ("+", t)
                | _ => ("", r)
                end in
              match digit_run r' with
              | (String _ _ as d, rest) => (String c (es ++ d), rest)
              | _ => ("", r2)
              end
            else ("", r2)
        | EmptyString => ("", r2)
        end in
      Some (sign ++ ip ++ fp ++ ep,
            negb ((fp =? "")%string && (ep =? "")%string), r3)
  end.

(** [dict(pairs)]: a later value for a key replaces the earlier one in
    its place. *)
Fixpoint dict_set (key : string) (v : pyval) (d : list (string * pyval))
  : list (string * pyval) :=
  match d with
  | [] => [(key, v)]
  | (k, old) :: r =>
      if (k =? key)%string then (k, v) :: r
      else (k, old) :: dict_set key v r
  end.

(** The value at the head of [s]; [parse_items] and [parse_members] read
    what follows the first element of an array and the first key of an
    object.  [fuel] bounds the nesting. *)
Fixpoint parse_value (fuel : nat) (s : string) : outcome (pyval * string) :=
  match fuel with
  | O => Raises JSONDecodeError
  | S fuel' =>
      match s with
      | String c r =>
          if Ascii.eqb c dquote then
            obind (scan_string r "") (fun '(t, rest) => Ok (PStr t, rest))
          else if Ascii.eqb c "{" then
            match skip_ws r with
            | String "}" rest => Ok (PDict [], rest)
            | r' => parse_members fuel' r' []
            end
          else if Ascii.eqb c "[" then
            match skip_ws r with
            | String "]" rest => Ok (PList [], rest)
            | r' => parse_items fuel' r' []
            end
          else if String.prefix "null" s then
            Ok (PNone, String.substring 4 (String.length s - 4) s)
          else if String.prefix "true" s then
            Ok (PBool true, String.substring 4 (String.length s - 4) s)
          else if String.prefix "false" s then
            Ok (PBool false, String.substring 5 (String.length s - 5) s)
          else
            match scan_number s with
            | Some (text, false, rest) =>
                obind (int_of_str text) (fun n => Ok (PInt n, rest))
            | Some (text, true, rest) =>
                obind (float_of_str text) (fun x => Ok (PFloat x, rest))
            | None =>
                if String.prefix "NaN" s then
                  Ok (PFloat S754_nan,
                      String.substring 3 (String.length s - 3) s)
                else if String.prefix "Infinity" s then
                  Ok (PFloat (S754_infinity false),
                      String.substring 8 (String.length s - 8) s)
                else if String.prefix "-Infinity" s then
                  Ok (PFloat (S754_infinity true),
                      String.substring 9 (String.length s - 9) s)
                else Raises JSONDecodeError
            end
      | EmptyString => Raises JSONDecodeError
      end
  end
with parse_items (fuel : nat) (s : string) (acc : list pyval)
  : outcome (pyval * string) :=
  match fuel with
  | O => Raises JSONDecodeError
  | S fuel' =>
      obind (parse_value fuel' s) (fun '(v, rest) =>
        match skip_ws rest with
        | String "]" rest' => Ok (PList (acc ++ [v]), rest')
        | String "," rest' => parse_items fuel' (skip_ws rest') (acc ++ [v])
        | _ => Raises JSONDecodeError
        end)
  end
with parse_members (fuel : nat) (s : string) (acc : list (string * pyval))
  : outcome (pyval * string) :=
  match fuel with
  | O => Raises JSONDecodeError
  | S fuel' =>
      match s with
      | String c r =>
          if Ascii.eqb c dquote then
            obind (scan_string r "") (fun '(key, rest) =>
              match skip_ws rest with
              | String ":" rest' =>
                  obind (parse_value fuel' (skip_ws rest'))
                    (fun '(v, rest'') =>
                       match skip_ws rest'' with
                       | String "}" t => Ok (PDict (dict_set key v acc), t)
                       | String "," t =>
                           parse_members fuel' (skip_ws t)
                             (dict_set key v acc)
                       | _ => Raises JSONDecodeError
                       end)
              | _ => Raises JSONDecodeError
              end)
          else Raises JSONDecodeError
      | EmptyString => Raises JSONDecodeError
      end
  end.

(** [json.loads(s)] *)
Definition loads (s : string) : outcome pyval :=
  obind (parse_value (2 * String.length s + 2) (skip_ws s))
    (fun '(v, rest) =>
       match skip_ws rest with
       | EmptyString => Ok v
       | _ => Raises JSONDecodeError
       end).

(** *** The recursion limit

    The scanner of [json] enters one recursive call for each array and
    each object it opens, and the interpreter raises [RecursionError]
    when a call would pass its recursion limit.  With room for [depth]
    such calls where [json.load] is called, the array or object that
    opens with [depth] others open around it raises; a value that is
    neither is read as [parse_value] reads it. *)
Fixpoint parse_value_within (depth fuel : nat) (s : string)
  : outcome (pyval * string) :=
  match fuel with
  | O => Raises JSONDecodeError
  | S fuel' =>
      match s with
      | String c r =>
          if Ascii.eqb c "{" then
            match depth with
            | O => Raises RecursionError
            | S depth' =>
                match skip_ws r with
                | String "}" rest => Ok (PDict [], rest)
                | r' => parse_members_within depth' fuel' r' []
                end
            end
          else if Ascii.eqb c "[" then
            match depth with
            | O => Raises RecursionError
            | S depth' =>
                match skip_ws r with
                | String "]" rest => Ok (PList [], rest)
                | r' => parse_items_within depth' fuel' r' []
                end
            end
          else parse_value 1 s
      | EmptyString => Raises JSONDecodeError
      end
  end
with parse_items_within (depth fuel : nat) (s : string) (acc : list pyval)
  : outcome (pyval * string) :=
  match fuel with
  | O => Raises JSONDecodeError
  | S fuel' =>
      obind (parse_value_within depth fuel' s) (fun '(v, rest) =>
        match skip_ws rest with
        | String "]" rest' => Ok (PList (acc ++ [v]), rest')
        | String "," rest' =>
            parse_items_within depth fuel' (skip_ws rest') (acc ++ [v])
        | _ => Raises JSONDecodeError
        end)
  end
with parse_members_within (depth fuel : nat) (s : string)
  (acc : list (string * pyval)) : outcome (pyval * string) :=
  match fuel with
  | O => Raises JSONDecodeError
  | S fuel' =>
      match s with
      | String c r =>
          if Ascii.eqb c dquote then
            obind (scan_string r "") (fun '(key, rest) =>
              match skip_ws rest with
              | String ":" rest' =>
                  obind (parse_value_within depth fuel' (skip_ws rest'))
                    (fun '(v, rest'') =>
                       match skip_ws rest'' with
                       | String "}" t => Ok (PDict (dict_set key v acc), t)
                       | String "," t =>
                           parse_members_within depth fuel' (skip_ws t)
                             (dict_set key v acc)
                       | _ => Raises JSONDecodeError
                       end)
              | _ => Raises JSONDecodeError
              end)
          else Raises JSONDecodeError
      | EmptyString => Raises JSONDecodeError
      end
  end.

(** [json.loads(s)] with room for [depth] recursive calls *)
Definition loads_within (depth : nat) (s : string) : outcome pyval :=
  obind (parse_value_within depth (2 * String.length s + 2) (skip_ws s))
    (fun '(v, rest) =>
       match skip_ws rest with
       | EmptyString => Ok v
       | _ => Raises JSONDecodeError
       end).

End Json.

(** [repr(s)] for a [str] of printable ASCII characters without quotes
    or backslashes, and [repr(l)] for a list of such. *)
Definition repr_str (s : string) : string := "'" ++ s ++ "'".

Definition repr_list (l : list string) : string :=
  "[" ++ join ", " (List.map repr_str l) ++ "]".

(** [str(e)]: the text an [OSError] carries; for a
    [CalledProcessError] with a non-negative exit status the sentence of
    [subprocess]. *)
Definition str_of_exn (e : exn) : string :=
  match e with
  | OSError msg => msg
  | CalledProcessError cmd code _ =>
      "Command '" ++ repr_list cmd ++
      "' returned non-zero exit status " ++ str_of_int code ++ "."
  | _ => ""
  end.

(** CPython on a POSIX system, run in the directory [cwd]. *)
Definition posix_runtime (cwd : string) : Runtime := {|
  json_dumps := Json.dumps;
  json_loads := Json.loads;
  path_join := Posix.join;
  path_abspath := Posix.abspath cwd;
  path_basename := Posix.basename;
  exn_str := str_of_exn
|}.

(** The same with the recursion limit counted: [depth] arrays and
    objects can be open at once when the registry is read. *)
Definition posix_runtime_within (depth : nat) (cwd : string) : Runtime := {|
  json_dumps := Json.dumps;
  json_loads := Json.loads_within depth;
  path_join := Posix.join;
  path_abspath := Posix.abspath cwd;
  path_basename := Posix.basename;
  exn_str := str_of_exn
|}.

(** CPython on Windows, run in [C:\cloud], for relative paths without
    dots or drive letters: [ntpath.join] puts a backslash between its
    arguments and [ntpath.abspath] prefixes the working directory. *)
Definition windows_runtime : Runtime := {|
  json_dumps := Json.dumps;
  json_loads := Json.loads;
  path_join := fun a b => a ++ "\" ++ b;
  path_abspath := fun p => "C:\cloud\" ++ p;
  path_basename :=
    fun p => List.last (split "\" (replace_char "/" "\" p)) "";
  exn_str := str_of_exn
|}.

(** ** Vocabulary of the statements *)

(** The final character of [s] is one of K, M, G in either case. *)
Definition has_unit_letter (s : string) : Prop :=
  exists c, last_char s = Some c /\
            In c ["K"; "M"; "G"; "k"; "m"; "g"]%char.

(** Every character of [s] is a decimal digit. *)
Fixpoint all_digits (s : string) : bool :=
  match s with
  | EmptyString => true
  | String c r => is_digit c && all_digits r
  end.

(** The value of a finite double as a rational number. *)
Definition f64_value (x : spec_float) : option Q :=
  match x with
  | S754_zero _ => Some 0%Q
  | S754_finite s m e =>
      let n := if s then Zneg m else Zpos m in
      Some (if 0 <=? e then inject_Z (n * 2 ^ e)
            else n # Z.to_pos (2 ^ (- e)))
  | _ => None
  end.

(** Truncation toward zero. *)
Definition Qtrunc (q : Q) : Z :=
  if Qle_bool 0 q then Qfloor q else Qceiling q.

(** [z] is an integer nearest to [q]: a value that rounding [q] to the
    nearest integer may return. *)
Definition nearest_integer (q : Q) (z : Z) : Prop :=
  (Qabs (inject_Z z - q) <= 1 # 2)%Q.

(** The first character of a JSON number: a digit or a minus. *)
Definition number_head (c : ascii) : bool :=
  is_digit c || Ascii.eqb c "-".

(** The value under ["iso"] in a registry entry. *)
Definition iso_value (iso : option string) : pyval :=
  match iso with Some p => PStr p | None => PNone end.

(** The runtime writes and reads the JSON text format of [Json]. *)
Definition standard_json (RT : Runtime) : Prop :=
  @json_dumps RT = Json.dumps /\ @json_loads RT = Json.loads.

(** The texts printed, the external commands run and the processes
    started, as a log records them. *)
Definition printed (log : list event) : list string :=
  omap (fun e => match e with Print t => Some t | _ => None end) log.

Definition runs (log : list event) : list (list string) :=
  omap (fun e => match e with Run argv => Some argv | _ => None end) log.

Definition spawns (log : list event) : list (list string) :=
  omap (fun e => match e with Popen argv _ _ => Some argv | _ => None end)
    log.

(** The on-disk registry is absent, unreadable as JSON or an empty
    array, and the list in memory is empty: a manager with no VM. *)
Definition empty_registry `{RT : Runtime} (st : State) : Prop :=
  virtual_machines st = PList [] /\
  (lookup_path vms_file (os st) = None \/
   exists text,
     lookup_path vms_file (os st) = Some (File text) /\
     (json_loads text = Raises JSONDecodeError \/
      json_loads text = Ok (PList []))).

(** The registry path holds no directory. *)
Definition registry_writable (st : State) : Prop :=
  forall names, lookup_path vms_file (os st) <> Some (Dir names).

(** [create_virtual_machine] called for each definition in turn. *)
Fixpoint create_all `{RT : Runtime} (vms : list VirtualMachine) : M unit :=
  match vms with
  | [] => ret tt
  | vm :: rest =>
      create_virtual_machine (vm_name vm) (vm_cpu_cores vm) (vm_memory vm)
        (vm_disk vm) (vm_iso vm) ;;
      create_all rest
  end.

(** [enumerate(l, i)] *)
Fixpoint enumerate {A} (i : Z) (l : list A) : list (Z * A) :=
  match l with
  | [] => []
  | a :: r => (i, a) :: enumerate (i + 1) r
  end.

(** The entry of a disk whose [qemu-img info] query failed. *)
Definition unknown_entry `{RT : Runtime} (i : Z) (filename : string)
  (size_bytes : Z) : disk_info :=
  {| index := i; name := filename;
     path := path_join disks_dir filename;
     format := "Unknown";
     size := format_2f (f64_of_ratio false size_bytes (1024 * 1024)) ++
             " MB" |}.

(** The entry of a disk whose query printed [info]. *)
Definition known_entry `{RT : Runtime} (i : Z) (filename : string)
  (size_bytes : Z) (info : string) : disk_info :=
  let '(format_info, size_info) :=
    scan_info (splitlines info) "Unknown"
      (format_2f (f64_of_ratio false size_bytes (1024 * 1024)) ++
       " MB (physical)") in
  {| index := i; name := filename;
     path := path_join disks_dir filename;
     format := format_info; size := size_info |}.

(** What the listing reports for the [i]-th directory entry, from that
    entry alone: nothing unless it is a regular file, else the entry its
    own [qemu-img info] query decides. *)
Definition disk_entry `{RT : Runtime} (w : World) (ix : Z * string)
  : option disk_info :=
  let '(i, filename) := ix in
  let disk_path := path_join disks_dir filename in
  match lookup_path disk_path w with
  | Some (File data) =>
      let size_bytes := Z.of_nat (String.length data) in
      match fst (w_tool w ["qemu-img"; "info"; disk_path] (w_fs w)) with
      | Done c =>
          Some (if returncode c =? 0
                then known_entry i filename size_bytes (stdout c)
                else unknown_entry i filename size_bytes)
      | Failed _ => None
      end
  | _ => None
  end.

(** [qemu-img info] can be started on any path and changes no file. *)
Definition info_available (w : World) : Prop :=
  forall (p : string) (fs : gmap string node),
    exists c, w_tool w ["qemu-img"; "info"; p] fs = (Done c, fs).

(** The hypervisor invocation: the boot part is the cdrom attachment
    with boot order [d] when an ISO path is given, boot order [c]
    otherwise. *)
Definition launch_command (vm_name mem_mb cores disk_path : string)
  (iso_path : option string) : list string :=
  (["qemu-system-x86_64"; "-name"; vm_name; "-m"; mem_mb; "-smp"; cores;
    "-hda"; disk_path] ++
   match iso_path with
   | Some p => ["-cdrom"; p; "-boot"; "d"]
   | None => ["-boot"; "c"]
   end ++
   ["-device"; "e1000,netdev=net0"; "-netdev"; "user,id=net0";
    "-accel"; "tcg"; "-display"; "sdl"])%list.

(** A path made absolute, with forward slashes. *)
Definition normal_path `{RT : Runtime} (p : string) : string :=
  replace_char "\" "/" (path_abspath p).

(** The ISO of [vm] when it is present and something exists at its
    path in [w]. *)
Definition existing_iso (w : World) (vm : VirtualMachine) : option string :=
  match vm_iso vm with
  | Some p =>
      match lookup_path p w with
      | Some _ => Some p
      | None => None
      end
  | None => None
  end.

(** The command [start_virtual_machine] builds for [vm] in [w], given
    its memory in megabytes. *)
Definition start_command `{RT : Runtime} (w : World) (vm : VirtualMachine)
  (memory_mb : Z) : list string :=
  launch_command (vm_name vm) (str_of_int memory_mb)
    (str_of_int (vm_cpu_cores vm)) (normal_path (vm_disk vm))
    (option_map normal_path (existing_iso w vm)).

(** *** A world to run the methods in *)

Definition qemu_img_info_text : string :=
  "image: virtual_disks/alpha.qcow2" ++ newline ++
  "file format: qcow2" ++ newline ++
  "virtual size: 5 GiB (5368709120 bytes)" ++ newline ++
  "disk size: 196 KiB" ++ newline.

(** [qemu-img]: [create] makes the image file, [info] fails on
    ["broken.img"]; no other program is installed. *)
Definition example_tool (argv : list string) (fs : gmap string node)
  : os_result completed * gmap string node :=
  match argv with
  | ["qemu-img"; "info"; p] =>
      if (p =? "virtual_disks/broken.img")%string
      then (Done {| returncode := 1; stdout := "";
                    stderr := "qemu-img: Could not open" |}, fs)
      else (Done {| returncode := 0; stdout := qemu_img_info_text;
                    stderr := "" |}, fs)
  | ["qemu-img"; "create"; "-f"; _; p; _] =>
      (Done {| returncode := 0; stdout := "Formatting"; stderr := "" |},
       <[p := File ""]> fs)
  | _ => (Failed "No such file or directory", fs)
  end.

Definition example_move (src dst : string) (fs : gmap string node)
  : os_result (gmap string node) :=
  match fs !! src with
  | Some nd => Done (<[dst := nd]> (delete src fs))
  | None => Failed "No such file or directory"
  end.

Definition example_world : World := {|
  w_system := "Linux";
  w_fs :=
    <["virtual_disks" := Dir ["alpha.qcow2"; "notes"; "broken.img"]]>
    (<["virtual_disks/alpha.qcow2" := File "QFI"]>
    (<["virtual_disks/notes" := Dir []]>
    (<["virtual_disks/broken.img" := File (Json.zeros (Z.to_nat 5243))]>
    (<["iso_images" := Dir []]>
    (<["/tmp/debian.iso" := File "cd"]> ∅)))));
  w_tool := example_tool;
  w_spawn := fun _ => Done {| wait_1s := None; stderr_text := "" |};
  w_rename := example_move;
  w_copy2 :=
    fun src dst fs =>
      match fs !! src with
      | Some nd => Done (<[dst := nd]> fs)
      | None => Failed "No such file or directory"
      end;
  w_log := []
|}.

Definition example_state : State :=
  {| os := example_world; virtual_machines := PList [] |}.

(** [st] with the text [data] in the file at [p]. *)
Definition with_file (p data : string) (st : State) : State :=
  with_os (with_fs (<[p := File data]> (w_fs (os st))) (os st)) st.

Definition example_vms : list VirtualMachine :=
  [ {| vm_name := "vm1"; vm_cpu_cores := 2; vm_memory := "2G";
       vm_disk := "virtual_disks/alpha.qcow2"; vm_iso := None |};
    {| vm_name := "installer"; vm_cpu_cores := 1; vm_memory := "512M";
       vm_disk := "virtual_disks/alpha.qcow2";
       vm_iso := Some "/tmp/debian.iso" |} ].

(** The same files on Windows, where the hypervisor exits at once with
    status 1. *)
Definition windows_world : World := {|
  w_system := "Windows";
  w_fs := <["virtual_disks\alpha.qcow2" := File "QFI"]> (w_fs example_world);
  w_tool := example_tool;
  w_spawn :=
    fun _ => Done {| wait_1s := Some 1;
                     stderr_text := "qemu: could not open disk image" |};
  w_rename := example_move;
  w_copy2 := w_copy2 example_world;
  w_log := []
|}.

(** A definition that [create_virtual_machine] accepts and whose memory
    string does not convert. *)
Definition unconvertible_vm : VirtualMachine :=
  {| vm_name := "vm2"; vm_cpu_cores := 2; vm_memory := "2GB";
     vm_disk := "virtual_disks/alpha.qcow2"; vm_iso := None |}.

(** A manager in world [w] holding the definitions [vms]. *)
Definition manager (w : World) (vms : list VirtualMachine) : State :=
  {| os := w; virtual_machines := PList (map config_of vms) |}.

Definition example_runtime : Runtime := posix_runtime "/srv/cloud".

(** [n] opening brackets: arrays nested [n] deep, none of them closed. *)
Fixpoint open_brackets (n : nat) : string :=
  match n with
  | O => ""
  | S n' => String "[" (open_brackets n')
  end.

(** A registry file of 100000 opening brackets, and the example runtime
    with the recursion limit that CPython starts with, 1000 calls; the
    calls already open when the registry is read leave less room. *)
Definition deep_registry : string := open_brackets (Z.to_nat 100000).

Definition limited_runtime : Runtime :=
  posix_runtime_within 1000 "/srv/cloud".

(** ** Vocabulary of the further properties *)

(** The directories made, as a log records them. *)
Definition makedirs_of (log : list event) : list string :=
  omap (fun e => match e with Makedirs p => Some p | _ => None end) log.

(** Nothing is at path [p] in [w]. *)
Definition missing (w : World) (p : string) : bool :=
  match lookup_path p w with None => true | Some _ => false end.

(** [w] once [d] is there: [w] itself when something is at [d], else
    [w] with the empty directory made at [d]. *)
Definition with_dir (d : string) (w : World) : World :=
  if missing w d
  then with_fs (<[d := Dir []]> (w_fs w)) (with_event (Makedirs d) w)
  else w.

(** What [list_iso_files] reports for a directory entry, from that entry
    alone: nothing unless its name ends in [.iso], in any case, and it is
    a regular file. *)
Definition iso_entry `{RT : Runtime} (w : World) (filename : string)
  : option iso_info :=
  if endswith ".iso" (lower filename) then
    match lookup_path (path_join iso_dir filename) w with
    | Some (File data) =>
        Some {| iso_name := filename;
                iso_path := path_join iso_dir filename;
                iso_size :=
                  format_2f (f64_of_ratio false
                               (Z.of_nat (String.length data))
                               (1024 * 1024)) ++ " MB" |}
    | _ => None
    end
  else None.

(** A value that is no list. *)
Definition not_a_list (v : pyval) : Prop :=
  match v with PList _ => False | _ => True end.

(** [st] with the node [nd] at path [p]. *)
Definition with_node (p : string) (nd : node) (st : State) : State :=
  with_os (with_fs (<[p := nd]> (w_fs (os st))) (os st)) st.

(** The command [create_virtual_disk] builds, given the normalised
    size. *)
Definition create_command `{RT : Runtime}
  (disk_name disk_format size : string) : list string :=
  ["qemu-img"; "create"; "-f"; disk_format;
   path_abspath (path_join disks_dir (disk_name ++ "." ++ disk_format));
   size].

(** No program can be started in [w]: every [subprocess.run] fails with
    the [OSError] of text [msg] and changes no file. *)
Definition no_program (w : World) (msg : string) : Prop :=
  forall (argv : list string) (fs : gmap string node),
    w_tool w argv fs = (Failed msg, fs).

(** [line] holds neither label of the output of [qemu-img info]. *)
Definition unlabelled (line : string) : bool :=
  negb (contains "file format:" line) &&
  negb (contains "virtual size:" line).

(** No line of [lines] holds [label]. *)
Definition label_free (label : string) (lines : list string) : bool :=
  forallb (fun line => negb (contains label line)) lines.

(** The example world on a machine where no program can be started and
    no file moved or copied. *)
Definition bare_world : World := {|
  w_system := w_system example_world;
  w_fs := w_fs example_world;
  w_tool := fun _ fs => (Failed "No such file or directory: 'qemu-img'", fs);
  w_spawn :=
    fun _ => Failed "No such file or directory: 'qemu-system-x86_64'";
  w_rename := fun _ _ _ => Failed "Invalid cross-device link";
  w_copy2 := fun _ _ _ => Failed "Permission denied";
  w_log := []
|}.

Definition bare_state : State :=
  {| os := bare_world; virtual_machines := PList [] |}.

(** The example world before anything is created: no file at all. *)
Definition fresh_world : World := with_fs ∅ example_world.

Definition fresh_state : State :=
  {| os := fresh_world; virtual_machines := PList [] |}.

(** ** Vocabulary of the properties of the window *)

(** The disk path that [create_vm] reads from the disk combo box. *)
Definition selected_disk (g : Gui) : outcome string :=
  list_index (disk_paths (lists g)) (disk_combo_current (user g)).

(** The ISO path that [create_vm] reads from the ISO combo box, whose
    first entry stands for no ISO. *)
Definition selected_iso (g : Gui) : option string :=
  if 0 <? iso_combo_current (user g) then
    match list_index (iso_paths (lists g))
            (iso_combo_current (user g) - 1) with
    | Ok p => Some p
    | Raises _ => None
    end
  else None.

(** The definition that [create_vm] submits from the form. *)
Definition submitted_vm (g : Gui) (cpu_cores : Z) (disk_path : string)
  : VirtualMachine :=
  {| vm_name := strip (vm_name_var (form g));
     vm_cpu_cores := cpu_cores;
     vm_memory := memory_size_var (form g) ++ memory_unit_var (form g);
     vm_disk := disk_path;
     vm_iso := selected_iso g |}.

(** The status line after a refresh that found [n] items: [found] when
    [n] is positive, [none] otherwise. *)
Definition status_line (n : nat) (what none : string) : string :=
  match n with
  | O => none
  | _ => "Found " ++ str_of_int (Z.of_nat n) ++ what
  end.

(** The form passes the checks of [create_vm]: the core count reads as
    [cpu_cores], a disk is selected and [disk_path] is its path, the
    name is not blank, the disk exists, and so does the ISO when one is
    selected. *)
Definition form_accepted (g : Gui) (cpu_cores : Z) (disk_path : string)
  : Prop :=
  int_of_str (cpu_cores_var (form g)) = Ok cpu_cores /\
  0 <= disk_combo_current (user g) /\
  selected_disk g = Ok disk_path /\
  strip (vm_name_var (form g)) <> "" /\
  missing (os (cloud_manager g)) disk_path = false /\
  forall p, selected_iso g = Some p -> p <> "" ->
            missing (os (cloud_manager g)) p = false.

(** The window once [create_vm] has created [vm] on a registry holding
    [vms] and asked whether to start it; [st1] is the manager after the
    creation. *)
Definition created_window `{RT : Runtime} (g : Gui)
  (vms : list VirtualMachine) (vm : VirtualMachine) (st1 : State) : Gui :=
  with_dialog (AskYesNo "Start VM" start_vm_question)
    (with_form
       (set_status
          (status_line (List.length (vms ++ [vm])) " virtual machine(s)"
             "No virtual machines found. Create one first.")
          (set_vm_name "" (form g)))
       (with_lists
          (set_vm_listbox (map vm_line (vms ++ [vm])) (lists g))
          (with_dialog
             (ShowInfo "Success"
                ("Virtual Machine '" ++ vm_name vm ++
                 "' created successfully!"))
             (with_manager st1 g)))).

(** The ISO that a VM created by [create_vm] boots from when started at
    once: the one selected, unless its path is empty. *)
Definition attached_iso (g : Gui) : option string :=
  match selected_iso g with
  | Some p => if (p =? "")%string then None else Some p
  | None => None
  end.

Definition example_form : Form := {|
  disk_name_var := " data "; disk_format_var := "raw";
  disk_size_var := "20"; disk_size_unit_var := "M";
  vm_name_var := " web "; cpu_cores_var := "2";
  memory_size_var := "1"; memory_unit_var := "G";
  iso_path_var := " /tmp/debian.iso "; iso_dest_name_var := " ";
  status_var := "Ready"
|}.

Definition example_lists : Lists := {|
  disk_listbox := []; vm_listbox := []; iso_listbox := [];
  disk_combo_values := ["alpha.qcow2 (qcow2, 5 GiB (5368709120 bytes))"];
  iso_combo_values := [no_iso_choice; "debian.iso (0.00 MB)"];
  disk_paths := ["virtual_disks/alpha.qcow2"];
  iso_paths := ["/tmp/debian.iso"]
|}.

(** The user has selected the disk and the ISO and answers yes. *)
Definition example_user : User := {|
  disk_combo_current := 0; iso_combo_current := 1;
  vm_listbox_curselection := [1];
  askyesno_answer := true;
  askopenfilename_answer := "/tmp/debian.iso"
|}.

Definition example_gui : Gui := {|
  cloud_manager := manager example_world example_vms;
  form := example_form; lists := example_lists; user := example_user;
  dialogs := []
|}.

(** The same window with nothing filled in or selected. *)
Definition blank_gui : Gui := {|
  cloud_manager := manager example_world example_vms;
  form := set_iso_path "  " (set_vm_name "  " (set_disk_name " " example_form));
  lists := example_lists;
  user := {| disk_combo_current := -1; iso_combo_current := -1;
             vm_listbox_curselection := [];
             askyesno_answer := false;
             askopenfilename_answer := "" |};
  dialogs := []
|}.

(** The lists after [refresh_disk_list] has listed [disks]. *)
Definition disk_lists (disks : list disk_info) (l : Lists) : Lists :=
  set_disk_listbox (map disk_line disks)
    (set_disk_paths (map path disks)
       (set_disk_combo_values (map disk_line disks) l)).

(** The lists after [refresh_iso_list] has listed [isos]. *)
Definition iso_lists (isos : list iso_info) (l : Lists) : Lists :=
  set_iso_listbox (map iso_line isos)
    (set_iso_paths (map iso_path isos)
       (set_iso_combo_values (no_iso_choice :: map iso_line isos) l)).

(** The destination that [import_iso] asks for: [iso_dir] joined with
    the name typed, or with the base name of the source when the name
    field is blank. *)
Definition import_destination `{RT : Runtime} (g : Gui) : string :=
  let dest_name := strip (iso_dest_name_var (form g)) in
  path_join iso_dir
    (if (dest_name =? "")%string
     then path_basename (strip (iso_path_var (form g)))
     else dest_name).

(** The name that [import_iso] passes on: [None] when the name field is
    blank. *)
Definition import_name (g : Gui) : option string :=
  let dest_name := strip (iso_dest_name_var (form g)) in
  if (dest_name =? "")%string then None else Some dest_name.

(** A dialog that reports a result. *)
Definition result_dialog (ok : bool) (message : string) : dialog :=
  if ok then ShowInfo "Success" message else ShowError "Error" message.

(** The example world with a stocked ISO directory: two images, one of
    them with its extension in capitals, a text file, and a directory
    whose name ends in [.iso]. *)
Definition library_world : World :=
  with_fs
    (<["iso_images" := Dir ["debian.iso"; "readme.txt"; "WIN.ISO";
                            "old.iso"]]>
     (<["iso_images/debian.iso" := File "cd"]>
     (<["iso_images/readme.txt" := File "text"]>
     (<["iso_images/WIN.ISO" := File (Json.zeros (Z.to_nat 5243))]>
     (<["iso_images/old.iso" := Dir []]> (w_fs example_world))))))
    example_world.

Definition library_gui : Gui :=
  with_manager (manager library_world example_vms) example_gui.

(** * Properties *)

Lemma last_char_nonempty s : s <> "" -> exists c, last_char s = Some c.
Proof.
  induction s as [|a r IH]; [congruence|].
  intros _. destruct r as [|b r'].
  - exists a. reflexivity.
  - destruct IH as [c Hc]; [discriminate|]. exists c. exact Hc.
Qed.

Lemma upper_char_unit c :
  char_in (upper_char c) ["G"; "M"; "K"]%char = true <->
  In c ["K"; "M"; "G"; "k"; "m"; "g"]%char.
Proof.
  destruct c as [[] [] [] [] [] [] [] []]; vm_compute;
    split; intros H; try discriminate; try reflexivity;
    intuition discriminate.
Qed.

(** C3.  For every non-empty size string [S], the normalisation of
    [create_virtual_disk] returns [S ++ "G"] when the final character of
    [S] is not one of K, M, G (in either case) and [S] itself when it is. *)
Theorem normalize_size_spec (sz : string) :
  sz <> "" ->
  (~ has_unit_letter sz -> normalize_size sz = Ok (sz ++ "G")) /\
  (has_unit_letter sz -> normalize_size sz = Ok sz).
Proof.
  intros HS. destruct (last_char_nonempty sz HS) as [c Hc].
  unfold normalize_size. rewrite Hc.
  destruct (char_in (upper_char c) _) eqn:E.
  - apply upper_char_unit in E. split; [|reflexivity].
    intros Hn. exfalso. apply Hn. exists c. split; assumption.
  - split; [reflexivity|].
    intros [c' [Hc' Hin]]. rewrite Hc in Hc'. injection Hc' as <-.
    apply upper_char_unit in Hin. congruence.
Qed.

Lemma normalize_size_spec_witness :
  normalize_size "5" = Ok "5G" /\ normalize_size "512m" = Ok "512m".
Proof.
  split.
  - apply (normalize_size_spec "5"); [discriminate|].
    intros [c [Hc Hin]]. injection Hc as <-.
    vm_compute in Hin. intuition discriminate.
  - apply (normalize_size_spec "512m"); [discriminate|].
    exists "m"%char. split; [reflexivity|]. vm_compute. tauto.
Defined.


(** ** Slices and numerals *)

Lemma last_char_app p c : last_char (p ++ String c "") = Some c.
Proof.
  induction p as [|a r IH]; [reflexivity|].
  simpl. rewrite IH. destruct r; reflexivity.
Qed.

Lemma drop_last_app p c : drop_last (p ++ String c "") = p.
Proof.
  induction p as [|a r IH]; [reflexivity|].
  simpl. rewrite IH. destruct r; reflexivity.
Qed.

Lemma digit_not_space c : is_digit c = true -> is_space c = false.
Proof.
  destruct c as [[] [] [] [] [] [] [] []]; vm_compute; congruence.
Qed.

Lemma digit_not_underscore c : is_digit c = true -> c <> "_"%char.
Proof.
  destruct c as [[] [] [] [] [] [] [] []]; vm_compute; congruence.
Qed.

Lemma digit_not_sign c :
  is_digit c = true -> c <> "-"%char /\ c <> "+"%char.
Proof.
  destruct c as [[] [] [] [] [] [] [] []]; vm_compute; split; congruence.
Qed.

Lemma strip_digits s : all_digits s = true -> strip s = s.
Proof.
  intros H. unfold strip.
  assert (Hl : lstrip s = s).
  { destruct s as [|c r]; [reflexivity|]. simpl in *.
    apply andb_prop in H as [Hc _].
    now rewrite (digit_not_space c Hc). }
  rewrite Hl. clear Hl.
  induction s as [|c r IH]; [reflexivity|].
  simpl in *. apply andb_prop in H as [Hc Hr].
  rewrite (IH Hr). destruct r; [|reflexivity].
  now rewrite (digit_not_space c Hc).
Qed.

Lemma digitpart_digits s : all_digits s = true -> digitpart s = (s, "").
Proof.
  induction s as [|c r IH]; [reflexivity|].
  intros H. simpl in H. apply andb_prop in H as [Hc Hr].
  specialize (IH Hr). cbn [digitpart]. rewrite Hc.
  destruct r as [|c' r']; [reflexivity|].
  assert (Hc' : c' <> "_"%char).
  { simpl in Hr. apply andb_prop in Hr as [Hd _].
    now apply digit_not_underscore. }
  rewrite IH.
  destruct c' as [[] [] [] [] [] [] [] []]; try reflexivity.
  now contradiction Hc'.
Qed.

Lemma string_of_uint_digits d :
  all_digits (NilEmpty.string_of_uint d) = true.
Proof. induction d; simpl; auto. Qed.

Lemma str_of_int_nonneg n :
  0 <= n ->
  exists c r, str_of_int n = String c r /\
              all_digits (String c r) = true /\
              digits_value (String c r) = n.
Proof.
  intros Hn. unfold str_of_int.
  destruct n as [|p|p]; [| |lia].
  - exists "0"%char, "". repeat split.
  - cbn [Z.to_int NilZero.string_of_int].
    pose proof (DecimalPos.Unsigned.to_uint_nonnil p) as Hnil.
    pose proof (DecimalPos.Unsigned.of_to p) as Hof.
    assert (Hs : NilZero.string_of_uint (Pos.to_uint p) =
                 NilEmpty.string_of_uint (Pos.to_uint p))
      by (revert Hnil; destruct (Pos.to_uint p); intros;
          try reflexivity; congruence).
    rewrite Hs.
    assert (Hne : exists c r,
               NilEmpty.string_of_uint (Pos.to_uint p) = String c r)
      by (revert Hnil; destruct (Pos.to_uint p); intros;
          try congruence; simpl; eauto).
    destruct Hne as (c & r & E). exists c, r.
    split; [exact E|]. rewrite <- E. split.
    + apply string_of_uint_digits.
    + unfold digits_value. rewrite NilEmpty.usu.
      unfold Z.of_uint. now rewrite Hof.
Qed.

Lemma int_of_str_digits s :
  s <> "" -> all_digits s = true ->
  int_of_str s = Ok (digits_value s).
Proof.
  intros Hne Hd. unfold int_of_str.
  rewrite (strip_digits s Hd).
  destruct s as [|c r]; [congruence|].
  assert (Hs : split_sign (String c r) = (false, String c r)).
  { simpl in Hd. apply andb_prop in Hd as [Hc _].
    destruct (digit_not_sign c Hc) as [Hm Hp].
    destruct c as [[] [] [] [] [] [] [] []]; try reflexivity; congruence. }
  now rewrite Hs, (digitpart_digits _ Hd).
Qed.

(** ** Memory conversion *)

Lemma int_of_float_trunc x q :
  f64_value x = Some q -> int_of_float x = Ok (Qtrunc q).
Proof.
  destruct x as [s|s| |s m e]; simpl; try discriminate.
  - intros [= <-]. reflexivity.
  - intros [= <-]. f_equal.
    destruct (0 <=? e) eqn:He.
    + apply Z.leb_le in He.
      assert (Hp : 0 < 2 ^ e) by (apply Z.pow_pos_nonneg; lia).
      unfold Qtrunc. destruct s.
      * assert (Hn : Z.neg m * 2 ^ e < 0) by lia.
        assert (Hb : Qle_bool 0 (inject_Z (Z.neg m * 2 ^ e)) = false).
        { apply not_true_is_false. intros Hb.
          apply Qle_bool_iff in Hb. unfold Qle in Hb. simpl in Hb. lia. }
        rewrite Hb. unfold Qceiling.
        change (- inject_Z (Z.neg m * 2 ^ e))%Q
          with (inject_Z (- (Z.neg m * 2 ^ e))).
        rewrite Qfloor_Z. lia.
      * assert (Hb : Qle_bool 0 (inject_Z (Z.pos m * 2 ^ e)) = true).
        { apply Qle_bool_iff. unfold Qle. simpl. lia. }
        rewrite Hb. now rewrite Qfloor_Z.
    + apply Z.leb_gt in He.
      assert (Hp : 0 < 2 ^ (- e)) by (apply Z.pow_pos_nonneg; lia).
      assert (Hd : Z.pos (Z.to_pos (2 ^ (- e))) = 2 ^ (- e))
        by (apply Z2Pos.id; exact Hp).
      unfold Qtrunc. destruct s.
      * assert (Hb : Qle_bool 0 (Z.neg m # Z.to_pos (2 ^ (- e))) = false).
        { apply not_true_is_false. intros Hb.
          apply Qle_bool_iff in Hb. unfold Qle in Hb. simpl in Hb. lia. }
        rewrite Hb. unfold Qceiling, Qfloor, Qopp.
        cbn [Qnum Qden Z.opp]. rewrite Hd. reflexivity.
      * assert (Hb : Qle_bool 0 (Z.pos m # Z.to_pos (2 ^ (- e))) = true).
        { apply Qle_bool_iff. unfold Qle. simpl. lia. }
        rewrite Hb. unfold Qfloor. rewrite Hd. reflexivity.
Qed.

(** C1, as amended.  For a memory string [<n>G] or [<n>g] whose prefix
    [float] reads, the value passed to the hypervisor is the double
    [float(n) * 1024] truncated toward zero; for a memory string [<n>M]
    with [n] a non-negative integer numeral it is [n]. *)
Theorem launch_memory_mb_spec :
  (forall (p : string) (u : ascii) (x : spec_float) (q : Q),
      u = "G"%char \/ u = "g"%char ->
      float_of_str p = Ok x ->
      f64_value (f64_mul x (f64_of_int 1024)) = Some q ->
      launch_memory_mb (p ++ String u "") = Ok (Qtrunc q)) /\
  (forall n : Z,
      0 <= n ->
      launch_memory_mb (str_of_int n ++ "M") = Ok n).
Proof.
  split.
  - intros p u x q Hu Hx Hq. unfold launch_memory_mb.
    rewrite last_char_app, drop_last_app.
    assert (Hup : Ascii.eqb (upper_char u) "G" = true)
      by (destruct Hu; subst u; reflexivity).
    rewrite Hup, Hx. simpl. now apply int_of_float_trunc.
  - intros n Hn. unfold launch_memory_mb.
    rewrite last_char_app, drop_last_app.
    change (Ascii.eqb (upper_char "M") "G") with false. cbv iota.
    destruct (str_of_int_nonneg n Hn) as (c & r & E & Hd & Hv).
    rewrite E in *.
    rewrite int_of_str_digits; [congruence | discriminate | exact Hd].
Qed.

Lemma launch_memory_mb_spec_witness :
  launch_memory_mb "0.7G" = Ok 716 /\
  launch_memory_mb "512M" = Ok 512.
Proof.
  split.
  - apply (proj1 launch_memory_mb_spec "0.7" "G"%char
             (S754_finite false 6305039478318694 (-53))
             (6305039478318694 # 8796093022208)).
    + left; reflexivity.
    + vm_compute; reflexivity.
    + vm_compute; reflexivity.
  - apply (proj2 launch_memory_mb_spec 512). lia.
Defined.

(** C1 as stated fails three ways: [0.000732421875 * 1024] is [0.75],
    which rounds to 1, and the code passes 0; a fractional prefix before
    ["M"] raises [ValueError] where the claim asks for its floor; and a
    string with no unit suffix loses its last digit. *)
Lemma launch_memory_mb_not_rounded :
  launch_memory_mb "0.000732421875G" = Ok 0 /\
  ~ nearest_integer ((732421875 # 1000000000000) * 1024) 0 /\
  launch_memory_mb "1.5M" = Raises ValueError /\
  launch_memory_mb "512" = Ok 51.
Proof.
  split; [vm_compute; reflexivity|].
  split; [|split; vm_compute; reflexivity].
  unfold nearest_integer. intros H.
  apply Qle_bool_iff in H. vm_compute in H. discriminate.
Qed.

(** ** Importing an ISO *)

Ltac unfold_calls :=
  unfold path_exists, path_isfile, path_getsize, listdir, makedirs,
    read_text, write_text, print, subprocess_run, subprocess_Popen,
    process_wait, os_rename, shutil_copy2, platform_system in *.

Ltac unfold_monad :=
  unfold try_except, bind, ret, raise, lift, emit, get_os, put_os,
    get_vms, set_vms in *.

(** C8.  When the source path does not exist, [import_iso_file] returns
    the not-found outcome and leaves the world as it was.  When it
    exists, the destination is [iso_dir] joined with the destination
    name, which defaults to the base name of the source; a move is
    attempted first, and a copy is attempted exactly when the move
    fails. *)
Theorem import_iso_file_spec `{RT : Runtime}
  (source_path : string) (dest_name : option string) (st : State) :
  let dest :=
    path_join iso_dir
      (match dest_name with
       | None => path_basename source_path
       | Some n => n
       end) in
  (lookup_path source_path (os st) = None ->
   import_iso_file source_path dest_name st =
     (Ok (false, "File not found: " ++ source_path), st)) /\
  (lookup_path source_path (os st) <> None ->
   w_log (os (snd (import_iso_file source_path dest_name st))) =
     (w_log (os st) ++
      Rename source_path dest ::
      match w_rename (os st) source_path dest (w_fs (os st)) with
      | Done _ => []
      | Failed _ => [Copy2 source_path dest]
      end)%list).
Proof.
  intros dest. split.
  - intros Hnone. unfold import_iso_file. unfold_calls. unfold_monad.
    rewrite Hnone. reflexivity.
  - intros Hsome. unfold import_iso_file. unfold_calls. unfold_monad.
    destruct (lookup_path source_path (os st)) as [nd|]; [|congruence].
    cbn [negb]. fold dest.
    destruct st as [w vms]. cbn [os with_os with_event w_rename w_fs w_log
      virtual_machines].
    destruct (w_rename w source_path dest (w_fs w)) as [fs|msg];
      cbn [os with_os with_fs with_event w_rename w_fs w_log w_copy2
           is_OSError snd fst].
    + reflexivity.
    + destruct (w_copy2 w source_path dest (w_fs w)) as [fs|msg'];
        cbn [os with_os with_fs with_event w_log snd];
        now rewrite <- app_assoc.
Qed.

Lemma import_iso_file_spec_witness :
  import_iso_file (RT := example_runtime) "/tmp/missing.iso" None
    example_state =
    (Ok (false, "File not found: /tmp/missing.iso"), example_state) /\
  w_log (os (snd (import_iso_file (RT := example_runtime)
                    "/tmp/debian.iso" None example_state))) =
    [Rename "/tmp/debian.iso" "iso_images/debian.iso"].
Proof.
  split.
  - apply (proj1 (import_iso_file_spec (RT := example_runtime)
                    "/tmp/missing.iso" None example_state)).
    vm_compute. reflexivity.
  - apply (proj2 (import_iso_file_spec (RT := example_runtime)
                    "/tmp/debian.iso" None example_state)).
    vm_compute. discriminate.
Defined.

(** ** The registry *)

Lemma lookup_path_with_fs p fs w :
  lookup_path p (with_fs fs w) =
  if (p =? "")%string then None else fs !! p.
Proof. reflexivity. Qed.

Lemma lookup_path_with_event p e w :
  lookup_path p (with_event e w) = lookup_path p w.
Proof. reflexivity. Qed.

Lemma printed_app l1 l2 : printed (l1 ++ l2) = (printed l1 ++ printed l2)%list.
Proof. unfold printed. apply omap_app. Qed.

(** What [ensure_dir] leaves: the same manager, the same files but for
    [d], nothing printed. *)
Lemma ensure_dir_spec (d : string) (st : State) :
  d <> "" ->
  exists st',
    ensure_dir d st = (Ok tt, st') /\
    virtual_machines st' = virtual_machines st /\
    (forall p, p <> d -> lookup_path p (os st') = lookup_path p (os st)) /\
    lookup_path d (os st') <> None /\
    printed (w_log (os st')) = printed (w_log (os st)) /\
    runs (w_log (os st')) = runs (w_log (os st)) /\
    w_tool (os st') = w_tool (os st).
Proof.
  intros Hd. unfold ensure_dir. unfold_calls. unfold_monad.
  destruct (lookup_path d (os st)) as [nd|] eqn:E.
  - exists st. rewrite E. repeat split; congruence.
  - cbv beta. rewrite E. eexists. split; [reflexivity|].
    destruct st as [w vms]. cbn [os virtual_machines with_os].
    repeat split.
    + intros p Hp. rewrite lookup_path_with_fs.
      unfold lookup_path. destruct (p =? "")%string; [reflexivity|].
      cbn [w_fs with_event]. now rewrite lookup_insert_ne.
    + rewrite lookup_path_with_fs.
      apply String.eqb_neq in Hd. rewrite Hd.
      now rewrite lookup_insert_eq.
    + cbn [w_log with_fs with_event]. rewrite printed_app. simpl.
      now rewrite app_nil_r.
    + cbn [w_log with_fs with_event]. unfold runs. rewrite omap_app.
      simpl. now rewrite app_nil_r.
Qed.

(** [__init__] case by case on what is at the registry path; [w] is the
    world once both directories are there. *)
Lemma init_cases `{RT : Runtime} (st : State) :
  exists w,
    printed (w_log w) = printed (w_log (os st)) /\
    init st =
      let loaded v := {| os := w; virtual_machines := v |} in
      match lookup_path vms_file (os st) with
      | None => (Ok tt, loaded (PList []))
      | Some (Dir _) =>
          (Raises (OSError "Is a directory"), loaded (PList []))
      | Some (File text) =>
          match json_loads text with
          | Ok v => (Ok tt, loaded v)
          | Raises JSONDecodeError => (Ok tt, loaded (PList []))
          | Raises e => (Raises e, loaded (PList []))
          end
      end.
Proof.
  unfold init.
  set (st0 := {| os := os st; virtual_machines := PList [] |}).
  destruct (ensure_dir_spec disks_dir st0) as
    (st1 & E1 & V1 & F1 & _ & P1 & _); [discriminate|].
  destruct (ensure_dir_spec iso_dir st1) as
    (st2 & E2 & V2 & F2 & _ & P2 & _); [discriminate|].
  assert (Hlook : lookup_path vms_file (os st2) = lookup_path vms_file (os st)).
  { rewrite F2 by discriminate. rewrite F1 by discriminate. reflexivity. }
  assert (Hst2 : st2 = {| os := os st2; virtual_machines := PList [] |}).
  { destruct st2 as [w2 v2]. cbn [virtual_machines] in V2.
    rewrite V1 in V2. subst v2. reflexivity. }
  exists (os st2). split; [rewrite P2, P1; reflexivity|].
  unfold bind at 1. unfold set_vms at 1. fold st0.
  unfold bind at 1. rewrite E1.
  unfold bind at 1. rewrite E2.
  unfold_calls. unfold_monad. rewrite Hlook.
  destruct (lookup_path vms_file (os st)) as [[text|names]|] eqn:E;
    cbv beta iota zeta.
  - rewrite Hlook. destruct (json_loads text) as [v|e]; [reflexivity|].
    destruct e; rewrite <- Hst2; reflexivity.
  - rewrite Hlook. rewrite <- Hst2. reflexivity.
  - rewrite <- Hst2. reflexivity.
Qed.

(** C4, as amended.  When the registry file is missing, or holds a text
    that [json.load] rejects with [JSONDecodeError], [__init__] returns
    normally with the empty list and prints nothing. *)
Theorem init_unreadable_registry `{RT : Runtime} (st : State) :
  (lookup_path vms_file (os st) = None \/
   exists text,
     lookup_path vms_file (os st) = Some (File text) /\
     json_loads text = Raises JSONDecodeError) ->
  exists st',
    init st = (Ok tt, st') /\
    virtual_machines st' = PList [] /\
    printed (w_log (os st')) = printed (w_log (os st)).
Proof.
  intros Hfile. destruct (init_cases st) as (w & Hp & Hinit).
  rewrite Hinit.
  destruct Hfile as [Hnone | (text & Htext & Hbad)].
  - rewrite Hnone. eexists. repeat split. exact Hp.
  - rewrite Htext. cbv zeta. rewrite Hbad. eexists. repeat split. exact Hp.
Qed.

Lemma init_unreadable_registry_witness :
  (exists st',
      init (RT := example_runtime) example_state = (Ok tt, st') /\
      virtual_machines st' = PList [] /\
      printed (w_log (os st')) = printed (w_log (os example_state))) /\
  (exists st',
      init (RT := example_runtime)
        (with_file vms_file "[{" example_state) = (Ok tt, st') /\
      virtual_machines st' = PList [] /\
      printed (w_log (os st')) =
        printed (w_log (os (with_file vms_file "[{" example_state)))).
Proof.
  split.
  - apply (init_unreadable_registry (RT := example_runtime) example_state).
    left. vm_compute. reflexivity.
  - apply (init_unreadable_registry (RT := example_runtime)
             (with_file vms_file "[{" example_state)).
    right. exists "[{". split; vm_compute; reflexivity.
Defined.

(** Opening brackets alone are no JSON text, and the reader under the
    recursion limit does not get to say so once they are more than the
    limit leaves room for. *)
Lemma skip_ws_open_brackets n :
  Json.skip_ws (open_brackets n) = open_brackets n.
Proof. destruct n; reflexivity. Qed.

Lemma length_open_brackets n : String.length (open_brackets n) = n.
Proof. induction n; simpl; congruence. Qed.

Lemma parse_open_brackets fuel :
  forall n,
    Json.parse_value fuel (open_brackets n) = Raises JSONDecodeError /\
    Json.parse_items fuel (open_brackets n) [] = Raises JSONDecodeError.
Proof.
  induction fuel as [|fuel IH]; intros n; [split; reflexivity|].
  split.
  - destruct n as [|n]; [reflexivity|].
    cbn [open_brackets Json.parse_value]. cbn [Ascii.eqb Bool.eqb].
    rewrite skip_ws_open_brackets.
    destruct n as [|n]; [exact (proj2 (IH O))|exact (proj2 (IH (S n)))].
  - cbn [Json.parse_items]. rewrite (proj1 (IH n)). reflexivity.
Qed.

Lemma loads_open_brackets n :
  Json.loads (open_brackets n) = Raises JSONDecodeError.
Proof.
  unfold Json.loads. rewrite skip_ws_open_brackets.
  rewrite (proj1 (parse_open_brackets _ n)). reflexivity.
Qed.

Lemma parse_open_brackets_within depth :
  forall n fuel,
    (depth < n)%nat -> (2 * depth + 1 <= fuel)%nat ->
    Json.parse_value_within depth fuel (open_brackets n) =
      Raises RecursionError.
Proof.
  induction depth as [|depth IH]; intros n fuel Hn Hfuel.
  - destruct n as [|n]; [lia|]. destruct fuel as [|fuel]; [lia|].
    reflexivity.
  - destruct n as [|[|n]]; try lia.
    destruct fuel as [|[|fuel]]; try lia.
    cbn [open_brackets Json.parse_value_within]. cbn [Ascii.eqb Bool.eqb].
    change (String "[" (open_brackets n)) with (open_brackets (S n)).
    rewrite skip_ws_open_brackets.
    cbn [open_brackets]. cbn [Json.parse_items_within].
    change (String "[" (open_brackets n)) with (open_brackets (S n)).
    rewrite IH by lia. reflexivity.
Qed.

Lemma loads_within_open_brackets depth n :
  (depth < n)%nat ->
  Json.loads_within depth (open_brackets n) = Raises RecursionError.
Proof.
  intros Hn. unfold Json.loads_within. rewrite skip_ws_open_brackets.
  rewrite length_open_brackets.
  rewrite parse_open_brackets_within by lia. reflexivity.
Qed.

(** The reader under the limit on short texts: nesting within the
    limit is read, nesting beyond it raises where the array opens,
    a text cut short within the limit is rejected as malformed, and a
    number needs no room. *)
Lemma loads_within_examples :
  Json.loads_within 2 "[[1, 2], []]" =
    Ok (PList [PList [PInt 1; PInt 2]; PList []]) /\
  Json.loads_within 1 "[[1, 2], []]" = Raises RecursionError /\
  Json.loads_within 1 "[1, 2" = Raises JSONDecodeError /\
  Json.loads_within 0 "7" = Ok (PInt 7).
Proof. repeat split; vm_compute; reflexivity. Qed.

(** C4 as stated fails on a registry file that is no JSON text and that
    [json.load] does not reject with [JSONDecodeError]: on 100000
    opening brackets the scanner passes the recursion limit before it
    reaches the end of the text, [RecursionError] is not what the
    handler of line 28 catches, and [__init__] raises it. *)
Lemma init_registry_too_deep :
  Json.loads deep_registry = Raises JSONDecodeError /\
  fst (init (RT := limited_runtime)
         (with_file vms_file deep_registry example_state)) =
    Raises RecursionError.
Proof.
  split; [apply loads_open_brackets|].
  destruct (init_cases (RT := limited_runtime)
              (with_file vms_file deep_registry example_state))
    as (w & _ & Hinit).
  rewrite Hinit.
  assert (Hfile : lookup_path vms_file
                    (os (with_file vms_file deep_registry example_state)) =
                  Some (File deep_registry)).
  { unfold with_file. cbn [os with_os]. rewrite lookup_path_with_fs.
    cbn [String.eqb Ascii.eqb Bool.eqb vms_file].
    apply lookup_insert_eq. }
  rewrite Hfile. cbv zeta.
  change (@json_loads limited_runtime deep_registry)
    with (Json.loads_within 1000 (open_brackets (Z.to_nat 100000))).
  rewrite loads_within_open_brackets by lia. reflexivity.
Qed.

(** What a call of [create_virtual_machine] leaves when the registry in
    memory is a list and its path is free for a file. *)
Lemma create_virtual_machine_eq `{RT : Runtime}
  (vm_name : string) (cpu_cores : Z) (memory_size disk_path : string)
  (iso_path : option string) (st : State) (l : list pyval) :
  virtual_machines st = PList l ->
  registry_writable st ->
  let registry :=
    PList (l ++ [vm_config vm_name cpu_cores memory_size disk_path
                   iso_path]) in
  create_virtual_machine vm_name cpu_cores memory_size disk_path iso_path
    st =
  (Ok (true, "Virtual Machine '" ++ vm_name ++ "' created successfully!"),
   {| os := with_fs (<[vms_file := File (json_dumps registry)]>
                       (w_fs (os st)))
              (with_event (WriteText vms_file (json_dumps registry))
                 (os st));
      virtual_machines := registry |}).
Proof.
  intros Hl Hw registry. unfold create_virtual_machine.
  unfold_calls. unfold_monad. rewrite Hl. cbn [os virtual_machines].
  destruct (lookup_path vms_file (os st)) as [[data|names]|] eqn:E;
    try reflexivity.
  now destruct (Hw names).
Qed.

(** C10.  Whatever the name, core count, memory string, disk path and
    ISO path, [create_virtual_machine] appends the record to the list in
    memory, rewrites the registry file with the whole list and returns
    success. *)
Theorem create_virtual_machine_no_validation `{RT : Runtime}
  (vm_name : string) (cpu_cores : Z) (memory_size disk_path : string)
  (iso_path : option string) (st : State) (l : list pyval) :
  virtual_machines st = PList l ->
  registry_writable st ->
  let record :=
    vm_config vm_name cpu_cores memory_size disk_path iso_path in
  exists msg st',
    create_virtual_machine vm_name cpu_cores memory_size disk_path
      iso_path st = (Ok (true, msg), st') /\
    virtual_machines st' = PList (l ++ [record]) /\
    lookup_path vms_file (os st') =
      Some (File (json_dumps (PList (l ++ [record])))).
Proof.
  intros Hl Hw record.
  rewrite (create_virtual_machine_eq _ _ _ _ _ st l Hl Hw).
  eexists _, _. split; [reflexivity|]. split; [reflexivity|].
  cbn [os]. rewrite lookup_path_with_fs.
  change (vms_file =? "")%string with false. cbv iota.
  apply lookup_insert_eq.
Qed.

Lemma create_virtual_machine_no_validation_witness :
  exists msg st',
    create_virtual_machine (RT := example_runtime) "" (-3) "lots"
      "virtual_disks/none.qcow2" (Some "iso_images/none.iso")
      example_state = (Ok (true, msg), st') /\
    virtual_machines st' =
      PList ([] ++ [vm_config "" (-3) "lots" "virtual_disks/none.qcow2"
                      (Some "iso_images/none.iso")]) /\
    lookup_path vms_file (os st') =
      Some (File (@json_dumps example_runtime
                    (PList ([] ++ [vm_config "" (-3) "lots"
                                     "virtual_disks/none.qcow2"
                                     (Some "iso_images/none.iso")])))).
Proof.
  apply (create_virtual_machine_no_validation (RT := example_runtime)
           "" (-3) "lots" "virtual_disks/none.qcow2"
           (Some "iso_images/none.iso") example_state []).
  - reflexivity.
  - intros names. vm_compute. discriminate.
Defined.

(** [__init__] on a manager whose registry file is absent, rejected by
    [json.load] or an empty array. *)
Lemma init_empty_registry `{RT : Runtime} (st : State) :
  empty_registry st ->
  exists st', init st = (Ok tt, st') /\ virtual_machines st' = PList [].
Proof.
  intros [_ Hfile]. destruct (init_cases st) as (w & _ & Hinit).
  rewrite Hinit.
  destruct Hfile as [Hn | (t & Ht & [Hbad | Hempty])].
  - rewrite Hn. eexists. split; reflexivity.
  - rewrite Ht. cbv zeta. rewrite Hbad. eexists. split; reflexivity.
  - rewrite Ht. cbv zeta. rewrite Hempty. eexists. split; reflexivity.
Qed.

Lemma init_readable_registry `{RT : Runtime} (st : State) text v :
  lookup_path vms_file (os st) = Some (File text) ->
  json_loads text = Ok v ->
  exists st', init st = (Ok tt, st') /\ virtual_machines st' = v.
Proof.
  intros Htext Hv. destruct (init_cases st) as (w & _ & Hinit).
  rewrite Hinit, Htext. cbv zeta. rewrite Hv.
  eexists. split; reflexivity.
Qed.

Lemma create_all_spec `{RT : Runtime} (vms : list VirtualMachine) :
  forall (st : State) (l : list pyval),
    virtual_machines st = PList l ->
    registry_writable st ->
    exists st1,
      create_all vms st = (Ok tt, st1) /\
      virtual_machines st1 = PList (l ++ map config_of vms) /\
      match vms with
      | [] => st1 = st
      | _ => lookup_path vms_file (os st1) =
               Some (File (json_dumps (PList (l ++ map config_of vms))))
      end.
Proof.
  induction vms as [|vm rest IH]; intros st l Hl Hw.
  - exists st. simpl. rewrite app_nil_r. repeat split. exact Hl.
  - cbn [create_all]. unfold bind.
    rewrite (create_virtual_machine_eq _ _ _ _ _ st l Hl Hw).
    set (st' := {| os := _; virtual_machines := _ |}).
    assert (Hfile : lookup_path vms_file (os st') =
                    Some (File (json_dumps (PList (l ++ [config_of vm]))))).
    { unfold st'. cbn [os]. rewrite lookup_path_with_fs.
      change (vms_file =? "")%string with false. cbv iota.
      apply lookup_insert_eq. }
    destruct (IH st' (l ++ [config_of vm])%list) as (st1 & E & V & F).
    + reflexivity.
    + intros names. rewrite Hfile. discriminate.
    + exists st1. rewrite E. split; [reflexivity|].
      cbn [map]. rewrite <- app_assoc in V, F. cbn [app] in V, F.
      split; [exact V|].
      destruct rest; [subst st1; simpl; exact Hfile | exact F].
Qed.

Lemma vm_of_config vm : vm_of_pyval (config_of vm) = Some vm.
Proof. destruct vm as [n c m d [i|]]; reflexivity. Qed.

Lemma registry_entry_nth (vms : list VirtualMachine) (i : nat) vm :
  nth_error vms i = Some vm ->
  registry_entry (PList (map config_of vms)) (Z.of_nat i) = Ok vm.
Proof.
  intros Hnth. unfold registry_entry, list_index.
  assert (Hlt : (i < List.length vms)%nat)
    by (apply nth_error_Some; congruence).
  rewrite length_map.
  assert (H1 : (Z.of_nat i <? 0) = false) by (apply Z.ltb_ge; lia).
  assert (H2 : (0 <=? Z.of_nat i) = true) by (apply Z.leb_le; lia).
  assert (H3 : (Z.of_nat i <? Z.of_nat (List.length vms)) = true)
    by (apply Z.ltb_lt; lia).
  rewrite H1, H2, H3. cbn [andb]. rewrite Nat2Z.id.
  rewrite nth_error_map, Hnth. cbn [option_map obind].
  now rewrite vm_of_config.
Qed.

(** ** The JSON text format reads back the registry it writes *)

Section JsonRoundTrip.

#[local] Arguments String.append !s1 s2 /.

Lemma append_assoc (a b c : string) : (a ++ b) ++ c = a ++ (b ++ c).
Proof. induction a as [|x a IH]; simpl; congruence. Qed.

Lemma append_nil_r (a : string) : a ++ "" = a.
Proof. induction a as [|x a IH]; simpl; congruence. Qed.

Lemma skip_ws_spaces n s : Json.skip_ws (Json.spaces n ++ s) = Json.skip_ws s.
Proof. induction n as [|n IH]; [reflexivity|exact IH]. Qed.

Lemma skip_ws_indent n s :
  Json.skip_ws (Json.line_indent n ++ s) = Json.skip_ws s.
Proof.
  unfold Json.line_indent, newline. rewrite append_assoc.
  cbn [String.append Json.skip_ws].
  change (Json.is_ws "010") with true. cbv iota. apply skip_ws_spaces.
Qed.

Lemma scan_string_escape_char c tail acc :
  Json.scan_string (Json.escape_char c ++ tail) acc =
  Json.scan_string tail (acc ++ String c "").
Proof.
  destruct c as [[] [] [] [] [] [] [] []]; reflexivity.
Qed.

Lemma scan_string_escape s : forall acc rest,
  Json.scan_string (Json.escape s ++ String Json.dquote rest) acc =
  Ok (acc ++ s, rest).
Proof.
  induction s as [|c s IH]; intros acc rest.
  - cbn. now rewrite append_nil_r.
  - cbn [Json.escape]. rewrite append_assoc, scan_string_escape_char, IH.
    now rewrite append_assoc.
Qed.

Lemma parse_string_value fuel s rest :
  Json.parse_value (S fuel) (Json.encode_string s ++ rest) = Ok (PStr s, rest).
Proof.
  unfold Json.encode_string. cbn [String.append Json.parse_value].
  change (Ascii.eqb Json.dquote Json.dquote) with true. cbv iota.
  rewrite append_assoc. cbn [String.append].
  now rewrite scan_string_escape.
Qed.

Lemma digit_run_digits d r :
  all_digits d = true ->
  Json.digit_run (d ++ String "," r) = (d, String "," r).
Proof.
  induction d as [|c d IH]; intros H.
  - reflexivity.
  - simpl in H. apply andb_prop in H as [Hc Hd].
    cbn [String.append Json.digit_run]. rewrite Hc, (IH Hd). reflexivity.
Qed.

Lemma scan_number_digits c d r :
  is_digit c = true -> c <> "0"%char -> all_digits d = true ->
  Json.scan_number (String c (d ++ String "," r)) =
    Some (String c d, false, String "," r).
Proof.
  intros Hc Hnz Hd.
  assert (Hrun : Json.digit_run (String c (d ++ String "," r)) =
                 (String c d, String "," r)).
  { cbn [Json.digit_run]. now rewrite Hc, (digit_run_digits d r Hd). }
  destruct c as [[] [] [] [] [] [] [] []]; try discriminate Hc;
    try (exfalso; apply Hnz; reflexivity);
    unfold Json.scan_number; cbv beta iota; rewrite Hrun, Hc; cbn;
    rewrite ?append_nil_r; reflexivity.
Qed.

Lemma scan_number_negative c d r :
  is_digit c = true -> c <> "0"%char -> all_digits d = true ->
  Json.scan_number (String "-" (String c (d ++ String "," r))) =
    Some (String "-" (String c d), false, String "," r).
Proof.
  intros Hc Hnz Hd.
  assert (Hrun : Json.digit_run (String c (d ++ String "," r)) =
                 (String c d, String "," r)).
  { cbn [Json.digit_run]. now rewrite Hc, (digit_run_digits d r Hd). }
  destruct c as [[] [] [] [] [] [] [] []]; try discriminate Hc;
    try (exfalso; apply Hnz; reflexivity);
    unfold Json.scan_number; cbv beta iota; rewrite Hrun, Hc; cbn;
    rewrite ?append_nil_r; reflexivity.
Qed.

Lemma number_head_tests c s :
  number_head c = true ->
  Ascii.eqb c Json.dquote = false /\
  Ascii.eqb c "{" = false /\
  Ascii.eqb c "[" = false /\
  String.prefix "null" (String c s) = false /\
  String.prefix "true" (String c s) = false /\
  String.prefix "false" (String c s) = false.
Proof.
  destruct c as [[] [] [] [] [] [] [] []]; intros H; try discriminate H;
    repeat split; reflexivity.
Qed.

Lemma parse_value_number fuel c s text rest :
  number_head c = true ->
  Json.scan_number (String c s) = Some (text, false, rest) ->
  Json.parse_value (S fuel) (String c s) =
    obind (int_of_str text) (fun n => Ok (PInt n, rest)).
Proof.
  intros Hc Hs.
  destruct (number_head_tests c s Hc) as (H1 & H2 & H3 & H4 & H5 & H6).
  cbn [Json.parse_value]. now rewrite H1, H2, H3, H4, H5, H6, Hs.
Qed.

Lemma to_uint_no_leading_zero p u : Pos.to_uint p <> D0 u.
Proof.
  pose proof (DecimalPos.Unsigned.to_of (Pos.to_uint p)) as H.
  rewrite DecimalPos.Unsigned.of_to in H. cbn [N.to_uint] in H.
  pose proof (DecimalPos.Unsigned.to_uint_nonzero p) as Hnz.
  destruct (nzhead (Pos.to_uint p)) eqn:E.
  - exfalso. apply Hnz. rewrite H. now apply unorm_0.
  - rewrite H, unorm_nzhead by congruence. apply nzhead_nonzero.
  - rewrite H, unorm_nzhead by congruence. apply nzhead_nonzero.
  - rewrite H, unorm_nzhead by congruence. apply nzhead_nonzero.
  - rewrite H, unorm_nzhead by congruence. apply nzhead_nonzero.
  - rewrite H, unorm_nzhead by congruence. apply nzhead_nonzero.
  - rewrite H, unorm_nzhead by congruence. apply nzhead_nonzero.
  - rewrite H, unorm_nzhead by congruence. apply nzhead_nonzero.
  - rewrite H, unorm_nzhead by congruence. apply nzhead_nonzero.
  - rewrite H, unorm_nzhead by congruence. apply nzhead_nonzero.
  - rewrite H, unorm_nzhead by congruence. apply nzhead_nonzero.
Qed.

(** The numeral of a positive number: a digit other than zero, then
    digits. *)
Lemma str_of_pos p :
  exists c d,
    NilZero.string_of_uint (Pos.to_uint p) = String c d /\
    is_digit c = true /\ c <> "0"%char /\ all_digits d = true /\
    digits_value (String c d) = Z.pos p.
Proof.
  pose proof (to_uint_no_leading_zero p) as Hlz.
  pose proof (DecimalPos.Unsigned.to_uint_nonnil p) as Hnil.
  pose proof (DecimalPos.Unsigned.of_to p) as Hof.
  assert (Hv : digits_value (NilEmpty.string_of_uint (Pos.to_uint p)) =
               Z.pos p).
  { unfold digits_value. rewrite NilEmpty.usu. unfold Z.of_uint.
    now rewrite Hof. }
  revert Hlz Hnil Hv.
  destruct (Pos.to_uint p) as [|u|u|u|u|u|u|u|u|u|u]; intros Hlz Hnil Hv;
    try congruence;
    try (exfalso; now apply (Hlz u));
    cbn [NilZero.string_of_uint NilEmpty.string_of_uint] in *;
    eexists _, _; (split; [reflexivity|]);
    (split; [reflexivity|]); (split; [discriminate|]);
    (split; [apply string_of_uint_digits | exact Hv]).
Qed.

Lemma rstrip_digits s : all_digits s = true -> rstrip s = s.
Proof.
  induction s as [|c r IH]; [reflexivity|].
  intros H. simpl in H. apply andb_prop in H as [Hc Hr].
  cbn [rstrip]. rewrite (IH Hr). destruct r; [|reflexivity].
  now rewrite (digit_not_space c Hc).
Qed.

Lemma int_of_str_negative c d :
  is_digit c = true -> all_digits d = true ->
  int_of_str (String "-" (String c d)) = Ok (- digits_value (String c d)).
Proof.
  intros Hc Hd.
  assert (Hall : all_digits (String c d) = true)
    by (simpl; now rewrite Hc, Hd).
  unfold int_of_str, strip.
  change (lstrip (String "-" (String c d))) with (String "-" (String c d)).
  assert (Hr : rstrip (String "-" (String c d)) = String "-" (String c d)).
  { change (rstrip (String "-" (String c d)))
      with (match rstrip (String c d) with
            | "" => if is_space "-" then "" else "-"
            | r' => String "-" r'
            end).
    now rewrite (rstrip_digits _ Hall). }
  rewrite Hr. cbn [split_sign].
  now rewrite (digitpart_digits _ Hall).
Qed.

Lemma parse_int_value fuel n r :
  Json.parse_value (S fuel) (str_of_int n ++ String "," r) =
    Ok (PInt n, String "," r).
Proof.
  unfold str_of_int. destruct n as [|p|p].
  - reflexivity.
  - cbn [Z.to_int NilZero.string_of_int].
    destruct (str_of_pos p) as (c & d & E & Hc & Hnz & Hd & Hv).
    rewrite E. cbn [String.append].
    rewrite (parse_value_number fuel c _ (String c d) (String "," r)).
    + rewrite int_of_str_digits; [|discriminate|simpl; now rewrite Hc, Hd].
      cbn [obind]. now rewrite Hv.
    + unfold number_head. now rewrite Hc.
    + now apply scan_number_digits.
  - cbn [Z.to_int NilZero.string_of_int].
    destruct (str_of_pos p) as (c & d & E & Hc & Hnz & Hd & Hv).
    rewrite E. cbn [String.append].
    rewrite (parse_value_number fuel "-" _ (String "-" (String c d))
               (String "," r)).
    + rewrite int_of_str_negative by assumption.
      cbn [obind]. now rewrite Hv.
    + reflexivity.
    + now apply scan_number_negative.
Qed.

Lemma parse_null_value fuel r :
  Json.parse_value (S fuel) ("null" ++ r) = Ok (PNone, r).
Proof.
  cbn [String.append Json.parse_value].
  change (Ascii.eqb "n" Json.dquote) with false.
  change (Ascii.eqb "n" "{") with false.
  change (Ascii.eqb "n" "[") with false. cbv iota.
  assert (Hp : String.prefix "null" (String "n" (String "u" (String "l" (String "l" r)))) = true).
  { cbn. now destruct r. }
  rewrite Hp. cbn [String.length Nat.sub String.substring].
  f_equal. f_equal. rewrite Nat.sub_0_r.
  clear. induction r as [|c r IH]; [reflexivity|].
  cbn [String.length String.substring]. now rewrite IH.
Qed.

(** One member of an object: the key, the colon, the value [v] written
    as [vtext], and what follows. *)
Lemma parse_member fuel key vtext v tail acc :
  Json.parse_value fuel (vtext ++ tail) = Ok (v, tail) ->
  Json.skip_ws (vtext ++ tail) = vtext ++ tail ->
  Json.parse_members (S fuel)
    (Json.encode_string key ++ ": " ++ vtext ++ tail) acc =
    match Json.skip_ws tail with
    | String "}" t => Ok (PDict (Json.dict_set key v acc), t)
    | String "," t =>
        Json.parse_members fuel (Json.skip_ws t) (Json.dict_set key v acc)
    | _ => Raises JSONDecodeError
    end.
Proof.
  intros Hv Hs. unfold Json.encode_string.
  cbn [String.append Json.parse_members].
  change (Ascii.eqb Json.dquote Json.dquote) with true. cbv iota.
  rewrite append_assoc. cbn [String.append].
  rewrite scan_string_escape. cbn [obind String.append].
  change (Json.skip_ws (String ":" (String " " (vtext ++ tail))))
    with (String ":" (String " " (vtext ++ tail))).
  cbv iota.
  change (Json.skip_ws (String " " (vtext ++ tail)))
    with (Json.skip_ws (vtext ++ tail)).
  rewrite Hs, Hv. reflexivity.
Qed.

Lemma skip_ws_encode s tail :
  Json.skip_ws (Json.encode_string s ++ tail) = Json.encode_string s ++ tail.
Proof. reflexivity. Qed.

Lemma skip_ws_null tail : Json.skip_ws ("null" ++ tail) = "null" ++ tail.
Proof. reflexivity. Qed.

Lemma skip_ws_int n tail :
  Json.skip_ws (str_of_int n ++ tail) = str_of_int n ++ tail.
Proof.
  unfold str_of_int. destruct n as [|p|p]; [reflexivity| |reflexivity].
  cbn [Z.to_int NilZero.string_of_int].
  destruct (str_of_pos p) as (c & d & E & Hc & _).
  rewrite E. cbn [String.append Json.skip_ws].
  assert (Hw : Json.is_ws c = false)
    by (destruct c as [[] [] [] [] [] [] [] []]; try discriminate Hc;
        reflexivity).
  now rewrite Hw.
Qed.

Lemma parse_iso_value fuel iso tail :
  Json.parse_value (S fuel) (Json.dump 2 (iso_value iso) ++ tail) =
    Ok (iso_value iso, tail) /\
  Json.skip_ws (Json.dump 2 (iso_value iso) ++ tail) =
    Json.dump 2 (iso_value iso) ++ tail.
Proof.
  destruct iso as [p|]; cbn [iso_value Json.dump]; split.
  - apply parse_string_value.
  - apply skip_ws_encode.
  - apply parse_null_value.
  - apply skip_ws_null.
Qed.

Lemma parse_object_open fuel level key tail :
  Json.parse_value (S fuel)
    ("{" ++ Json.line_indent level ++ Json.encode_string key ++ tail) =
  Json.parse_members fuel (Json.encode_string key ++ tail) [].
Proof.
  change (Json.parse_value (S fuel)
            ("{" ++ Json.line_indent level ++ Json.encode_string key ++ tail))
    with (match Json.skip_ws (Json.line_indent level ++
                              Json.encode_string key ++ tail) with
          | String "}" r => Ok (PDict [], r)
          | r' => Json.parse_members fuel r' []
          end).
  rewrite skip_ws_indent, skip_ws_encode. reflexivity.
Qed.

Lemma parse_member_next fuel key vtext v level key' tail acc :
  let following :=
    "," ++ Json.line_indent level ++ Json.encode_string key' ++ tail in
  Json.parse_value fuel (vtext ++ following) = Ok (v, following) ->
  Json.skip_ws (vtext ++ following) = vtext ++ following ->
  Json.parse_members (S fuel)
    (Json.encode_string key ++ ": " ++ vtext ++ following) acc =
  Json.parse_members fuel (Json.encode_string key' ++ tail)
    (Json.dict_set key v acc).
Proof.
  intros following Hv Hs. rewrite (parse_member fuel key vtext v _ acc Hv Hs).
  unfold following.
  change (Json.skip_ws ("," ++ Json.line_indent level ++
                        Json.encode_string key' ++ tail))
    with (String "," (Json.line_indent level ++
                      Json.encode_string key' ++ tail)).
  cbv iota. now rewrite skip_ws_indent, skip_ws_encode.
Qed.

Lemma parse_member_last fuel key vtext v level tail acc :
  let following := Json.line_indent level ++ "}" ++ tail in
  Json.parse_value fuel (vtext ++ following) = Ok (v, following) ->
  Json.skip_ws (vtext ++ following) = vtext ++ following ->
  Json.parse_members (S fuel)
    (Json.encode_string key ++ ": " ++ vtext ++ following) acc =
  Ok (PDict (Json.dict_set key v acc), tail).
Proof.
  intros following Hv Hs. rewrite (parse_member fuel key vtext v _ acc Hv Hs).
  unfold following. rewrite skip_ws_indent. reflexivity.
Qed.

Lemma parse_config fuel (vm : VirtualMachine) (rest : string) :
  Json.parse_value (7 + fuel) (Json.dump 1 (config_of vm) ++ rest) =
    Ok (config_of vm, rest).
Proof.
  destruct vm as [n c m d iso]. unfold config_of, vm_config.
  cbn [vm_name vm_cpu_cores vm_memory vm_disk vm_iso].
  change (match iso with Some p => PStr p | None => PNone end)
    with (iso_value iso).
  cbn [Json.dump List.map Py.join String.concat fst snd].
  rewrite !append_assoc.
  change (7 + fuel)%nat with (S (S (S (S (S (S (S fuel))))))).
  rewrite parse_object_open.
  rewrite (parse_member_next _ "name" _ (PStr n));
    [|apply parse_string_value|apply skip_ws_encode].
  rewrite (parse_member_next _ "cpu_cores" _ (PInt c));
    [|apply parse_int_value|apply skip_ws_int].
  rewrite (parse_member_next _ "memory" _ (PStr m));
    [|apply parse_string_value|apply skip_ws_encode].
  rewrite (parse_member_next _ "disk" _ (PStr d));
    [|apply parse_string_value|apply skip_ws_encode].
  destruct (parse_iso_value fuel iso (Json.line_indent 1 ++ "}" ++ rest))
    as [Hv Hs].
  rewrite (parse_member_last _ "iso" _ (iso_value iso) 1 rest _ Hv Hs).
  reflexivity.
Qed.

Lemma skip_ws_config vm tail :
  Json.skip_ws (Json.dump 1 (config_of vm) ++ tail) =
  Json.dump 1 (config_of vm) ++ tail.
Proof. reflexivity. Qed.

Lemma parse_array_open fuel level vm tail :
  Json.parse_value (S fuel)
    ("[" ++ Json.line_indent level ++ Json.dump 1 (config_of vm) ++ tail) =
  Json.parse_items fuel (Json.dump 1 (config_of vm) ++ tail) [].
Proof.
  change (Json.parse_value (S fuel)
            ("[" ++ Json.line_indent level ++
             Json.dump 1 (config_of vm) ++ tail))
    with (match Json.skip_ws (Json.line_indent level ++
                              Json.dump 1 (config_of vm) ++ tail) with
          | String "]" r => Ok (PList [], r)
          | r' => Json.parse_items fuel r' []
          end).
  rewrite skip_ws_indent, skip_ws_config. reflexivity.
Qed.

Lemma join_cons sep x y l :
  Py.join sep (x :: y :: l) = x ++ sep ++ Py.join sep (y :: l).
Proof. reflexivity. Qed.

(** The elements of the registry array, from the first to the closing
    bracket. *)
Lemma parse_items_configs (vms : list VirtualMachine) :
  forall (vm : VirtualMachine) (fuel : nat) (acc : list pyval)
         (rest : string),
    Json.parse_items (8 + List.length vms + fuel)
      (Py.join ("," ++ Json.line_indent 1)
         (List.map (Json.dump 1) (List.map config_of (vm :: vms))) ++
       Json.line_indent 0 ++ "]" ++ rest) acc =
    Ok (PList (acc ++ List.map config_of (vm :: vms)), rest).
Proof.
  induction vms as [|vm' vms IH]; intros vm fuel acc rest.
  - cbn [List.map Py.join String.concat List.length].
    change (8 + 0 + fuel)%nat with (S (7 + fuel)).
    cbn [Json.parse_items]. rewrite parse_config. cbn [obind].
    rewrite skip_ws_indent. reflexivity.
  - specialize (IH vm' fuel (acc ++ [config_of vm])%list rest).
    cbn [List.map List.length] in *.
    rewrite join_cons, !append_assoc.
    replace (8 + S (List.length vms) + fuel)%nat
      with (S (7 + (1 + List.length vms + fuel)))%nat by lia.
    cbn [Json.parse_items]. rewrite parse_config. cbn [obind].
    change (Json.skip_ws ("," ++ ?x)) with (String "," x).
    cbv iota. rewrite skip_ws_indent.
    replace (7 + (1 + List.length vms + fuel))%nat
      with (8 + List.length vms + fuel)%nat by lia.
    assert (Hs : forall tail,
               Json.skip_ws
                 (Py.join ("," ++ Json.line_indent 1)
                    (Json.dump 1 (config_of vm') ::
                     List.map (Json.dump 1) (List.map config_of vms)) ++
                  tail) =
               Py.join ("," ++ Json.line_indent 1)
                 (Json.dump 1 (config_of vm') ::
                  List.map (Json.dump 1) (List.map config_of vms)) ++ tail).
    { intros tail. destruct (List.map (Json.dump 1) (List.map config_of vms));
        reflexivity. }
    rewrite Hs, IH. now rewrite <- app_assoc.
Qed.

Lemma length_append (a b : string) :
  String.length (a ++ b) = (String.length a + String.length b)%nat.
Proof. induction a as [|c a IH]; simpl; [reflexivity|now rewrite IH]. Qed.

Lemma loads_dumps_registry (vms : list VirtualMachine) :
  Json.loads (Json.dumps (PList (List.map config_of vms))) =
    Ok (PList (List.map config_of vms)).
Proof.
  destruct vms as [|vm vms]; [reflexivity|].
  unfold Json.loads, Json.dumps.
  set (text := Json.dump 0 (PList (List.map config_of (vm :: vms)))).
  assert (Htext : text =
            "[" ++ Json.line_indent 1 ++
            Py.join ("," ++ Json.line_indent 1)
              (List.map (Json.dump 1) (List.map config_of (vm :: vms))) ++
            Json.line_indent 0 ++ "]" ++ "").
  { unfold text. cbn [List.map Json.dump]. rewrite ?append_assoc. reflexivity. }
  assert (Hlen : (List.length vms + 7 <= String.length text)%nat).
  { rewrite Htext. clear. rewrite !length_append.
    change (String.length (Json.line_indent 1)) with 5%nat.
    change (String.length (Json.line_indent 0)) with 1%nat.
    cbn [String.length].
    set (sep := "," ++ Json.line_indent 1).
    assert (Hsep : (1 <= String.length sep)%nat)
      by (unfold sep; rewrite length_append; cbn [String.length]; lia).
    enough (List.length vms <=
            String.length
              (Py.join sep
                 (List.map (Json.dump 1) (List.map config_of (vm :: vms)))))%nat
      by lia.
    clearbody sep.
    revert vm. induction vms as [|vm' vms IH]; intros vm; [simpl; lia|].
    cbn [List.map List.length] in *. rewrite join_cons, !length_append.
    specialize (IH vm'). lia. }
  replace (2 * String.length text + 2)%nat
    with (S (8 + List.length vms +
             (2 * String.length text + 2 - (9 + List.length vms))))%nat
    by lia.
  assert (Hskip : Json.skip_ws text = text) by (rewrite Htext; reflexivity).
  rewrite Hskip, Htext.
  assert (Hopen : forall fuel body tail,
             Json.skip_ws (body ++ tail) = body ++ tail ->
             (forall r, body ++ tail <> String "]" r) ->
             Json.parse_value (S fuel)
               ("[" ++ Json.line_indent 1 ++ body ++ tail) =
             Json.parse_items fuel (body ++ tail) []).
  { intros fuel body tail Hs Hb.
    change (Json.parse_value (S fuel)
              ("[" ++ Json.line_indent 1 ++ body ++ tail))
      with (match Json.skip_ws (Json.line_indent 1 ++ body ++ tail) with
            | String "]" r => Ok (PList [], r)
            | r' => Json.parse_items fuel r' []
            end).
    rewrite skip_ws_indent, Hs.
    destruct (body ++ tail) as [|c r] eqn:E; [reflexivity|].
    destruct c as [[] [] [] [] [] [] [] []]; try reflexivity.
    now destruct (Hb r). }
  rewrite Hopen.
  - rewrite parse_items_configs. reflexivity.
  - cbn [List.map]. destruct (List.map (Json.dump 1) (List.map config_of vms));
      reflexivity.
  - intros r. cbn [List.map].
    destruct (List.map (Json.dump 1) (List.map config_of vms)); discriminate.
Qed.

End JsonRoundTrip.

#[local] Arguments String.append : simpl never.

(** Creating the definitions [vms] in turn and loading the registry
    again, for any JSON library that reads back the text it writes for
    this list. *)
Lemma registry_reload `{RT : Runtime}
  (st : State) (vms : list VirtualMachine) :
  empty_registry st ->
  json_loads (json_dumps (PList (map config_of vms))) =
    Ok (PList (map config_of vms)) ->
  exists st1 st2 entries,
    create_all vms st = (Ok tt, st1) /\
    init st1 = (Ok tt, st2) /\
    virtual_machines st2 = PList entries /\
    List.length entries = List.length vms /\
    forall i vm,
      nth_error vms i = Some vm ->
      nth_error entries i = Some (config_of vm) /\
      registry_entry (virtual_machines st2) (Z.of_nat i) = Ok vm.
Proof.
  intros [Hmem Hfile] Hjson.
  assert (Hw : registry_writable st).
  { intros names Hdir.
    destruct Hfile as [Hn | (t & Ht & _)]; congruence. }
  destruct (create_all_spec vms st [] Hmem Hw) as (st1 & E1 & V1 & F1).
  cbn [app] in V1, F1.
  assert (Hinit : exists st2,
             init st1 = (Ok tt, st2) /\
             virtual_machines st2 = PList (map config_of vms)).
  { destruct vms as [|vm rest].
    - subst st1. cbn [map].
      apply init_empty_registry. split; assumption.
    - destruct (init_readable_registry st1 _ _ F1 Hjson)
        as (st2 & E2 & V2). eauto. }
  destruct Hinit as (st2 & E2 & V2).
  exists st1, st2, (map config_of vms).
  repeat split; try assumption.
  - apply length_map.
  - rewrite nth_error_map, H. reflexivity.
  - rewrite V2. now apply registry_entry_nth.
Qed.

(** C5.  From a manager with no VM, after [create_virtual_machine] has
    been called for the [N] definitions [vms] in turn, loading the
    registry from its file gives a list of [N] entries, the [i]-th
    holding the fields of the [i]-th definition submitted.  The registry
    file is written and read in the JSON text format. *)
Theorem registry_round_trip `{RT : Runtime}
  (st : State) (vms : list VirtualMachine) :
  standard_json RT ->
  empty_registry st ->
  exists st1 st2 entries,
    create_all vms st = (Ok tt, st1) /\
    init st1 = (Ok tt, st2) /\
    virtual_machines st2 = PList entries /\
    List.length entries = List.length vms /\
    forall i vm,
      nth_error vms i = Some vm ->
      nth_error entries i = Some (config_of vm) /\
      registry_entry (virtual_machines st2) (Z.of_nat i) = Ok vm.
Proof.
  intros [Hdumps Hloads] Hempty.
  apply registry_reload; [assumption|].
  rewrite Hdumps, Hloads.
  apply loads_dumps_registry.
Qed.

Lemma registry_round_trip_witness :
  exists st1 st2 entries,
    create_all (RT := example_runtime) example_vms example_state =
      (Ok tt, st1) /\
    init (RT := example_runtime) st1 = (Ok tt, st2) /\
    virtual_machines st2 = PList entries /\
    List.length entries = List.length example_vms /\
    forall i vm,
      nth_error example_vms i = Some vm ->
      nth_error entries i = Some (config_of vm) /\
      registry_entry (virtual_machines st2) (Z.of_nat i) = Ok vm.
Proof.
  apply (registry_round_trip (RT := example_runtime)
           example_state example_vms).
  - split; reflexivity.
  - split; [reflexivity|]. left. vm_compute. reflexivity.
Defined.

(** ** Creating a disk *)

Lemma runs_app l1 l2 : runs (l1 ++ l2) = (runs l1 ++ runs l2)%list.
Proof. unfold runs. apply omap_app. Qed.

(** [subprocess.run] logs its command, whatever comes of it. *)
Lemma subprocess_run_log (argv : list string) (st : State) :
  w_log (os (snd (subprocess_run argv st))) =
    (w_log (os st) ++ [Run argv])%list.
Proof.
  unfold subprocess_run. unfold_monad. destruct st as [w vms].
  cbn [os with_os with_event w_tool w_fs].
  destruct (w_tool w argv (w_fs w)) as [[c|msg] fs]; cbn [snd os with_os];
    [destruct (returncode c =? 0)|]; reflexivity.
Qed.

(** C7, as amended.  For every disk name, format and non-empty size,
    [create_virtual_disk] runs the disk-image tool once, with the
    arguments [create -f <format> <absolutePath> <normalizedSize>], the
    path being the absolute path of [disks_dir] joined with
    [<name>.<format>]; for disk ["alpha"], format ["qcow2"] and size
    ["5"] the size is normalised to ["5G"]. *)
Theorem create_virtual_disk_invocation `{RT : Runtime}
  (disk_name disk_format disk_size : string) (st : State) :
  (disk_size <> "" ->
   exists size,
     normalize_size disk_size = Ok size /\
     runs (w_log (os (snd (create_virtual_disk disk_name disk_format
                             disk_size st)))) =
       (runs (w_log (os st)) ++
        [["qemu-img"; "create"; "-f"; disk_format;
          path_abspath
            (path_join disks_dir (disk_name ++ "." ++ disk_format));
          size]])%list) /\
  runs (w_log (os (snd (create_virtual_disk "alpha" "qcow2" "5" st)))) =
    (runs (w_log (os st)) ++
     [["qemu-img"; "create"; "-f"; "qcow2";
       path_abspath (path_join disks_dir "alpha.qcow2"); "5G"]])%list.
Proof.
  assert (Hgen : forall name fmt sz size,
             normalize_size sz = Ok size ->
             runs (w_log (os (snd (create_virtual_disk name fmt sz st)))) =
               (runs (w_log (os st)) ++
                [["qemu-img"; "create"; "-f"; fmt;
                  path_abspath (path_join disks_dir (name ++ "." ++ fmt));
                  size]])%list).
  { intros name fmt sz size Hsize. unfold create_virtual_disk.
    unfold try_except, bind at 1, lift. rewrite Hsize.
    destruct (ensure_dir_spec disks_dir st) as
      (st1 & E1 & _ & _ & _ & _ & R1 & _); [discriminate|].
    unfold bind at 1. rewrite E1.
    unfold bind at 1. unfold print, emit at 1.
    set (cmd := ["qemu-img"; "create"; "-f"; fmt; _; size]).
    set (st2 := with_os _ st1).
    pose proof (subprocess_run_log cmd st2) as Hlog.
    unfold bind at 1.
    destruct (subprocess_run cmd st2) as [[result|e] st3];
      cbn [snd] in Hlog.
    - unfold ret. cbn [snd]. rewrite Hlog, runs_app.
      unfold st2. cbn [os with_os with_event w_log].
      rewrite runs_app, R1. simpl. now rewrite app_nil_r.
    - assert (Hst : w_log (os (snd
                (if is_CalledProcessError e
                 then (fun st => (Ok (false,
                         "Error creating disk: " ++ exn_str e ++ newline ++
                         "Command output: " ++
                         match e with
                         | CalledProcessError _ _ err => err
                         | _ => ""
                         end), st)) st3
                 else (@Raises (bool * string) e, st3)))) =
              w_log (os st3))
        by (destruct (is_CalledProcessError e); reflexivity).
      unfold ret. rewrite Hst, Hlog, runs_app.
      unfold st2. cbn [os with_os with_event w_log].
      rewrite runs_app, R1. simpl. now rewrite app_nil_r. }
  split.
  - intros Hne. destruct (last_char_nonempty disk_size Hne) as [c Hc].
    assert (Hn : exists size, normalize_size disk_size = Ok size).
    { unfold normalize_size. rewrite Hc.
      destruct (char_in (upper_char c) _); eauto. }
    destruct Hn as [size Hsize]. exists size. split; [exact Hsize|].
    now apply Hgen.
  - now apply (Hgen "alpha" "qcow2" "5" "5G").
Qed.

Lemma create_virtual_disk_invocation_witness :
  exists size,
    normalize_size "20" = Ok size /\
    runs (w_log (os (snd (create_virtual_disk (RT := example_runtime)
                            "data" "raw" "20" example_state)))) =
      [["qemu-img"; "create"; "-f"; "raw";
        "/srv/cloud/virtual_disks/data.raw"; size]].
Proof.
  apply (proj1 (create_virtual_disk_invocation (RT := example_runtime)
                  "data" "raw" "20" example_state)).
  discriminate.
Defined.

(** C7 as stated fails on the empty size: its last character is read
    first, [IndexError] is raised and is not caught, and the tool is not
    run. *)
Lemma create_virtual_disk_empty_size :
  fst (create_virtual_disk (RT := example_runtime) "alpha" "qcow2" ""
         example_state) = Raises IndexError /\
  runs (w_log (os (snd (create_virtual_disk (RT := example_runtime)
                          "alpha" "qcow2" "" example_state)))) = [].
Proof. split; vm_compute; reflexivity. Qed.

(** ** Listing the disks *)

(** One turn of the loop of [list_virtual_disks], when the query
    changes no file: the entry of [filename], if any, is appended and
    the loop goes on with the same files and tools. *)
Lemma list_disks_step `{RT : Runtime} (w0 : World)
  (filename : string) (rest : list string)
  (i : Z) (disks : list disk_info) (st : State) :
  info_available w0 ->
  w_fs (os st) = w_fs w0 ->
  w_tool (os st) = w_tool w0 ->
  exists st1,
    w_fs (os st1) = w_fs w0 /\
    w_tool (os st1) = w_tool w0 /\
    list_disks_from i (filename :: rest) disks st =
      list_disks_from (i + 1) rest
        (disks ++ match disk_entry w0 (i, filename) with
                  | Some entry => [entry]
                  | None => []
                  end)%list st1.
Proof.
  intros Hinfo Hfs Htool.
  assert (Hlook : forall p, lookup_path p (os st) = lookup_path p w0)
    by (intros p; unfold lookup_path; now rewrite Hfs).
  destruct (Hinfo (path_join disks_dir filename) (w_fs w0)) as [c Hc].
  remember (disk_entry w0 (i, filename)) as de eqn:Hde.
  unfold disk_entry in Hde. rewrite Hc in Hde. cbn [fst] in Hde.
  cbn [list_disks_from]. unfold_calls. unfold_monad.
  rewrite Hlook.
  destruct (lookup_path (path_join disks_dir filename) w0)
    as [[data|sub]|] eqn:E.
  - rewrite Hlook, E. cbv beta iota.
    destruct st as [w vms].
    cbn [os with_os with_event with_fs w_tool w_fs] in *.
    rewrite Htool, Hfs, Hc.
    eexists {| os := with_fs (w_fs w0) (with_event _ w);
               virtual_machines := vms |}.
    split; [reflexivity|]. split; [exact Htool|].
    cbn [os with_os with_event with_fs w_tool w_fs].
    subst de. destruct (returncode c =? 0).
    + unfold known_entry.
      destruct (scan_info _ _ _) as [format_info size_info].
      reflexivity.
    + reflexivity.
  - exists st. subst de. rewrite app_nil_r. auto.
  - exists st. subst de. rewrite app_nil_r. auto.
Qed.

(** The whole loop: it appends the entry of each directory entry in
    turn. *)
Lemma list_disks_from_spec `{RT : Runtime} (w0 : World)
  (names : list string) :
  info_available w0 ->
  forall (i : Z) (disks : list disk_info) (st : State),
    w_fs (os st) = w_fs w0 ->
    w_tool (os st) = w_tool w0 ->
    exists st',
      list_disks_from i names disks st =
        (Ok (disks ++ omap (disk_entry w0) (enumerate i names))%list, st').
Proof.
  intros Hinfo. induction names as [|filename rest IH];
    intros i disks st Hfs Htool.
  - exists st. simpl. now rewrite app_nil_r.
  - destruct (list_disks_step w0 filename rest i disks st Hinfo Hfs Htool)
      as (st1 & Hfs1 & Htool1 & Hstep).
    rewrite Hstep.
    destruct (IH (i + 1)
                (disks ++ match disk_entry w0 (i, filename) with
                          | Some entry => [entry]
                          | None => []
                          end)%list st1 Hfs1 Htool1) as [st' E'].
    exists st'. rewrite E'. f_equal. f_equal.
    rewrite <- app_assoc. f_equal.
    cbn [enumerate omap list_omap].
    destruct (disk_entry w0 (i, filename)); reflexivity.
Qed.

(** C6, as amended.  When [qemu-img info] can be started,
    [list_virtual_disks] does not raise: it returns, in directory order,
    what each directory entry yields on its own.  A regular file whose
    query exits non-zero yields its entry with format ["Unknown"] and
    the size [f"{size_mb:.2f} MB"] of its byte count. *)
Theorem list_virtual_disks_spec `{RT : Runtime}
  (st : State) (names : list string) :
  lookup_path disks_dir (os st) = Some (Dir names) ->
  info_available (os st) ->
  (exists st',
      list_virtual_disks st =
        (Ok (omap (disk_entry (os st)) (enumerate 1 names)), st')) /\
  (forall (i : Z) (filename data : string) (c : completed),
      lookup_path (path_join disks_dir filename) (os st) =
        Some (File data) ->
      fst (w_tool (os st) ["qemu-img"; "info";
                           path_join disks_dir filename] (w_fs (os st))) =
        Done c ->
      returncode c <> 0 ->
      disk_entry (os st) (i, filename) =
        Some {| index := i; name := filename;
                path := path_join disks_dir filename;
                format := "Unknown";
                size :=
                  format_2f
                    (f64_of_ratio false (Z.of_nat (String.length data))
                       (1024 * 1024)) ++ " MB" |}).
Proof.
  intros Hdir Hinfo. split.
  - unfold list_virtual_disks. unfold_calls. unfold_monad.
    rewrite Hdir. cbv beta iota.
    destruct (list_disks_from_spec (os st) names Hinfo 1 [] st
                eq_refl eq_refl) as [st' E].
    exists st'. exact E.
  - intros i filename data c Hfile Hc Hrc.
    unfold disk_entry. rewrite Hfile, Hc.
    apply Z.eqb_neq in Hrc. rewrite Hrc. reflexivity.
Qed.

Lemma example_info_available : info_available example_world.
Proof.
  intros p fs. cbn [example_world w_tool]. unfold example_tool.
  destruct (p =? "virtual_disks/broken.img")%string; eexists; reflexivity.
Qed.

Lemma list_virtual_disks_spec_witness :
  (exists st',
      list_virtual_disks (RT := example_runtime) example_state =
        (Ok (omap (disk_entry (RT := example_runtime) example_world)
               (enumerate 1 ["alpha.qcow2"; "notes"; "broken.img"])),
         st')) /\
  disk_entry (RT := example_runtime) example_world (3, "broken.img") =
    Some {| index := 3; name := "broken.img";
            path := "virtual_disks/broken.img";
            format := "Unknown"; size := "0.01 MB" |}.
Proof.
  pose proof (list_virtual_disks_spec (RT := example_runtime)
                example_state ["alpha.qcow2"; "notes"; "broken.img"])
    as Hspec.
  destruct Hspec as [Hlist Hentry].
  - vm_compute. reflexivity.
  - exact example_info_available.
  - split; [exact Hlist|].
    apply (Hentry 3 "broken.img" (Json.zeros (Z.to_nat 5243))
             {| returncode := 1; stdout := "";
                stderr := "qemu-img: Could not open" |}).
    + vm_compute. reflexivity.
    + vm_compute. reflexivity.
    + discriminate.
Defined.

(** C6 as stated fails on the format: the disk whose query failed is
    listed with ["Unknown"], capitalised, and not with ["unknown"]. *)
Lemma list_virtual_disks_unknown_format :
  fst (list_virtual_disks (RT := example_runtime) example_state) =
    Ok [ {| index := 1; name := "alpha.qcow2";
            path := "virtual_disks/alpha.qcow2";
            format := "qcow2"; size := "5 GiB (5368709120 bytes)" |};
         {| index := 3; name := "broken.img";
            path := "virtual_disks/broken.img";
            format := "Unknown"; size := "0.01 MB" |} ] /\
  "Unknown" <> "unknown".
Proof. split; [vm_compute; reflexivity | discriminate]. Qed.

(** ** Starting a virtual machine *)

Lemma spawns_app l1 l2 : spawns (l1 ++ l2) = (spawns l1 ++ spawns l2)%list.
Proof. unfold spawns. apply omap_app. Qed.

(** The ISO test of [start_virtual_machine] finds the ISO exactly when
    it is present and exists. *)
Lemma iso_attached_spec (vm : VirtualMachine) (st : State) :
  iso_attached vm st = (Ok (existing_iso (os st) vm), st).
Proof.
  unfold iso_attached, existing_iso. destruct (vm_iso vm) as [p|];
    [|reflexivity].
  destruct (p =? "")%string eqn:E.
  - apply String.eqb_eq in E. subst p. reflexivity.
  - unfold_calls. unfold_monad.
    destruct (lookup_path p (os st)); reflexivity.
Qed.

(** What a call of [start_virtual_machine] does once the entry is read
    and its memory converted: it prints the description, starts the
    command, and answers by the platform and by what the process does. *)
Lemma start_virtual_machine_run `{RT : Runtime}
  (st : State) (vm_index : Z) (vm : VirtualMachine) (memory_mb : Z) :
  registry_entry (virtual_machines st) vm_index = Ok vm ->
  launch_memory_mb (vm_memory vm) = Ok memory_mb ->
  exists debug_info,
    let argv := start_command (os st) vm memory_mb in
    let windows := (w_system (os st) =? "Windows")%string in
    let started :=
      (true, "VM '" ++ vm_name vm ++ "' started successfully!" ++
             newline ++ debug_info) in
    start_virtual_machine vm_index st =
      (Ok match w_spawn (os st) argv with
          | Done p =>
              if windows then
                match wait_1s p with
                | Some code =>
                    if code =? 0 then started
                    else (false, "QEMU process exited with code " ++
                                 str_of_int code ++ ": " ++ stderr_text p)
                | None => started
                end
              else started
          | Failed msg =>
              (false, "Error starting VM: " ++ exn_str (OSError msg) ++
                      newline ++ debug_info)
          end,
       with_os (with_event (Popen argv windows windows)
                  (with_event (Print debug_info) (os st))) st).
Proof.
  intros Hvm Hmem. unfold start_virtual_machine.
  unfold bind at 1. unfold get_vms at 1.
  unfold bind at 1. unfold lift at 1. rewrite Hvm.
  unfold bind at 1. unfold lift at 1. rewrite Hmem.
  unfold bind at 1. rewrite iso_attached_spec.
  unfold start_command, launch_command, normal_path.
  destruct st as [w vms]. cbn [os].
  destruct (existing_iso w vm) as [p|]; cbn [option_map];
    eexists; cbv zeta;
    unfold_calls; unfold_monad;
    cbn [os with_os app];
    change (w_system (with_event ?e w)) with (w_system w);
    (destruct (w_system w =? "Windows")%string;
     cbn [os with_os];
     match goal with
     | |- context [w_spawn ?w' ?argv] =>
         change (w_spawn w' argv) with (w_spawn w argv);
         destruct (w_spawn w argv) as [pr|msg]
     end;
     cbn [os with_os];
     try (destruct (wait_1s pr) as [code|];
          [destruct (code =? 0)|]);
     reflexivity).
Qed.

Lemma existing_iso_iff (w : World) (vm : VirtualMachine) (p : string) :
  existing_iso w vm = Some p <->
  vm_iso vm = Some p /\ lookup_path p w <> None.
Proof.
  unfold existing_iso. destruct (vm_iso vm) as [q|].
  - destruct (lookup_path q w) eqn:E; split.
    + intros [= <-]. split; congruence.
    + intros [[= <-] _]. reflexivity.
    + discriminate.
    + intros [[= <-] Hn]. congruence.
  - split; [discriminate | intros [[=] _]].
Qed.

(** C2, as amended.  For every VM record whose memory string converts
    to a megabyte count, [start_virtual_machine] starts exactly one
    process, with the argument vector [qemu-system-x86_64 -name <name>
    -m <memMB> -smp <cores> -hda <diskPath>], then [-cdrom <isoPath>
    -boot d] if the ISO path is present and exists at launch time and
    [-boot c] otherwise, then [-device e1000,netdev=net0 -netdev
    user,id=net0 -accel tcg -display sdl]. *)
Theorem start_virtual_machine_command `{RT : Runtime}
  (st : State) (vm_index : Z) (vm : VirtualMachine) (memory_mb : Z) :
  registry_entry (virtual_machines st) vm_index = Ok vm ->
  launch_memory_mb (vm_memory vm) = Ok memory_mb ->
  exists iso : option string,
    spawns (w_log (os (snd (start_virtual_machine vm_index st)))) =
      (spawns (w_log (os st)) ++
       [ (["qemu-system-x86_64"; "-name"; vm_name vm;
           "-m"; str_of_int memory_mb;
           "-smp"; str_of_int (vm_cpu_cores vm);
           "-hda"; normal_path (vm_disk vm)] ++
          match iso with
          | Some p => ["-cdrom"; normal_path p; "-boot"; "d"]
          | None => ["-boot"; "c"]
          end ++
          ["-device"; "e1000,netdev=net0"; "-netdev"; "user,id=net0";
           "-accel"; "tcg"; "-display"; "sdl"]) ])%list /\
    forall p, iso = Some p <->
              vm_iso vm = Some p /\ lookup_path p (os st) <> None.
Proof.
  intros Hvm Hmem.
  destruct (start_virtual_machine_run st vm_index vm memory_mb Hvm Hmem)
    as [debug_info Hrun].
  cbv zeta in Hrun. rewrite Hrun. cbn [snd os with_os with_event w_log].
  exists (existing_iso (os st) vm). split.
  - rewrite !spawns_app. cbn. rewrite app_nil_r.
    unfold start_command, launch_command.
    destruct (existing_iso (os st) vm); reflexivity.
  - intros p. apply existing_iso_iff.
Qed.

Lemma start_virtual_machine_command_witness :
  exists iso : option string,
    spawns (w_log (os (snd (start_virtual_machine (RT := example_runtime)
                              1 (manager example_world example_vms))))) =
      [ (["qemu-system-x86_64"; "-name"; "installer"; "-m"; "512";
          "-smp"; "1"; "-hda"; "/srv/cloud/virtual_disks/alpha.qcow2"] ++
         match iso with
         | Some p =>
             ["-cdrom"; normal_path (RT := example_runtime) p;
              "-boot"; "d"]
         | None => ["-boot"; "c"]
         end ++
         ["-device"; "e1000,netdev=net0"; "-netdev"; "user,id=net0";
          "-accel"; "tcg"; "-display"; "sdl"]) ]%list /\
    forall p, iso = Some p <->
              Some "/tmp/debian.iso" = Some p /\
              lookup_path p example_world <> None.
Proof.
  apply (start_virtual_machine_command (RT := example_runtime)
           (manager example_world example_vms) 1
           {| vm_name := "installer"; vm_cpu_cores := 1;
              vm_memory := "512M"; vm_disk := "virtual_disks/alpha.qcow2";
              vm_iso := Some "/tmp/debian.iso" |} 512).
  - vm_compute. reflexivity.
  - vm_compute. reflexivity.
Defined.

(** C2 as stated fails on a record whose memory string does not
    convert: the conversion raises before the vector is built and no
    process is started. *)
Lemma start_virtual_machine_unconvertible :
  fst (start_virtual_machine (RT := example_runtime) 0
         (manager example_world [unconvertible_vm])) = Raises ValueError /\
  spawns (w_log (os (snd (start_virtual_machine (RT := example_runtime) 0
                            (manager example_world [unconvertible_vm])))))
    = [].
Proof. split; vm_compute; reflexivity. Qed.

(** C9.  Once the command is built: on Windows, a process that exits
    within the wait with a non-zero status gives failure with the
    status and the error stream read, and a process that exits with
    status zero or is still running when the wait expires gives success;
    on any other platform the call succeeds exactly when the process
    could be started. *)
Theorem start_virtual_machine_outcome `{RT : Runtime}
  (st : State) (vm_index : Z) (vm : VirtualMachine) (memory_mb : Z) :
  registry_entry (virtual_machines st) vm_index = Ok vm ->
  launch_memory_mb (vm_memory vm) = Ok memory_mb ->
  let argv := start_command (os st) vm memory_mb in
  let result := fst (start_virtual_machine vm_index st) in
  (w_system (os st) = "Windows" ->
   forall p, w_spawn (os st) argv = Done p ->
     (forall code, wait_1s p = Some code -> code <> 0 ->
        result = Ok (false, "QEMU process exited with code " ++
                            str_of_int code ++ ": " ++ stderr_text p)) /\
     (wait_1s p = Some 0 \/ wait_1s p = None ->
        exists msg, result = Ok (true, msg))) /\
  (w_system (os st) <> "Windows" ->
   exists ok msg,
     result = Ok (ok, msg) /\
     (ok = true <-> exists p, w_spawn (os st) argv = Done p)).
Proof.
  intros Hvm Hmem argv result.
  destruct (start_virtual_machine_run st vm_index vm memory_mb Hvm Hmem)
    as [debug_info Hrun].
  cbv zeta in Hrun. fold argv in Hrun.
  unfold result. rewrite Hrun. cbn [fst]. split.
  - intros Hwin p Hp. rewrite Hp.
    apply String.eqb_eq in Hwin. rewrite Hwin. split.
    + intros code Hcode Hnz. rewrite Hcode.
      apply Z.eqb_neq in Hnz. now rewrite Hnz.
    + intros [H0 | Hrunning].
      * rewrite H0. cbn. eauto.
      * rewrite Hrunning. eauto.
  - intros Hother. apply String.eqb_neq in Hother. rewrite Hother.
    destruct (w_spawn (os st) argv) as [p|msg].
    + eexists _, _. split; [reflexivity|]. split; eauto.
    + eexists _, _. split; [reflexivity|].
      split; [discriminate | intros [p [=]]].
Qed.

Lemma start_virtual_machine_outcome_witness :
  fst (start_virtual_machine (RT := windows_runtime) 0
         (manager windows_world example_vms)) =
    Ok (false, "QEMU process exited with code 1: " ++
               "qemu: could not open disk image") /\
  exists ok msg,
    fst (start_virtual_machine (RT := example_runtime) 0
           (manager example_world example_vms)) = Ok (ok, msg) /\
    (ok = true <->
     exists p,
       w_spawn example_world
         (start_command (RT := example_runtime) example_world
            {| vm_name := "vm1"; vm_cpu_cores := 2; vm_memory := "2G";
               vm_disk := "virtual_disks/alpha.qcow2"; vm_iso := None |}
            2048) = Done p).
Proof.
  split.
  - refine (proj1 (proj1 (start_virtual_machine_outcome
             (RT := windows_runtime) (manager windows_world example_vms) 0
             {| vm_name := "vm1"; vm_cpu_cores := 2; vm_memory := "2G";
                vm_disk := "virtual_disks/alpha.qcow2"; vm_iso := None |}
             2048 _ _) _
             {| wait_1s := Some 1;
                stderr_text := "qemu: could not open disk image" |} _)
             1 _ _).
    + vm_compute. reflexivity.
    + vm_compute. reflexivity.
    + reflexivity.
    + reflexivity.
    + reflexivity.
    + discriminate.
  - refine (proj2 (start_virtual_machine_outcome
             (RT := example_runtime) (manager example_world example_vms) 0
             {| vm_name := "vm1"; vm_cpu_cores := 2; vm_memory := "2G";
                vm_disk := "virtual_disks/alpha.qcow2"; vm_iso := None |}
             2048 _ _) _).
    + vm_compute. reflexivity.
    + vm_compute. reflexivity.
    + vm_compute. discriminate.
Defined.

(** * Further properties of the backend *)

(** ** Listing the ISO images *)

Lemma with_os_same (st : State) : with_os (os st) st = st.
Proof. now destruct st. Qed.

(** The loop of [list_iso_files] appends the entry of each directory
    entry in turn and leaves the manager as it was. *)
Lemma list_isos_from_spec `{RT : Runtime} (names : list string) :
  forall (iso_files : list iso_info) (st : State),
    list_isos_from names iso_files st =
      (Ok (iso_files ++ omap (iso_entry (os st)) names)%list, st).
Proof.
  induction names as [|filename rest IH]; intros iso_files st.
  - simpl. now rewrite app_nil_r.
  - cbn [list_isos_from omap list_omap]. unfold iso_entry at 1.
    destruct (endswith ".iso" (lower filename)); [|apply IH].
    unfold_calls. unfold_monad.
    destruct (lookup_path (path_join iso_dir filename) (os st))
      as [[data|sub]|] eqn:E; cbv beta iota.
    + rewrite E. rewrite IH. now rewrite <- app_assoc.
    + apply IH.
    + apply IH.
Qed.

(** X1.  [list_iso_files] returns the empty list when nothing is at
    [iso_dir]; when a directory is there it returns, in directory order,
    an entry for each name that ends in [.iso] in any case and is a
    regular file, with its path under [iso_dir] and its size as
    [f"{size_mb:.2f} MB"]; it raises [OSError] when a file is there.  In
    every case it runs no program and leaves the manager and its world
    as they were. *)
Theorem list_iso_files_spec `{RT : Runtime} (st : State) :
  list_iso_files st =
    (match lookup_path iso_dir (os st) with
     | None => Ok []
     | Some (Dir names) => Ok (omap (iso_entry (os st)) names)
     | Some (File _) => Raises (OSError "Not a directory")
     end, st).
Proof.
  unfold list_iso_files. unfold_calls. unfold_monad.
  destruct (lookup_path iso_dir (os st)) as [[data|names]|] eqn:E;
    cbv beta iota; rewrite ?E; try reflexivity.
  now rewrite list_isos_from_spec.
Qed.

Lemma list_iso_files_spec_witness :
  fst (list_iso_files (RT := example_runtime)
         (manager library_world example_vms)) =
    Ok [ {| iso_name := "debian.iso";
            iso_path := "iso_images/debian.iso";
            iso_size := "0.00 MB" |};
         {| iso_name := "WIN.ISO";
            iso_path := "iso_images/WIN.ISO";
            iso_size := "0.01 MB" |} ] /\
  snd (list_iso_files (RT := example_runtime)
         (manager library_world example_vms)) =
    manager library_world example_vms.
Proof.
  rewrite (list_iso_files_spec (RT := example_runtime)
             (manager library_world example_vms)).
  cbn [fst snd]. split; [vm_compute|]; reflexivity.
Defined.

(** ** The constructor *)

Lemma ensure_dir_eq (d : string) (st : State) :
  ensure_dir d st = (Ok tt, with_os (with_dir d (os st)) st).
Proof.
  unfold ensure_dir, with_dir, missing. unfold_calls. unfold_monad.
  destruct (lookup_path d (os st)) as [nd|] eqn:E.
  - now rewrite with_os_same.
  - cbv beta. rewrite E. reflexivity.
Qed.

Lemma lookup_path_with_dir_ne p d w :
  p <> d -> lookup_path p (with_dir d w) = lookup_path p w.
Proof.
  intros Hp. unfold with_dir. destruct (missing w d); [|reflexivity].
  rewrite lookup_path_with_fs. unfold lookup_path.
  destruct (p =? "")%string; [reflexivity|].
  cbn [w_fs with_event]. now rewrite lookup_insert_ne.
Qed.

Lemma lookup_path_with_dir_eq d w :
  d <> "" ->
  lookup_path d (with_dir d w) =
    match lookup_path d w with Some nd => Some nd | None => Some (Dir []) end.
Proof.
  intros Hd. unfold with_dir, missing.
  destruct (lookup_path d w) as [nd|] eqn:E; [exact E|].
  rewrite lookup_path_with_fs. apply String.eqb_neq in Hd. rewrite Hd.
  now rewrite lookup_insert_eq.
Qed.

Lemma w_tool_with_dir d w : w_tool (with_dir d w) = w_tool w.
Proof. unfold with_dir. destruct (missing w d); reflexivity. Qed.

Lemma makedirs_of_app l1 l2 :
  makedirs_of (l1 ++ l2) = (makedirs_of l1 ++ makedirs_of l2)%list.
Proof. unfold makedirs_of. apply omap_app. Qed.

(** [__init__] in full, case by case on what is at the registry path. *)
Lemma init_eq `{RT : Runtime} (st : State) :
  init st =
    let w := with_dir iso_dir (with_dir disks_dir (os st)) in
    let loaded v := {| os := w; virtual_machines := v |} in
    match lookup_path vms_file (os st) with
    | None => (Ok tt, loaded (PList []))
    | Some (Dir _) =>
        (Raises (OSError "Is a directory"), loaded (PList []))
    | Some (File text) =>
        match json_loads text with
        | Ok v => (Ok tt, loaded v)
        | Raises JSONDecodeError => (Ok tt, loaded (PList []))
        | Raises e => (Raises e, loaded (PList []))
        end
    end.
Proof.
  unfold init.
  unfold bind at 1. unfold set_vms at 1.
  unfold bind at 1. rewrite ensure_dir_eq.
  unfold bind at 1. rewrite ensure_dir_eq.
  assert (Hlook : lookup_path vms_file
                    (with_dir iso_dir (with_dir disks_dir (os st))) =
                  lookup_path vms_file (os st))
    by (now rewrite !lookup_path_with_dir_ne by discriminate).
  unfold_calls. unfold_monad.
  cbn [os with_os virtual_machines]. rewrite Hlook.
  destruct (lookup_path vms_file (os st)) as [[text|names]|] eqn:E;
    cbv beta iota zeta; cbn [os with_os virtual_machines];
    rewrite ?Hlook; try reflexivity.
  destruct (json_loads text) as [v|e]; [reflexivity|].
  destruct e; reflexivity.
Qed.

Lemma os_snd_init `{RT : Runtime} (st : State) :
  os (snd (init st)) = with_dir iso_dir (with_dir disks_dir (os st)).
Proof.
  rewrite init_eq. cbv zeta.
  destruct (lookup_path vms_file (os st)) as [[text|names]|];
    try reflexivity.
  destruct (json_loads text) as [v|e]; [reflexivity|].
  destruct e; reflexivity.
Qed.

(** X2.  Whether or not it then loads a registry, [__init__] leaves
    something at [disks_dir] and at [iso_dir]: what was there before, or
    a new empty directory; it changes no other path, and the
    directories it makes are exactly the missing ones, [disks_dir]
    first. *)
Theorem init_directories `{RT : Runtime} (st : State) :
  let w := os st in
  let w' := os (snd (init st)) in
  (forall d, d = disks_dir \/ d = iso_dir ->
     lookup_path d w' =
       match lookup_path d w with
       | Some nd => Some nd
       | None => Some (Dir [])
       end) /\
  (forall p, p <> disks_dir -> p <> iso_dir ->
     lookup_path p w' = lookup_path p w) /\
  makedirs_of (w_log w') =
    (makedirs_of (w_log w) ++
     List.filter (missing w) [disks_dir; iso_dir])%list.
Proof.
  intros w w'. unfold w'. rewrite os_snd_init. fold w. repeat split.
  - intros d [-> | ->].
    + rewrite lookup_path_with_dir_ne by discriminate.
      now apply lookup_path_with_dir_eq.
    + rewrite lookup_path_with_dir_eq by discriminate.
      now rewrite lookup_path_with_dir_ne by discriminate.
  - intros p H1 H2. now rewrite !lookup_path_with_dir_ne.
  - assert (Hiso : missing (with_dir disks_dir w) iso_dir =
                   missing w iso_dir).
    { unfold missing. now rewrite lookup_path_with_dir_ne by discriminate. }
    cbn [List.filter]. unfold with_dir at 1. rewrite Hiso.
    unfold with_dir.
    destruct (missing w disks_dir), (missing w iso_dir);
      cbn [w_log with_fs with_event]; rewrite ?makedirs_of_app;
      cbn; rewrite ?app_nil_r, <- ?app_assoc; reflexivity.
Qed.

(** X3.  Constructing a manager a second time in the world the first
    construction left changes nothing: it makes no directory, writes no
    file and loads the same registry. *)
Theorem init_idempotent `{RT : Runtime} (st st1 : State) :
  init st = (Ok tt, st1) -> init st1 = (Ok tt, st1).
Proof.
  intros Hinit.
  assert (Hos : os st1 = with_dir iso_dir (with_dir disks_dir (os st)))
    by (rewrite <- os_snd_init, Hinit; reflexivity).
  assert (Hd : missing (os st1) disks_dir = false).
  { unfold missing. rewrite Hos.
    rewrite lookup_path_with_dir_ne by discriminate.
    rewrite lookup_path_with_dir_eq by discriminate.
    destruct (lookup_path disks_dir (os st)); reflexivity. }
  assert (Hi : missing (os st1) iso_dir = false).
  { unfold missing. rewrite Hos.
    rewrite lookup_path_with_dir_eq by discriminate.
    destruct (lookup_path iso_dir _); reflexivity. }
  assert (Hw : with_dir iso_dir (with_dir disks_dir (os st1)) = os st1).
  { unfold with_dir at 2. rewrite Hd. unfold with_dir. now rewrite Hi. }
  assert (Hlook : lookup_path vms_file (os st1) =
                  lookup_path vms_file (os st)).
  { rewrite Hos. now rewrite !lookup_path_with_dir_ne by discriminate. }
  rewrite init_eq in Hinit. rewrite init_eq. cbv zeta in *.
  rewrite Hw, Hlook.
  destruct (lookup_path vms_file (os st)) as [[text|names]|].
  - destruct (json_loads text) as [v|e].
    + injection Hinit as <-. reflexivity.
    + destruct e; try discriminate. injection Hinit as <-. reflexivity.
  - discriminate.
  - injection Hinit as <-. reflexivity.
Qed.

Lemma init_idempotent_witness :
  init (RT := example_runtime)
    (snd (init (RT := example_runtime) fresh_state)) =
    (Ok tt, snd (init (RT := example_runtime) fresh_state)).
Proof.
  apply (init_idempotent (RT := example_runtime) fresh_state).
  vm_compute. reflexivity.
Defined.

(** X4.  [__init__] keeps whatever value the registry file decodes to.
    When that value is no list, construction still succeeds, and every
    later [create_virtual_machine] raises [AttributeError] at the
    [append], before anything is written. *)
Theorem init_registry_not_a_list `{RT : Runtime}
  (st : State) (text : string) (v : pyval) :
  lookup_path vms_file (os st) = Some (File text) ->
  json_loads text = Ok v ->
  not_a_list v ->
  exists st',
    init st = (Ok tt, st') /\
    virtual_machines st' = v /\
    forall vm_name cpu_cores memory_size disk_path iso_path,
      create_virtual_machine vm_name cpu_cores memory_size disk_path
        iso_path st' = (Raises AttributeError, st').
Proof.
  intros Hfile Hloads Hv. rewrite init_eq, Hfile. cbv zeta. rewrite Hloads.
  eexists. split; [reflexivity|]. split; [reflexivity|].
  intros. unfold create_virtual_machine. unfold_monad.
  cbn [virtual_machines]. destruct v; try reflexivity. contradiction.
Qed.

Lemma init_registry_not_a_list_witness :
  exists st',
    init (RT := example_runtime)
      (with_file vms_file "{}" example_state) = (Ok tt, st') /\
    virtual_machines st' = PDict [] /\
    forall vm_name cpu_cores memory_size disk_path iso_path,
      create_virtual_machine (RT := example_runtime) vm_name cpu_cores
        memory_size disk_path iso_path st' = (Raises AttributeError, st').
Proof.
  apply (init_registry_not_a_list (RT := example_runtime)
           (with_file vms_file "{}" example_state) "{}" (PDict [])).
  - vm_compute. reflexivity.
  - vm_compute. reflexivity.
  - exact I.
Defined.

(** X5.  When a directory is at the registry path, [__init__] raises
    [OSError]: the handler around the load catches [JSONDecodeError]
    only. *)
Theorem init_registry_directory `{RT : Runtime}
  (st : State) (names : list string) :
  lookup_path vms_file (os st) = Some (Dir names) ->
  exists msg, fst (init st) = Raises (OSError msg).
Proof.
  intros Hdir. rewrite init_eq, Hdir. eexists. reflexivity.
Qed.

Lemma init_registry_directory_witness :
  exists msg,
    fst (init (RT := example_runtime)
           (with_node vms_file (Dir []) example_state)) =
      Raises (OSError msg).
Proof.
  apply (init_registry_directory (RT := example_runtime)
           (with_node vms_file (Dir []) example_state) []).
  vm_compute. reflexivity.
Defined.

(** ** Creating a virtual machine *)

(** X6.  [create_virtual_machine] appends to the list in memory before
    it opens the registry file.  When the file cannot be opened for
    writing, the call raises [OSError] and the new record stays in
    memory, while nothing is written. *)
Theorem create_virtual_machine_failed_write `{RT : Runtime}
  (vm_name : string) (cpu_cores : Z) (memory_size disk_path : string)
  (iso_path : option string) (st : State) (l : list pyval)
  (names : list string) :
  virtual_machines st = PList l ->
  lookup_path vms_file (os st) = Some (Dir names) ->
  exists msg,
    create_virtual_machine vm_name cpu_cores memory_size disk_path
      iso_path st =
    (Raises (OSError msg),
     {| os := os st;
        virtual_machines :=
          PList (l ++ [vm_config vm_name cpu_cores memory_size disk_path
                         iso_path]) |}).
Proof.
  intros Hl Hdir.
  unfold create_virtual_machine. unfold_calls. unfold_monad.
  rewrite Hl. cbn [os virtual_machines]. rewrite Hdir.
  eexists. reflexivity.
Qed.

Lemma create_virtual_machine_failed_write_witness :
  exists msg,
    create_virtual_machine (RT := example_runtime) "vm1" 2 "2G"
      "virtual_disks/alpha.qcow2" None
      (with_node vms_file (Dir []) example_state) =
    (Raises (OSError msg),
     {| os := os (with_node vms_file (Dir []) example_state);
        virtual_machines :=
          PList ([] ++ [vm_config "vm1" 2 "2G" "virtual_disks/alpha.qcow2"
                          None]) |}).
Proof.
  apply (create_virtual_machine_failed_write (RT := example_runtime)
           "vm1" 2 "2G" "virtual_disks/alpha.qcow2" None
           (with_node vms_file (Dir []) example_state) [] []).
  - reflexivity.
  - vm_compute. reflexivity.
Defined.

Lemma registry_entry_from_end (vms : list VirtualMachine) (k : nat) vm :
  nth_error vms k = Some vm ->
  registry_entry (PList (map config_of vms))
    (Z.of_nat k - Z.of_nat (List.length vms)) = Ok vm.
Proof.
  intros Hnth. unfold registry_entry, list_index.
  assert (Hlt : (k < List.length vms)%nat)
    by (apply nth_error_Some; congruence).
  rewrite length_map.
  assert (H1 : (Z.of_nat k - Z.of_nat (List.length vms) <? 0) = true)
    by (apply Z.ltb_lt; lia).
  rewrite H1.
  replace (Z.of_nat k - Z.of_nat (List.length vms) +
           Z.of_nat (List.length vms)) with (Z.of_nat k) by lia.
  assert (H2 : (0 <=? Z.of_nat k) = true) by (apply Z.leb_le; lia).
  assert (H3 : (Z.of_nat k <? Z.of_nat (List.length vms)) = true)
    by (apply Z.ltb_lt; lia).
  rewrite H2, H3. cbn [andb]. rewrite Nat2Z.id.
  rewrite nth_error_map, Hnth. cbn [option_map obind].
  now rewrite vm_of_config.
Qed.

(** X7.  After [create_virtual_machine] on a registry of [n] definitions
    the new definition is the entry of index [n], the last one, which is
    also index [-1], and each earlier definition keeps its index: the
    index [len(virtual_machines) - 1] that the window passes to
    [start_virtual_machine] after a creation reads the definition just
    created. *)
Theorem create_virtual_machine_index `{RT : Runtime}
  (st : State) (vms : list VirtualMachine) (vm : VirtualMachine) :
  virtual_machines st = PList (map config_of vms) ->
  registry_writable st ->
  let registry :=
    virtual_machines
      (snd (create_virtual_machine (vm_name vm) (vm_cpu_cores vm)
              (vm_memory vm) (vm_disk vm) (vm_iso vm) st)) in
  registry = PList (map config_of (vms ++ [vm])) /\
  registry_entry registry (Z.of_nat (List.length vms)) = Ok vm /\
  registry_entry registry (-1) = Ok vm /\
  forall (i : nat) (old : VirtualMachine),
    nth_error vms i = Some old ->
    registry_entry registry (Z.of_nat i) = Ok old.
Proof.
  intros Hl Hw registry. unfold registry.
  rewrite (create_virtual_machine_eq _ _ _ _ _ st _ Hl Hw).
  cbn [snd virtual_machines]. fold (config_of vm).
  change [config_of vm] with (map config_of [vm]). rewrite <- map_app.
  assert (Hlast : nth_error (vms ++ [vm]) (List.length vms) = Some vm).
  { rewrite nth_error_app2 by lia. now rewrite Nat.sub_diag. }
  repeat split.
  - now apply registry_entry_nth.
  - replace (-1) with (Z.of_nat (List.length vms) -
                       Z.of_nat (List.length (vms ++ [vm])))
      by (rewrite length_app; simpl; lia).
    now apply registry_entry_from_end.
  - intros i old Hold. apply registry_entry_nth.
    rewrite nth_error_app1; [exact Hold|].
    apply nth_error_Some. congruence.
Qed.

Lemma create_virtual_machine_index_witness :
  let vm := {| vm_name := "vm3"; vm_cpu_cores := 4; vm_memory := "1G";
               vm_disk := "virtual_disks/alpha.qcow2"; vm_iso := None |} in
  let registry :=
    virtual_machines
      (snd (create_virtual_machine (RT := example_runtime) "vm3" 4 "1G"
              "virtual_disks/alpha.qcow2" None
              (manager example_world example_vms))) in
  registry = PList (map config_of (example_vms ++ [vm])) /\
  registry_entry registry (Z.of_nat (List.length example_vms)) = Ok vm /\
  registry_entry registry (-1) = Ok vm /\
  forall (i : nat) (old : VirtualMachine),
    nth_error example_vms i = Some old ->
    registry_entry registry (Z.of_nat i) = Ok old.
Proof.
  apply (create_virtual_machine_index (RT := example_runtime)
           (manager example_world example_vms) example_vms
           {| vm_name := "vm3"; vm_cpu_cores := 4; vm_memory := "1G";
              vm_disk := "virtual_disks/alpha.qcow2"; vm_iso := None |}).
  - reflexivity.
  - intros names. vm_compute. discriminate.
Defined.

(** X8.  With the registry written and read in the JSON text format,
    the registry file mirrors the list in memory after every creation:
    the text [create_virtual_machine] leaves in the file decodes to the
    list it leaves in memory, so a manager constructed right after it
    loads exactly that list, with the definitions that were there before
    and the new one last. *)
Theorem registry_persisted `{RT : Runtime}
  (st : State) (vms : list VirtualMachine) (vm : VirtualMachine) :
  standard_json RT ->
  virtual_machines st = PList (map config_of vms) ->
  registry_writable st ->
  let st1 :=
    snd (create_virtual_machine (vm_name vm) (vm_cpu_cores vm)
           (vm_memory vm) (vm_disk vm) (vm_iso vm) st) in
  exists text st2,
    lookup_path vms_file (os st1) = Some (File text) /\
    json_loads text = Ok (virtual_machines st1) /\
    init st1 = (Ok tt, st2) /\
    virtual_machines st2 = virtual_machines st1 /\
    virtual_machines st2 = PList (map config_of (vms ++ [vm])).
Proof.
  intros [Hdumps Hloads] Hvms Hw st1. unfold st1.
  rewrite (create_virtual_machine_eq _ _ _ _ _ st _ Hvms Hw).
  cbn [snd os virtual_machines]. fold (config_of vm).
  change [config_of vm] with (map config_of [vm]). rewrite <- map_app.
  set (registry := PList (map config_of (vms ++ [vm]))).
  assert (Hjson : json_loads (json_dumps registry) = Ok registry)
    by (rewrite Hdumps, Hloads; apply loads_dumps_registry).
  set (st' := {| os := _; virtual_machines := registry |}).
  assert (Hfile : lookup_path vms_file (os st') =
                  Some (File (json_dumps registry))).
  { unfold st'. cbn [os]. rewrite lookup_path_with_fs.
    change (vms_file =? "")%string with false. cbv iota.
    apply lookup_insert_eq. }
  destruct (init_readable_registry st' _ _ Hfile Hjson) as (st2 & E2 & V2).
  exists (json_dumps registry), st2. repeat split; assumption.
Qed.

Lemma registry_persisted_witness :
  let vm := {| vm_name := "vm3"; vm_cpu_cores := 4; vm_memory := "1G";
               vm_disk := "virtual_disks/alpha.qcow2"; vm_iso := None |} in
  let st1 :=
    snd (create_virtual_machine (RT := example_runtime) "vm3" 4 "1G"
           "virtual_disks/alpha.qcow2" None
           (manager example_world example_vms)) in
  exists text st2,
    lookup_path vms_file (os st1) = Some (File text) /\
    @json_loads example_runtime text = Ok (virtual_machines st1) /\
    init (RT := example_runtime) st1 = (Ok tt, st2) /\
    virtual_machines st2 = virtual_machines st1 /\
    virtual_machines st2 = PList (map config_of (example_vms ++ [vm])).
Proof.
  apply (registry_persisted (RT := example_runtime)
           (manager example_world example_vms) example_vms
           {| vm_name := "vm3"; vm_cpu_cores := 4; vm_memory := "1G";
              vm_disk := "virtual_disks/alpha.qcow2"; vm_iso := None |}).
  - split; reflexivity.
  - reflexivity.
  - intros names. vm_compute. discriminate.
Defined.

(** ** The outcome of creating a disk *)

(** What a call of [create_virtual_disk] does once the size is
    normalised: the directory is made if missing, the command is printed
    and run, and the answer follows what the tool did. *)
Lemma create_virtual_disk_eq `{RT : Runtime}
  (disk_name disk_format disk_size size : string) (st : State) :
  normalize_size disk_size = Ok size ->
  let cmd := create_command disk_name disk_format size in
  let w1 := with_dir disks_dir (os st) in
  let w2 :=
    with_event (Run cmd)
      (with_event (Print ("Running command: " ++ join " " cmd)) w1) in
  create_virtual_disk disk_name disk_format disk_size st =
    (match fst (w_tool (os st) cmd (w_fs w1)) with
     | Done c =>
         if returncode c =? 0 then
           Ok (true, "Success! Virtual disk created at: " ++
                     path_join disks_dir (disk_name ++ "." ++ disk_format) ++
                     newline ++ stdout c)
         else
           Ok (false, "Error creating disk: " ++
                      exn_str (CalledProcessError cmd (returncode c)
                                 (stderr c)) ++ newline ++
                      "Command output: " ++ stderr c)
     | Failed msg => Raises (OSError msg)
     end,
     with_os (with_fs (snd (w_tool (os st) cmd (w_fs w1))) w2) st).
Proof.
  intros Hsize cmd w1 w2. unfold create_virtual_disk.
  unfold try_except, bind at 1, lift. rewrite Hsize.
  unfold bind at 1. rewrite ensure_dir_eq.
  unfold_calls. unfold_monad.
  fold (create_command disk_name disk_format size).
  fold cmd. cbn [os with_os with_event with_fs w_tool w_fs].
  fold w1. unfold w1 at 1. rewrite w_tool_with_dir.
  destruct (w_tool (os st) cmd (w_fs w1)) as [[c|msg] fs];
    cbn [fst snd os with_os]; [destruct (returncode c =? 0)|];
    reflexivity.
Qed.

(** X9.  When the disk-image tool runs to completion,
    [create_virtual_disk] raises nothing: on exit status zero it returns
    success with the relative disk path and the output of the tool, on
    any other status it returns failure with the text of the
    [CalledProcessError] and the error output of the tool. *)
Theorem create_virtual_disk_result `{RT : Runtime}
  (disk_name disk_format disk_size size : string) (st : State)
  (c : completed) :
  normalize_size disk_size = Ok size ->
  let cmd := create_command disk_name disk_format size in
  fst (w_tool (os st) cmd (w_fs (with_dir disks_dir (os st)))) = Done c ->
  fst (create_virtual_disk disk_name disk_format disk_size st) =
    Ok (if returncode c =? 0 then
          (true, "Success! Virtual disk created at: " ++
                 path_join disks_dir (disk_name ++ "." ++ disk_format) ++
                 newline ++ stdout c)
        else
          (false, "Error creating disk: " ++
                  exn_str (CalledProcessError cmd (returncode c)
                             (stderr c)) ++ newline ++
                  "Command output: " ++ stderr c)).
Proof.
  intros Hsize cmd Hc.
  rewrite (create_virtual_disk_eq _ _ _ _ st Hsize). cbv zeta.
  fold cmd. rewrite Hc. cbn [fst].
  destruct (returncode c =? 0); reflexivity.
Qed.

Lemma create_virtual_disk_result_witness :
  fst (create_virtual_disk (RT := example_runtime) "data" "raw" "20"
         example_state) =
    Ok (true, "Success! Virtual disk created at: virtual_disks/data.raw" ++
              newline ++ "Formatting").
Proof.
  apply (create_virtual_disk_result (RT := example_runtime)
           "data" "raw" "20" "20G" example_state
           {| returncode := 0; stdout := "Formatting"; stderr := "" |}).
  - reflexivity.
  - vm_compute. reflexivity.
Defined.

(** X10.  When the disk-image tool cannot be started,
    [create_virtual_disk] does not return a failure pair: the [OSError]
    of [subprocess.run] leaves the method, whose handler is for
    [CalledProcessError] only. *)
Theorem create_virtual_disk_not_started `{RT : Runtime}
  (disk_name disk_format disk_size size msg : string) (st : State) :
  normalize_size disk_size = Ok size ->
  let cmd := create_command disk_name disk_format size in
  fst (w_tool (os st) cmd (w_fs (with_dir disks_dir (os st)))) =
    Failed msg ->
  fst (create_virtual_disk disk_name disk_format disk_size st) =
    Raises (OSError msg).
Proof.
  intros Hsize cmd Hc.
  rewrite (create_virtual_disk_eq _ _ _ _ st Hsize). cbv zeta.
  fold cmd. rewrite Hc. reflexivity.
Qed.

Lemma create_virtual_disk_not_started_witness :
  fst (create_virtual_disk (RT := example_runtime) "data" "raw" "20"
         bare_state) =
    Raises (OSError "No such file or directory: 'qemu-img'").
Proof.
  apply (create_virtual_disk_not_started (RT := example_runtime)
           "data" "raw" "20" "20G").
  - reflexivity.
  - reflexivity.
Defined.

(** X11.  The effects of [create_virtual_disk], whatever the tool then
    does: for a size that normalises, it makes [disks_dir] if nothing is
    there, prints the command line and runs the command, in this order
    and nothing else, and it leaves the registry alone; for the empty
    size it raises [IndexError] with no effect at all. *)
Theorem create_virtual_disk_effects `{RT : Runtime}
  (disk_name disk_format disk_size : string) (st : State) :
  let st' := snd (create_virtual_disk disk_name disk_format disk_size st) in
  match normalize_size disk_size with
  | Ok size =>
      let cmd := create_command disk_name disk_format size in
      w_log (os st') =
        (w_log (os st) ++
         (if missing (os st) disks_dir then [Makedirs disks_dir] else []) ++
         [Print ("Running command: " ++ join " " cmd); Run cmd])%list /\
      virtual_machines st' = virtual_machines st
  | Raises e =>
      create_virtual_disk disk_name disk_format disk_size st =
        (Raises IndexError, st)
  end.
Proof.
  cbv zeta.
  destruct (normalize_size disk_size) as [size|e] eqn:Hsize.
  - rewrite (create_virtual_disk_eq _ _ _ _ st Hsize). cbv zeta.
    cbn [snd os with_os with_fs with_event w_log virtual_machines].
    split; [|reflexivity].
    unfold with_dir. destruct (missing (os st) disks_dir);
      cbn [w_log with_fs with_event]; rewrite <- ?app_assoc; reflexivity.
  - unfold create_virtual_disk, try_except, bind, lift. rewrite Hsize.
    unfold normalize_size in Hsize.
    destruct (last_char disk_size) as [c|]; [|injection Hsize as <-].
    + destruct (char_in _ _); discriminate.
    + reflexivity.
Qed.

Lemma create_virtual_disk_effects_witness :
  w_log (os (snd (create_virtual_disk (RT := example_runtime) "data" "raw"
                    "20" fresh_state))) =
    [Makedirs "virtual_disks";
     Print ("Running command: qemu-img create -f raw " ++
            "/srv/cloud/virtual_disks/data.raw 20G");
     Run ["qemu-img"; "create"; "-f"; "raw";
          "/srv/cloud/virtual_disks/data.raw"; "20G"]] /\
  create_virtual_disk (RT := example_runtime) "data" "raw" "" fresh_state =
    (Raises IndexError, fresh_state).
Proof.
  split.
  - exact (proj1 (create_virtual_disk_effects (RT := example_runtime)
                    "data" "raw" "20" fresh_state)).
  - exact (create_virtual_disk_effects (RT := example_runtime)
             "data" "raw" "" fresh_state).
Defined.

(** X12.  The size that the normalisation of [create_virtual_disk]
    yields always ends in one of K, M, G, in either case, and
    normalising it again changes nothing. *)
Theorem normalize_size_unit (s s' : string) :
  normalize_size s = Ok s' ->
  has_unit_letter s' /\ normalize_size s' = Ok s'.
Proof.
  unfold normalize_size. destruct (last_char s) as [c|] eqn:Hc;
    [|discriminate].
  destruct (char_in (upper_char c) _) eqn:E; intros [= <-].
  - split.
    + exists c. split; [exact Hc|]. now apply upper_char_unit.
    + now rewrite Hc, E.
  - change (s ++ "G") with (s ++ String "G" "").
    rewrite last_char_app. split; [|reflexivity].
    exists "G"%char. split; [apply last_char_app|]. simpl. tauto.
Qed.

Lemma normalize_size_unit_witness :
  has_unit_letter "20G" /\ normalize_size "20G" = Ok "20G".
Proof.
  apply (normalize_size_unit "20"). reflexivity.
Defined.

(** ** Listing the disks: failures and the query output *)

(** X13.  Unlike [list_iso_files], [list_virtual_disks] does not test
    for its directory: when no directory is at [disks_dir] it raises
    [OSError] and leaves the manager as it was. *)
Theorem list_virtual_disks_no_directory `{RT : Runtime} (st : State) :
  (forall names, lookup_path disks_dir (os st) <> Some (Dir names)) ->
  exists msg, list_virtual_disks st = (Raises (OSError msg), st).
Proof.
  intros Hdir. unfold list_virtual_disks. unfold_calls. unfold_monad.
  destruct (lookup_path disks_dir (os st)) as [[data|names]|] eqn:E.
  - eexists. reflexivity.
  - now destruct (Hdir names).
  - eexists. reflexivity.
Qed.

Lemma list_virtual_disks_no_directory_witness :
  exists msg,
    list_virtual_disks (RT := example_runtime) fresh_state =
      (Raises (OSError msg), fresh_state).
Proof.
  apply (list_virtual_disks_no_directory (RT := example_runtime)
           fresh_state).
  intros names. vm_compute. discriminate.
Defined.

Lemma list_disks_from_no_program `{RT : Runtime}
  (msg : string) (names : list string) :
  forall (i : Z) (disks : list disk_info) (st : State),
    no_program (os st) msg ->
    (exists filename data,
        In filename names /\
        lookup_path (path_join disks_dir filename) (os st) =
          Some (File data)) ->
    fst (list_disks_from i names disks st) = Raises (OSError msg).
Proof.
  induction names as [|name rest IH]; intros i disks st Hno Hfile.
  - destruct Hfile as (f & data & [] & _).
  - cbn [list_disks_from]. unfold_calls. unfold_monad.
    destruct (lookup_path (path_join disks_dir name) (os st))
      as [[data|sub]|] eqn:E; cbv beta iota.
    + rewrite E. destruct st as [w vms].
      cbn [os with_os with_event with_fs w_tool w_fs] in *.
      rewrite Hno. reflexivity.
    + apply IH; [exact Hno|].
      destruct Hfile as (f & data & [-> | Hin] & Hf); [congruence|eauto].
    + apply IH; [exact Hno|].
      destruct Hfile as (f & data & [-> | Hin] & Hf); [congruence|eauto].
Qed.

(** X14.  When the disk-image tool cannot be started and [disks_dir]
    holds at least one regular file, [list_virtual_disks] raises the
    [OSError] of the first query: the failure of a query to start is not
    among the errors its loop handles, and no entry is returned. *)
Theorem list_virtual_disks_no_program `{RT : Runtime}
  (st : State) (names : list string) (msg filename data : string) :
  lookup_path disks_dir (os st) = Some (Dir names) ->
  no_program (os st) msg ->
  In filename names ->
  lookup_path (path_join disks_dir filename) (os st) = Some (File data) ->
  fst (list_virtual_disks st) = Raises (OSError msg).
Proof.
  intros Hdir Hno Hin Hfile. unfold list_virtual_disks.
  unfold_calls. unfold_monad. rewrite Hdir. cbv beta iota.
  apply list_disks_from_no_program; eauto.
Qed.

Lemma list_virtual_disks_no_program_witness :
  fst (list_virtual_disks (RT := example_runtime) bare_state) =
    Raises (OSError "No such file or directory: 'qemu-img'").
Proof.
  apply (list_virtual_disks_no_program (RT := example_runtime) bare_state
           ["alpha.qcow2"; "notes"; "broken.img"]
           "No such file or directory: 'qemu-img'" "broken.img"
           (Json.zeros (Z.to_nat 5243))).
  - vm_compute. reflexivity.
  - intros argv fs. reflexivity.
  - simpl. tauto.
  - vm_compute. reflexivity.
Defined.

Lemma scan_info_app (l1 l2 : list string) :
  forall format_info size_info,
    scan_info (l1 ++ l2) format_info size_info =
      scan_info l2 (fst (scan_info l1 format_info size_info))
        (snd (scan_info l1 format_info size_info)).
Proof.
  induction l1 as [|line rest IH]; intros f s; [reflexivity|].
  cbn [app scan_info]. apply IH.
Qed.

Lemma split_from_skip (sep r v : string) :
  split_from sep (r ++ v) (String.length r) = split_from sep v O.
Proof. induction r as [|c r IH]; [reflexivity|exact IH]. Qed.

Lemma string_prefix_app (sep v : string) : String.prefix sep (sep ++ v) = true.
Proof.
  induction sep as [|c r IH]; [now destruct v|].
  simpl. destruct (ascii_dec c c); [exact IH|congruence].
Qed.

(** A text that starts with the separator splits into the empty piece
    and the pieces of what follows. *)
Lemma split_leading (sep v : string) :
  sep <> "" -> split sep (sep ++ v) = "" :: split sep v.
Proof.
  intros Hsep. unfold split. destruct sep as [|c r]; [congruence|].
  pose proof (string_prefix_app (String c r) v) as Hp.
  change (String c r ++ v) with (String c (r ++ v)) in *.
  cbn [split_from]. rewrite Hp. f_equal.
  cbn [String.length]. rewrite Nat.sub_1_r. cbn [Nat.pred].
  apply split_from_skip.
Qed.

(** A text without the separator is its own single piece. *)
Lemma split_absent (sep v : string) :
  contains sep v = false -> split sep v = [v].
Proof.
  unfold split. induction v as [|c r IH]; [reflexivity|].
  cbn [contains]. intros H. apply orb_false_elim in H as [Hp Hr].
  cbn [split_from]. rewrite Hp, (IH Hr). reflexivity.
Qed.

Lemma contains_leading (sep v : string) : contains sep (sep ++ v) = true.
Proof.
  destruct (sep ++ v) eqn:E; cbn [contains];
    rewrite <- E, string_prefix_app; reflexivity.
Qed.

Lemma labelled_field (label v : string) :
  label <> "" -> contains label v = false ->
  nth 1 (split label (label ++ v)) "" = v.
Proof.
  intros Hl Hv. rewrite split_leading by exact Hl.
  now rewrite (split_absent _ _ Hv).
Qed.

Lemma scan_info_unlabelled (lines : list string) :
  forallb unlabelled lines = true ->
  forall format_info size_info,
    scan_info lines format_info size_info = (format_info, size_info).
Proof.
  induction lines as [|line rest IH]; intros H f s; [reflexivity|].
  cbn [forallb] in H. apply andb_prop in H as [Hl Hr].
  unfold unlabelled in Hl. apply andb_prop in Hl as [H1 H2].
  apply negb_true_iff in H1, H2.
  cbn [scan_info]. rewrite H1, H2. now apply IH.
Qed.

Lemma scan_info_format_free (lines : list string) :
  label_free "file format:" lines = true ->
  forall format_info size_info,
    fst (scan_info lines format_info size_info) = format_info.
Proof.
  induction lines as [|line rest IH]; intros H f s; [reflexivity|].
  cbn [label_free forallb] in H. apply andb_prop in H as [Hl Hr].
  apply negb_true_iff in Hl. cbn [scan_info]. rewrite Hl. now apply IH.
Qed.

Lemma scan_info_size_free (lines : list string) :
  label_free "virtual size:" lines = true ->
  forall format_info size_info,
    snd (scan_info lines format_info size_info) = size_info.
Proof.
  induction lines as [|line rest IH]; intros H f s; [reflexivity|].
  cbn [label_free forallb] in H. apply andb_prop in H as [Hl Hr].
  apply negb_true_iff in Hl. cbn [scan_info]. rewrite Hl. now apply IH.
Qed.

(** X15.  The scan of the output of [qemu-img info]: the last line that
    holds [file format:] decides the format, which for a line that
    starts with the label and holds it once is the rest of the line
    without surrounding white space; likewise the last line that holds
    [virtual size:] decides the size; and an output no line of which
    holds a label leaves both as they were. *)
Theorem scan_info_labels (pre post lines : list string)
  (v format_info size_info : string) :
  (contains "file format:" v = false ->
   label_free "file format:" post = true ->
   fst (scan_info (pre ++ ("file format:" ++ v) :: post)
          format_info size_info) = strip v) /\
  (contains "virtual size:" v = false ->
   label_free "virtual size:" post = true ->
   snd (scan_info (pre ++ ("virtual size:" ++ v) :: post)
          format_info size_info) = strip v) /\
  (forallb unlabelled lines = true ->
   scan_info lines format_info size_info = (format_info, size_info)).
Proof.
  split; [|split].
  - intros Hv Hpost. rewrite scan_info_app. cbn [scan_info].
    rewrite contains_leading, labelled_field by (discriminate || exact Hv).
    now apply scan_info_format_free.
  - intros Hv Hpost. rewrite scan_info_app. cbn [scan_info].
    rewrite contains_leading, labelled_field by (discriminate || exact Hv).
    now apply scan_info_size_free.
  - intros H. now apply scan_info_unlabelled.
Qed.

Lemma scan_info_labels_witness :
  scan_info (splitlines qemu_img_info_text) "Unknown" "0.00 MB (physical)" =
    ("qcow2", "5 GiB (5368709120 bytes)").
Proof.
  destruct (scan_info_labels
              ["image: virtual_disks/alpha.qcow2"]
              ["virtual size: 5 GiB (5368709120 bytes)";
               "disk size: 196 KiB"] []
              " qcow2" "Unknown" "0.00 MB (physical)") as (Hformat & _ & _).
  destruct (scan_info_labels
              ["image: virtual_disks/alpha.qcow2"; "file format: qcow2"]
              ["disk size: 196 KiB"] []
              " 5 GiB (5368709120 bytes)" "Unknown" "0.00 MB (physical)")
    as (_ & Hsize & _).
  specialize (Hformat eq_refl eq_refl). specialize (Hsize eq_refl eq_refl).
  apply injective_projections; [exact Hformat | exact Hsize].
Defined.

(** ** Starting a virtual machine: the index, the memory, the world *)

Lemma start_virtual_machine_raises `{RT : Runtime}
  (st : State) (vm_index : Z) (e : exn) :
  registry_entry (virtual_machines st) vm_index = Raises e ->
  start_virtual_machine vm_index st = (Raises e, st).
Proof.
  intros H. unfold start_virtual_machine.
  unfold bind at 1. unfold get_vms at 1.
  unfold bind at 1. unfold lift at 1. now rewrite H.
Qed.

Lemma start_virtual_machine_unconverted `{RT : Runtime}
  (st : State) (vm_index : Z) (vm : VirtualMachine) (e : exn) :
  registry_entry (virtual_machines st) vm_index = Ok vm ->
  launch_memory_mb (vm_memory vm) = Raises e ->
  start_virtual_machine vm_index st = (Raises e, st).
Proof.
  intros Hvm H. unfold start_virtual_machine.
  unfold bind at 1. unfold get_vms at 1.
  unfold bind at 1. unfold lift at 1. rewrite Hvm.
  unfold bind at 1. unfold lift at 1. now rewrite H.
Qed.

(** The index matters to [start_virtual_machine] through the entry it
    reads only. *)
Lemma start_virtual_machine_entry `{RT : Runtime}
  (st : State) (i j : Z) :
  registry_entry (virtual_machines st) i =
    registry_entry (virtual_machines st) j ->
  start_virtual_machine i st = start_virtual_machine j st.
Proof.
  intros H. unfold start_virtual_machine.
  unfold bind at 1. unfold get_vms at 1.
  unfold bind at 1. unfold lift at 1.
  unfold bind at 3. unfold get_vms at 1.
  unfold bind at 3. unfold lift at 2.
  now rewrite H.
Qed.

(** X16.  On a registry of [n] entries, [start_virtual_machine] raises
    [IndexError] for an index below [-n] or from [n] on, before it
    prints or starts anything; an index from [-n] to [-1] counts from
    the end, so the call does what the call with [index + n] does. *)
Theorem start_virtual_machine_index `{RT : Runtime}
  (st : State) (l : list pyval) :
  virtual_machines st = PList l ->
  let n := Z.of_nat (List.length l) in
  (forall vm_index, vm_index < - n \/ n <= vm_index ->
     start_virtual_machine vm_index st = (Raises IndexError, st)) /\
  (forall vm_index, - n <= vm_index < 0 ->
     start_virtual_machine vm_index st =
       start_virtual_machine (vm_index + n) st).
Proof.
  intros Hl n. split.
  - intros vm_index Hout. apply start_virtual_machine_raises.
    rewrite Hl. unfold registry_entry, list_index. fold n.
    destruct (vm_index <? 0) eqn:Hneg.
    + apply Z.ltb_lt in Hneg.
      assert (H0 : (0 <=? vm_index + n) = false) by (apply Z.leb_gt; lia).
      now rewrite H0.
    + apply Z.ltb_ge in Hneg.
      assert (H1 : (vm_index <? n) = false) by (apply Z.ltb_ge; lia).
      rewrite H1, andb_false_r. reflexivity.
  - intros vm_index Hin. apply start_virtual_machine_entry.
    rewrite Hl. unfold registry_entry, list_index. fold n.
    assert (H1 : (vm_index <? 0) = true) by (apply Z.ltb_lt; lia).
    assert (H2 : (vm_index + n <? 0) = false) by (apply Z.ltb_ge; lia).
    now rewrite H1, H2.
Qed.

Lemma start_virtual_machine_index_witness :
  start_virtual_machine (RT := example_runtime) 2
    (manager example_world example_vms) =
    (Raises IndexError, manager example_world example_vms) /\
  start_virtual_machine (RT := example_runtime) (-1)
    (manager example_world example_vms) =
    start_virtual_machine (RT := example_runtime) 1
      (manager example_world example_vms).
Proof.
  destruct (start_virtual_machine_index (RT := example_runtime)
              (manager example_world example_vms)
              (map config_of example_vms) eq_refl) as [Hout Hneg].
  split.
  - apply Hout. simpl. lia.
  - apply (Hneg (-1)). simpl. lia.
Defined.

(** X17.  Whatever the index and whatever comes of the launch,
    [start_virtual_machine] leaves the registry in memory and every file
    as they were, and runs no program to completion: all it does to its
    world is print and start the hypervisor. *)
Theorem start_virtual_machine_preserves `{RT : Runtime}
  (st : State) (vm_index : Z) :
  let st' := snd (start_virtual_machine vm_index st) in
  virtual_machines st' = virtual_machines st /\
  w_fs (os st') = w_fs (os st) /\
  runs (w_log (os st')) = runs (w_log (os st)).
Proof.
  cbv zeta.
  destruct (registry_entry (virtual_machines st) vm_index) as [vm|e] eqn:Hvm.
  - destruct (launch_memory_mb (vm_memory vm)) as [memory_mb|e] eqn:Hmem.
    + destruct (start_virtual_machine_run st vm_index vm memory_mb Hvm Hmem)
        as [debug_info Hrun].
      cbv zeta in Hrun. rewrite Hrun.
      cbn [snd os with_os with_event w_fs w_log virtual_machines].
      repeat split. rewrite !runs_app. cbn. now rewrite !app_nil_r.
    + rewrite (start_virtual_machine_unconverted st vm_index vm e Hvm Hmem).
      repeat split.
  - rewrite (start_virtual_machine_raises st vm_index e Hvm). repeat split.
Qed.

Lemma not_G_upper (c : ascii) :
  c <> "G"%char -> c <> "g"%char -> Ascii.eqb (upper_char c) "G" = false.
Proof.
  intros H1 H2.
  destruct c as [[] [] [] [] [] [] [] []]; try reflexivity; congruence.
Qed.

(** X18.  The memory conversion takes every final character other than
    G or g for the megabyte suffix and drops it unread: digits followed
    by any such character give the value of the digits, so ["2048K"]
    gives 2048 and the unit-less ["512"] gives 51. *)
Theorem launch_memory_mb_other_suffix (d : string) (c : ascii) :
  d <> "" -> all_digits d = true ->
  c <> "G"%char -> c <> "g"%char ->
  launch_memory_mb (d ++ String c "") = Ok (digits_value d).
Proof.
  intros Hd Hdig H1 H2. unfold launch_memory_mb.
  rewrite last_char_app, drop_last_app, (not_G_upper c H1 H2).
  now apply int_of_str_digits.
Qed.

Lemma launch_memory_mb_other_suffix_witness :
  launch_memory_mb "512" = Ok 51 /\ launch_memory_mb "2048K" = Ok 2048.
Proof.
  split.
  - apply (launch_memory_mb_other_suffix "51" "2"); try discriminate.
    reflexivity.
  - apply (launch_memory_mb_other_suffix "2048" "K"); try discriminate.
    reflexivity.
Defined.

(** X19.  A memory string of fewer than two characters never converts:
    the empty string raises [IndexError], and a single character,
    whether a unit letter or not, leaves an empty number and raises
    [ValueError]. *)
Theorem launch_memory_mb_short :
  launch_memory_mb "" = Raises IndexError /\
  forall c : ascii, launch_memory_mb (String c "") = Raises ValueError.
Proof.
  split; [reflexivity|].
  intros c. unfold launch_memory_mb. cbn [last_char drop_last].
  destruct (Ascii.eqb (upper_char c) "G"); reflexivity.
Qed.

(** ** The outcome of importing an ISO *)

(** X20.  [import_iso_file] raises nothing.  For a source that exists it
    returns success when the move succeeds or, the move failing, when
    the copy succeeds; when both fail it returns failure with the text
    of the error of the copy, the error of the move being dropped. *)
Theorem import_iso_file_result `{RT : Runtime}
  (source_path : string) (dest_name : option string) (st : State) :
  let dest :=
    path_join iso_dir
      (match dest_name with
       | None => path_basename source_path
       | Some n => n
       end) in
  let imported := (true, "ISO file imported successfully to " ++ dest) in
  fst (import_iso_file source_path dest_name st) =
    Ok match lookup_path source_path (os st) with
       | None => (false, "File not found: " ++ source_path)
       | Some _ =>
           match w_rename (os st) source_path dest (w_fs (os st)) with
           | Done _ => imported
           | Failed _ =>
               match w_copy2 (os st) source_path dest (w_fs (os st)) with
               | Done _ => imported
               | Failed msg =>
                   (false, "Error importing ISO file: " ++
                           exn_str (OSError msg))
               end
           end
       end.
Proof.
  intros dest imported. unfold import_iso_file. unfold_calls. unfold_monad.
  destruct (lookup_path source_path (os st)) as [nd|]; [|reflexivity].
  cbn [negb]. fold dest. fold imported.
  destruct st as [w vms]. cbn [os with_os with_event w_rename w_fs w_log
    virtual_machines].
  destruct (w_rename w source_path dest (w_fs w)) as [fs|msg];
    cbn [os with_os with_fs with_event w_rename w_fs w_log w_copy2
         is_OSError snd fst]; [reflexivity|].
  destruct (w_copy2 w source_path dest (w_fs w)) as [fs|msg'];
    reflexivity.
Qed.

(** * Properties of the window *)

Lemma with_manager_same (g : Gui) : with_manager (cloud_manager g) g = g.
Proof. now destruct g. Qed.

Lemma call_path_exists (p : string) (g : Gui) :
  call (path_exists p) g =
    (Ok (negb (missing (os (cloud_manager g)) p)), g).
Proof.
  unfold call, path_exists, missing. unfold_monad.
  rewrite with_manager_same.
  destruct (lookup_path p (os (cloud_manager g))); reflexivity.
Qed.

Lemma int_of_str_raises (s : string) (e : exn) :
  int_of_str s = Raises e -> e = ValueError.
Proof.
  unfold int_of_str. destruct (split_sign (strip s)) as [neg body].
  destruct (digitpart body) as [[|c d] [|c' r]]; congruence.
Qed.

Lemma list_index_raises {A} (l : list A) (i : Z) (e : exn) :
  list_index l i = Raises e -> e = IndexError.
Proof.
  unfold list_index.
  destruct ((0 <=? _) && _); [|congruence].
  destruct (nth_error l _); congruence.
Qed.

Lemma list_index_range {A} (l : list A) (i : Z) (a : A) :
  list_index l i = Ok a ->
  - Z.of_nat (List.length l) <= i < Z.of_nat (List.length l).
Proof.
  unfold list_index.
  destruct (i <? 0) eqn:Hneg;
    destruct ((0 <=? _) && _) eqn:Hr; try discriminate; intros _;
    apply andb_prop in Hr as [H1 H2];
    apply Z.leb_le in H1; apply Z.ltb_lt in H2.
  - apply Z.ltb_lt in Hneg. lia.
  - apply Z.ltb_ge in Hneg. lia.
Qed.

(** X21.  [create_vm] calls the manager only for a form that passes its
    checks.  When the core count does not read as an integer, no disk is
    selected, the selection lies beyond [disk_paths], the name is blank,
    the selected disk does not exist, or the selected ISO has a
    non-empty path at which nothing exists, it opens one error dialog
    and leaves the manager, the form and the lists as they were. *)
Theorem create_vm_rejects `{RT : Runtime} (g : Gui) :
  int_of_str (cpu_cores_var (form g)) = Raises ValueError \/
  disk_combo_current (user g) < 0 \/
  Z.of_nat (List.length (disk_paths (lists g))) <=
    disk_combo_current (user g) \/
  strip (vm_name_var (form g)) = "" \/
  (exists p, selected_disk g = Ok p /\
             missing (os (cloud_manager g)) p = true) \/
  (exists p, selected_iso g = Some p /\ p <> "" /\
             missing (os (cloud_manager g)) p = true) ->
  exists message,
    create_vm g = (Ok tt, with_dialog (ShowError "Error" message) g).
Proof.
  intros Hbad. unfold create_vm.
  unfold gbind at 1. unfold get_form at 1.
  unfold gbind at 1. unfold get_user at 1.
  unfold gbind at 1. unfold get_lists at 1.
  destruct (int_of_str (cpu_cores_var (form g))) as [cpu_cores|e] eqn:Hcpu.
  2:{ rewrite (int_of_str_raises _ _ Hcpu). eexists. reflexivity. }
  destruct (disk_combo_current (user g) <? 0) eqn:Hneg;
    [eexists; reflexivity|].
  apply Z.ltb_ge in Hneg.
  fold (selected_disk g).
  destruct (selected_disk g) as [disk_path|e] eqn:Hdisk.
  2:{ rewrite (list_index_raises _ _ _ Hdisk). eexists. reflexivity. }
  fold (selected_iso g).
  destruct (strip (vm_name_var (form g)) =? "")%string eqn:Hname;
    [eexists; reflexivity|].
  apply String.eqb_neq in Hname.
  unfold gbind at 1. rewrite call_path_exists.
  destruct (missing (os (cloud_manager g)) disk_path) eqn:Hdp;
    cbn [negb]; [eexists; reflexivity|].
  assert (Hiso : exists p, selected_iso g = Some p /\ p <> "" /\
                           missing (os (cloud_manager g)) p = true).
  { destruct Hbad as [H|[H|[H|[H|[H|H]]]]].
    - congruence.
    - lia.
    - apply list_index_range in Hdisk. lia.
    - congruence.
    - destruct H as (p & Hp & Hm). congruence.
    - exact H. }
  destruct Hiso as (p & Hp & Hne & Hm). rewrite Hp.
  apply String.eqb_neq in Hne. rewrite Hne.
  unfold gbind at 1. rewrite call_path_exists, Hm. cbn [negb].
  eexists. reflexivity.
Qed.

Lemma insert_vm_lines_spec `{RT : Runtime} (vms : list VirtualMachine) :
  forall g : Gui,
    insert_vm_lines (map config_of vms) g =
      (Ok tt,
       with_lists
         (set_vm_listbox (vm_listbox (lists g) ++ map vm_line vms)
            (lists g)) g).
Proof.
  induction vms as [|vm rest IH]; intros g.
  - cbn [map insert_vm_lines]. unfold gret. rewrite app_nil_r.
    destruct g as [st f [] u d]. reflexivity.
  - cbn [map insert_vm_lines]. rewrite vm_of_config.
    unfold gbind at 1. unfold update_lists at 1. rewrite IH.
    unfold vm_listbox_insert. cbn [lists with_lists vm_listbox set_vm_listbox].
    rewrite <- app_assoc. reflexivity.
Qed.

(** What [refresh_vm_list] leaves for a registry of definitions. *)
Lemma refresh_vm_list_eq `{RT : Runtime}
  (g : Gui) (vms : list VirtualMachine) :
  virtual_machines (cloud_manager g) = PList (map config_of vms) ->
  refresh_vm_list g =
    (Ok tt,
     with_form
       (set_status
          (status_line (List.length vms) " virtual machine(s)"
             "No virtual machines found. Create one first.")
          (form g))
       (with_lists (set_vm_listbox (map vm_line vms) (lists g)) g)).
Proof.
  intros Hvms. unfold refresh_vm_list.
  unfold gbind at 1. unfold update_lists at 1.
  unfold gbind at 1. unfold call, get_vms.
  cbn [cloud_manager with_lists]. rewrite Hvms.
  unfold gbind at 1. rewrite insert_vm_lines_spec.
  cbn [lists with_manager with_lists vm_listbox set_vm_listbox app
       cloud_manager form user dialogs].
  destruct vms as [|vm rest]; cbn [map List.length status_line];
    unfold update_form; cbn [form with_form lists cloud_manager user dialogs];
    [reflexivity|].
  rewrite length_map. cbn [List.length]. destruct g as [[w r] f l u d].
  reflexivity.
Qed.

Lemma create_vm_accepts `{RT : Runtime}
  (g : Gui) (cpu_cores : Z) (disk_path : string) :
  form_accepted g cpu_cores disk_path ->
  create_vm g =
    create_and_offer_start (strip (vm_name_var (form g))) cpu_cores
      (memory_size_var (form g) ++ memory_unit_var (form g))
      disk_path (selected_iso g) g.
Proof.
  intros (Hcpu & Hidx & Hdisk & Hname & Hdp & Hiso). unfold create_vm.
  unfold gbind at 1. unfold get_form at 1.
  unfold gbind at 1. unfold get_user at 1.
  unfold gbind at 1. unfold get_lists at 1.
  rewrite Hcpu.
  assert (Hneg : (disk_combo_current (user g) <? 0) = false)
    by (apply Z.ltb_ge; lia).
  rewrite Hneg. fold (selected_disk g). rewrite Hdisk.
  fold (selected_iso g).
  apply String.eqb_neq in Hname. rewrite Hname.
  unfold gbind at 1. rewrite call_path_exists, Hdp. cbn [negb].
  destruct (selected_iso g) as [p|] eqn:Hp; [|reflexivity].
  destruct (p =? "")%string eqn:Hpe; [reflexivity|].
  apply String.eqb_neq in Hpe.
  unfold gbind at 1. rewrite call_path_exists, (Hiso p eq_refl Hpe).
  reflexivity.
Qed.

Lemma create_and_offer_start_eq `{RT : Runtime}
  (g : Gui) (vms : list VirtualMachine) (vm : VirtualMachine) :
  virtual_machines (cloud_manager g) = PList (map config_of vms) ->
  registry_writable (cloud_manager g) ->
  let st1 :=
    snd (create_virtual_machine (vm_name vm) (vm_cpu_cores vm)
           (vm_memory vm) (vm_disk vm) (vm_iso vm) (cloud_manager g)) in
  let g2 := created_window g vms vm st1 in
  create_and_offer_start (vm_name vm) (vm_cpu_cores vm) (vm_memory vm)
    (vm_disk vm) (vm_iso vm) g =
    if askyesno_answer (user g) then
      match start_virtual_machine (Z.of_nat (List.length vms)) st1 with
      | (Ok (ok, message), st2) =>
          (Ok tt,
           with_dialog
             (if ok then ShowInfo "Success" message
              else ShowError "Error" message)
             (with_manager st2 g2))
      | (Raises e, st2) => (Raises e, with_manager st2 g2)
      end
    else (Ok tt, g2).
Proof.
  intros Hvms Hw st1 g2. unfold create_and_offer_start.
  unfold gbind at 1. unfold call at 1.
  pose proof (create_virtual_machine_eq (vm_name vm) (vm_cpu_cores vm)
                (vm_memory vm) (vm_disk vm) (vm_iso vm) (cloud_manager g)
                _ Hvms Hw) as Hcreate.
  cbv zeta in Hcreate. fold (config_of vm) in Hcreate.
  change [config_of vm] with (map config_of [vm]) in Hcreate.
  rewrite <- map_app in Hcreate.
  assert (Hst1 : virtual_machines st1 = PList (map config_of (vms ++ [vm])))
    by (unfold st1; rewrite Hcreate; reflexivity).
  assert (Hr : create_virtual_machine (vm_name vm) (vm_cpu_cores vm)
                 (vm_memory vm) (vm_disk vm) (vm_iso vm) (cloud_manager g) =
               (Ok (true, "Virtual Machine '" ++ vm_name vm ++
                          "' created successfully!"), st1))
    by (unfold st1; rewrite Hcreate; reflexivity).
  rewrite Hr. cbv beta iota.
  unfold gbind at 1. unfold showinfo at 1.
  unfold gbind at 1. unfold update_form at 1.
  unfold gbind at 1.
  rewrite (refresh_vm_list_eq _ (vms ++ [vm]))
    by (cbn [cloud_manager with_form with_dialog with_manager]; exact Hst1).
  unfold gbind at 1. unfold askyesno at 1.
  match goal with
  | |- context [with_dialog (AskYesNo ?t ?q) ?X] =>
      change (with_dialog (AskYesNo t q) X) with g2;
      change (user X) with (user g)
  end.
  destruct (askyesno_answer (user g)); [|reflexivity].
  unfold gbind at 1. unfold call at 1, get_vms.
  change (cloud_manager g2) with st1.
  rewrite Hst1. cbv beta iota.
  change (with_manager st1 g2) with g2.
  unfold gbind at 1. unfold call at 1.
  change (cloud_manager g2) with st1.
  rewrite length_map, length_app. cbn [List.length].
  replace (Z.of_nat (List.length vms + 1) - 1)
    with (Z.of_nat (List.length vms)) by lia.
  destruct (start_virtual_machine (Z.of_nat (List.length vms)) st1)
    as [[[ok message]|e] st2]; [|reflexivity].
  destruct ok; reflexivity.
Qed.

Lemma create_vm_rejects_witness :
  exists message,
    create_vm (RT := example_runtime) blank_gui =
      (Ok tt, with_dialog (ShowError "Error" message) blank_gui).
Proof.
  apply (create_vm_rejects (RT := example_runtime) blank_gui).
  right. left. vm_compute. reflexivity.
Defined.

Lemma start_virtual_machine_keeps `{RT : Runtime}
  (st : State) (vm_index : Z) :
  virtual_machines (snd (start_virtual_machine vm_index st)) =
    virtual_machines st /\
  w_fs (os (snd (start_virtual_machine vm_index st))) = w_fs (os st).
Proof.
  destruct (registry_entry (virtual_machines st) vm_index) as [vm|e] eqn:Hvm.
  - destruct (launch_memory_mb (vm_memory vm)) as [memory_mb|e] eqn:Hmem.
    + destruct (start_virtual_machine_run st vm_index vm memory_mb Hvm Hmem)
        as [debug_info Hrun].
      cbv zeta in Hrun. rewrite Hrun. split; reflexivity.
    + rewrite (start_virtual_machine_unconverted st vm_index vm e Hvm Hmem).
      split; reflexivity.
  - rewrite (start_virtual_machine_raises st vm_index e Hvm).
    split; reflexivity.
Qed.

Lemma lookup_path_fs (p : string) (w w' : World) :
  w_fs w' = w_fs w -> lookup_path p w' = lookup_path p w.
Proof. intros H. unfold lookup_path. now rewrite H. Qed.

(** X22.  For a form that passes the checks, [create_vm] appends to the
    registry, in memory and on file, the definition made of the name
    without surrounding white space, the core count read, the memory
    size and unit fields put together unread, the path of the selected
    disk and that of the selected ISO; it shows the new registry in the
    VM list box and clears the name field.  This holds whether or not
    the VM is then started, and whatever comes of the start. *)
Theorem create_vm_creates `{RT : Runtime}
  (g : Gui) (vms : list VirtualMachine) (cpu_cores : Z)
  (disk_path : string) :
  virtual_machines (cloud_manager g) = PList (map config_of vms) ->
  registry_writable (cloud_manager g) ->
  form_accepted g cpu_cores disk_path ->
  let vm := submitted_vm g cpu_cores disk_path in
  let g' := snd (create_vm g) in
  virtual_machines (cloud_manager g') =
    PList (map config_of (vms ++ [vm])) /\
  lookup_path vms_file (os (cloud_manager g')) =
    Some (File (json_dumps (PList (map config_of (vms ++ [vm]))))) /\
  vm_listbox (lists g') = map vm_line (vms ++ [vm]) /\
  vm_name_var (form g') = "".
Proof.
  intros Hvms Hw Hform vm g'. unfold g'.
  rewrite (create_vm_accepts g cpu_cores disk_path Hform).
  pose proof (create_and_offer_start_eq g vms vm Hvms Hw) as Heq.
  cbv zeta in Heq. cbn [vm vm_name vm_cpu_cores vm_memory vm_disk vm_iso
                        submitted_vm] in Heq.
  rewrite Heq. clear Heq.
  pose proof (create_virtual_machine_eq (vm_name vm) (vm_cpu_cores vm)
                (vm_memory vm) (vm_disk vm) (vm_iso vm) (cloud_manager g)
                _ Hvms Hw) as Hcreate.
  cbv zeta in Hcreate. fold (config_of vm) in Hcreate.
  change [config_of vm] with (map config_of [vm]) in Hcreate.
  rewrite <- map_app in Hcreate.
  cbn [vm vm_name vm_cpu_cores vm_memory vm_disk vm_iso submitted_vm]
    in Hcreate.
  set (st1 := snd (create_virtual_machine _ _ _ _ _ (cloud_manager g))).
  assert (Hst1 : st1 = snd (Ok (true, "Virtual Machine '" ++
                                      strip (vm_name_var (form g)) ++
                                      "' created successfully!"),
                            {| os := with_fs
                                 (<[vms_file :=
                                      File (json_dumps
                                              (PList (map config_of
                                                        (vms ++ [vm]))))]>
                                    (w_fs (os (cloud_manager g))))
                                 (with_event
                                    (WriteText vms_file
                                       (json_dumps
                                          (PList (map config_of
                                                    (vms ++ [vm])))))
                                    (os (cloud_manager g)));
                               virtual_machines :=
                                 PList (map config_of (vms ++ [vm])) |}))
    by (unfold st1; rewrite Hcreate; reflexivity).
  cbn [snd] in Hst1.
  assert (Hfile : lookup_path vms_file (os st1) =
                  Some (File (json_dumps
                                (PList (map config_of (vms ++ [vm])))))).
  { rewrite Hst1. cbn [os]. rewrite lookup_path_with_fs.
    change (vms_file =? "")%string with false. cbv iota.
    apply lookup_insert_eq. }
  assert (Hreg : virtual_machines st1 =
                 PList (map config_of (vms ++ [vm])))
    by (rewrite Hst1; reflexivity).
  clearbody st1.
  destruct (askyesno_answer (user g)).
  - destruct (start_virtual_machine_keeps st1 (Z.of_nat (List.length vms)))
      as [Hk1 Hk2].
    destruct (start_virtual_machine (Z.of_nat (List.length vms)) st1)
      as [[[ok message]|e] st2]; cbn [snd] in *;
      cbn [cloud_manager with_dialog with_manager lists form];
      (split; [congruence|]);
      (split; [rewrite (lookup_path_fs _ _ _ Hk2); exact Hfile|]);
      split; reflexivity.
  - cbn [snd]. repeat split; assumption.
Qed.

Lemma create_vm_creates_witness :
  let vm := submitted_vm example_gui 2 "virtual_disks/alpha.qcow2" in
  let g' := snd (create_vm (RT := example_runtime) example_gui) in
  virtual_machines (cloud_manager g') =
    PList (map config_of (example_vms ++ [vm])) /\
  lookup_path vms_file (os (cloud_manager g')) =
    Some (File (@json_dumps example_runtime
                  (PList (map config_of (example_vms ++ [vm]))))) /\
  vm_listbox (lists g') =
    map (vm_line (RT := example_runtime)) (example_vms ++ [vm]) /\
  vm_name_var (form g') = "".
Proof.
  apply (create_vm_creates (RT := example_runtime) example_gui example_vms
           2 "virtual_disks/alpha.qcow2").
  - reflexivity.
  - intros names. vm_compute. discriminate.
  - repeat split; try (vm_compute; congruence).
    intros p Hp Hne. vm_compute in Hp. injection Hp as <-.
    vm_compute. reflexivity.
Defined.

Lemma spawns_created `{RT : Runtime} (st : State) (l : list pyval)
  (vm : VirtualMachine) :
  virtual_machines st = PList l ->
  registry_writable st ->
  let st1 :=
    snd (create_virtual_machine (vm_name vm) (vm_cpu_cores vm)
           (vm_memory vm) (vm_disk vm) (vm_iso vm) st) in
  spawns (w_log (os st1)) = spawns (w_log (os st)) /\
  forall p, p <> "" -> missing (os st) p = false ->
            missing (os st1) p = false.
Proof.
  intros Hl Hw st1. unfold st1.
  rewrite (create_virtual_machine_eq _ _ _ _ _ st l Hl Hw).
  cbn [snd os with_fs with_event w_log]. split.
  - rewrite spawns_app. cbn. now rewrite app_nil_r.
  - intros p Hne Hp. unfold missing in *. rewrite lookup_path_with_fs.
    apply String.eqb_neq in Hne. rewrite Hne.
    destruct (String.eqb_spec p vms_file) as [->|Hpv].
    + now rewrite lookup_insert_eq.
    + rewrite lookup_insert_ne by congruence.
      unfold lookup_path in Hp. now rewrite Hne in Hp.
Qed.

(** X23.  After a creation from the window, the answer yes starts
    exactly the VM just created, with the selected ISO attached when its
    path is not empty; when the memory string of the new VM does not
    convert, the exception leaves the handler with nothing started, the
    VM staying in the registry; the answer no starts nothing. *)
Theorem create_vm_start_now `{RT : Runtime}
  (g : Gui) (vms : list VirtualMachine) (cpu_cores : Z)
  (disk_path : string) :
  virtual_machines (cloud_manager g) = PList (map config_of vms) ->
  registry_writable (cloud_manager g) ->
  form_accepted g cpu_cores disk_path ->
  let vm := submitted_vm g cpu_cores disk_path in
  let g' := snd (create_vm g) in
  let started := spawns (w_log (os (cloud_manager g'))) in
  let before := spawns (w_log (os (cloud_manager g))) in
  if askyesno_answer (user g) then
    (forall memory_mb,
        launch_memory_mb (vm_memory vm) = Ok memory_mb ->
        started =
          (before ++
           [launch_command (vm_name vm) (str_of_int memory_mb)
              (str_of_int cpu_cores) (normal_path disk_path)
              (option_map normal_path (attached_iso g))])%list) /\
    (forall e,
        launch_memory_mb (vm_memory vm) = Raises e ->
        fst (create_vm g) = Raises e /\ started = before)
  else fst (create_vm g) = Ok tt /\ started = before.
Proof.
  intros Hvms Hw Hform vm g' started before.
  unfold started, before, g'.
  rewrite (create_vm_accepts g cpu_cores disk_path Hform).
  pose proof (create_and_offer_start_eq g vms vm Hvms Hw) as Heq.
  cbv zeta in Heq. cbn [vm vm_name vm_cpu_cores vm_memory vm_disk vm_iso
                        submitted_vm] in Heq.
  rewrite Heq. clear Heq.
  destruct (spawns_created (cloud_manager g) _ vm Hvms Hw) as [Hsp Hkeep].
  pose proof (create_virtual_machine_eq (vm_name vm) (vm_cpu_cores vm)
                (vm_memory vm) (vm_disk vm) (vm_iso vm) (cloud_manager g)
                _ Hvms Hw) as Hcreate.
  cbv zeta in Hcreate. fold (config_of vm) in Hcreate.
  change [config_of vm] with (map config_of [vm]) in Hcreate.
  rewrite <- map_app in Hcreate.
  cbn [vm vm_name vm_cpu_cores vm_memory vm_disk vm_iso submitted_vm]
    in Hsp, Hkeep, Hcreate.
  set (st1 := snd (create_virtual_machine _ _ _ _ _ (cloud_manager g)))
    in *.
  assert (Hreg : virtual_machines st1 =
                 PList (map config_of (vms ++ [vm])))
    by (unfold st1; rewrite Hcreate; reflexivity).
  clear Hcreate. clearbody st1.
  destruct (askyesno_answer (user g)); [|split; [reflexivity|exact Hsp]].
  assert (Hentry : registry_entry (virtual_machines st1)
                     (Z.of_nat (List.length vms)) = Ok vm).
  { rewrite Hreg. apply registry_entry_nth.
    rewrite nth_error_app2 by lia. now rewrite Nat.sub_diag. }
  split.
  - intros memory_mb Hmem.
    destruct (start_virtual_machine_run st1 _ vm memory_mb Hentry Hmem)
      as [debug_info Hrun].
    cbv zeta in Hrun. rewrite Hrun.
    assert (Hlog : forall r : bool * string,
               spawns (w_log (os (cloud_manager (snd
                 (let '(ok, message) := r in
                  (@Ok unit tt,
                   with_dialog
                     (if ok then ShowInfo "Success" message
                      else ShowError "Error" message)
                     (with_manager
                        (with_os
                           (with_event
                              (Popen (start_command (os st1) vm memory_mb)
                                 (w_system (os st1) =? "Windows")%string
                                 (w_system (os st1) =? "Windows")%string)
                              (with_event (Print debug_info) (os st1)))
                           st1)
                        (created_window g vms vm st1)))))))) =
               (spawns (w_log (os st1)) ++
                [start_command (os st1) vm memory_mb])%list).
    { intros [ok message].
      cbn [snd cloud_manager with_dialog with_manager os with_os with_event
           w_log].
      rewrite !spawns_app. cbn. now rewrite app_nil_r. }
    rewrite Hlog, Hsp. f_equal. f_equal.
    unfold start_command. cbn [vm vm_name vm_cpu_cores vm_disk submitted_vm].
    f_equal. f_equal.
    unfold existing_iso, attached_iso.
    cbn [vm vm_iso submitted_vm].
    destruct Hform as (_ & _ & _ & _ & _ & Hiso).
    destruct (selected_iso g) as [p|]; [|reflexivity].
    destruct (String.eqb_spec p "") as [->|Hne]; [reflexivity|].
    specialize (Hkeep p Hne (Hiso p eq_refl Hne)).
    unfold missing in Hkeep.
    destruct (lookup_path p (os st1)); [reflexivity|discriminate].
  - intros e Hmem.
    rewrite (start_virtual_machine_unconverted st1 _ vm e Hentry Hmem).
    cbn [fst snd cloud_manager with_manager]. split; [reflexivity|exact Hsp].
Qed.

Lemma create_vm_start_now_witness :
  spawns (w_log (os (cloud_manager
                       (snd (create_vm (RT := example_runtime)
                               example_gui))))) =
    [ ["qemu-system-x86_64"; "-name"; "web"; "-m"; "1024"; "-smp"; "2";
       "-hda"; "/srv/cloud/virtual_disks/alpha.qcow2";
       "-cdrom"; "/tmp/debian.iso"; "-boot"; "d";
       "-device"; "e1000,netdev=net0"; "-netdev"; "user,id=net0";
       "-accel"; "tcg"; "-display"; "sdl"] ].
Proof.
  assert (Haccepted : form_accepted example_gui 2
                        "virtual_disks/alpha.qcow2").
  { repeat split; try (vm_compute; congruence).
    intros p Hp Hne. vm_compute in Hp. injection Hp as <-.
    vm_compute. reflexivity. }
  assert (Hwritable : registry_writable (cloud_manager example_gui))
    by (intros names; vm_compute; discriminate).
  pose proof (create_vm_start_now (RT := example_runtime) example_gui
                example_vms 2 "virtual_disks/alpha.qcow2" eq_refl
                Hwritable Haccepted) as H.
  cbv zeta in H.
  change (askyesno_answer (user example_gui)) with true in H.
  cbv iota in H. destruct H as [H _].
  refine (eq_trans (H 1024 _) _); vm_compute; reflexivity.
Defined.

(** X24.  For a registry of definitions, [refresh_vm_list] shows one
    line per definition, in registry order, and sets the status to their
    count, or to the no-VM text for the empty registry: the line at
    position [i] shows the definition that [start_virtual_machine]
    reads at index [i]. *)
Theorem refresh_vm_list_lines `{RT : Runtime}
  (g : Gui) (vms : list VirtualMachine) :
  virtual_machines (cloud_manager g) = PList (map config_of vms) ->
  let g' := snd (refresh_vm_list g) in
  fst (refresh_vm_list g) = Ok tt /\
  vm_listbox (lists g') = map vm_line vms /\
  status_var (form g') =
    status_line (List.length vms) " virtual machine(s)"
      "No virtual machines found. Create one first." /\
  forall (i : nat) (vm : VirtualMachine),
    nth_error vms i = Some vm ->
    nth_error (vm_listbox (lists g')) i = Some (vm_line vm) /\
    registry_entry (virtual_machines (cloud_manager g')) (Z.of_nat i) =
      Ok vm.
Proof.
  intros Hvms g'. unfold g'. rewrite (refresh_vm_list_eq g vms Hvms).
  cbn [fst snd lists form with_form with_lists vm_listbox set_vm_listbox
       status_var set_status cloud_manager].
  repeat split.
  - rewrite nth_error_map, H. reflexivity.
  - rewrite Hvms. now apply registry_entry_nth.
Qed.

Lemma refresh_vm_list_lines_witness :
  let g' := snd (refresh_vm_list (RT := example_runtime) example_gui) in
  fst (refresh_vm_list (RT := example_runtime) example_gui) = Ok tt /\
  vm_listbox (lists g') =
    ["vm1 (CPU: 2 cores, Memory: 2G, Disk: alpha.qcow2)";
     "installer (CPU: 1 cores, Memory: 512M, Disk: alpha.qcow2)"] /\
  status_var (form g') = "Found 2 virtual machine(s)".
Proof.
  destruct (refresh_vm_list_lines (RT := example_runtime) example_gui
              example_vms eq_refl) as (H1 & H2 & H3 & _).
  split; [exact H1|]. split; [exact H2|exact H3].
Defined.

Lemma insert_disk_lines (lines : list string) :
  forall g : Gui,
    insert_lines disk_listbox_insert lines g =
      (Ok tt,
       with_lists
         (set_disk_listbox (disk_listbox (lists g) ++ lines) (lists g)) g).
Proof.
  induction lines as [|line rest IH]; intros g.
  - cbn [insert_lines]. unfold gret. rewrite app_nil_r.
    destruct g as [st f [] u d]. reflexivity.
  - cbn [insert_lines]. unfold gbind at 1. unfold update_lists at 1.
    rewrite IH. unfold disk_listbox_insert.
    cbn [lists with_lists disk_listbox set_disk_listbox].
    rewrite <- app_assoc. reflexivity.
Qed.

Lemma insert_iso_lines (lines : list string) :
  forall g : Gui,
    insert_lines iso_listbox_insert lines g =
      (Ok tt,
       with_lists
         (set_iso_listbox (iso_listbox (lists g) ++ lines) (lists g)) g).
Proof.
  induction lines as [|line rest IH]; intros g.
  - cbn [insert_lines]. unfold gret. rewrite app_nil_r.
    destruct g as [st f [] u d]. reflexivity.
  - cbn [insert_lines]. unfold gbind at 1. unfold update_lists at 1.
    rewrite IH. unfold iso_listbox_insert.
    cbn [lists with_lists iso_listbox set_iso_listbox].
    rewrite <- app_assoc. reflexivity.
Qed.

(** [refresh_disk_list] by the outcome of the listing. *)
Lemma refresh_disk_list_eq `{RT : Runtime} (g : Gui) :
  refresh_disk_list g =
    match list_virtual_disks (cloud_manager g) with
    | (Ok disks, st') =>
        (Ok tt,
         with_form
           (set_status
              (status_line (List.length disks) " virtual disk(s)"
                 "No virtual disks found. Create one first.")
              (form g))
           (with_lists (disk_lists disks (lists g)) (with_manager st' g)))
    | (Raises e, st') =>
        (Raises e,
         with_manager st' (with_lists (set_disk_listbox [] (lists g)) g))
    end.
Proof.
  unfold refresh_disk_list.
  unfold gbind at 1. unfold update_lists at 1.
  unfold gbind at 1. unfold call at 1.
  cbn [cloud_manager with_lists].
  destruct (list_virtual_disks (cloud_manager g)) as [[disks|e] st'];
    [|reflexivity].
  unfold gbind at 1. unfold update_lists at 1.
  unfold gbind at 1. unfold update_lists at 1.
  unfold gbind at 1. rewrite insert_disk_lines.
  unfold update_form, disk_lists.
  destruct disks as [|d rest]; reflexivity.
Qed.

(** [refresh_iso_list] by the outcome of the listing. *)
Lemma refresh_iso_list_eq `{RT : Runtime} (g : Gui) :
  refresh_iso_list g =
    match list_iso_files (cloud_manager g) with
    | (Ok isos, st') =>
        (Ok tt,
         with_form
           (set_status
              (status_line (List.length isos) " ISO image(s)"
                 "No ISO images found. Import one first.")
              (form g))
           (with_lists (iso_lists isos (lists g)) (with_manager st' g)))
    | (Raises e, st') =>
        (Raises e,
         with_manager st' (with_lists (set_iso_listbox [] (lists g)) g))
    end.
Proof.
  unfold refresh_iso_list.
  unfold gbind at 1. unfold update_lists at 1.
  unfold gbind at 1. unfold call at 1.
  cbn [cloud_manager with_lists].
  destruct (list_iso_files (cloud_manager g)) as [[isos|e] st'];
    [|reflexivity].
  unfold gbind at 1. unfold update_lists at 1.
  unfold gbind at 1.
  unfold iso_lists.
  destruct isos as [|i rest].
  - cbn [map]. unfold update_lists at 1.
    unfold gbind at 1. unfold update_lists at 1.
    unfold gbind at 1. rewrite insert_iso_lines.
    unfold update_form. reflexivity.
  - cbn [map]. unfold update_lists at 1.
    unfold gbind at 1. unfold update_lists at 1.
    unfold gbind at 1. rewrite insert_iso_lines.
    unfold update_form.
    cbn [List.length status_line]. reflexivity.
Qed.

Lemma list_index_nth {A} (l : list A) (k : nat) (a : A) :
  nth_error l k = Some a -> list_index l (Z.of_nat k) = Ok a.
Proof.
  intros Hnth. unfold list_index.
  assert (Hlt : (k < List.length l)%nat)
    by (apply nth_error_Some; congruence).
  assert (H1 : (Z.of_nat k <? 0) = false) by (apply Z.ltb_ge; lia).
  assert (H2 : (0 <=? Z.of_nat k) = true) by (apply Z.leb_le; lia).
  assert (H3 : (Z.of_nat k <? Z.of_nat (List.length l)) = true)
    by (apply Z.ltb_lt; lia).
  rewrite H1, H2, H3. cbn [andb]. now rewrite Nat2Z.id, Hnth.
Qed.

(** X25.  [refresh_disk_list] keeps the disk combo box and [disk_paths]
    aligned: after a listing, the value at position [k] of the combo box
    and the line [k] of the list box describe the [k]-th disk, and
    [disk_paths[k]] is its path.  When the listing raises, the exception
    leaves the handler with the list box emptied and the combo box, the
    paths and the status as before. *)
Theorem refresh_disk_list_lists `{RT : Runtime} (g : Gui) :
  let g' := snd (refresh_disk_list g) in
  match fst (list_virtual_disks (cloud_manager g)) with
  | Ok disks =>
      fst (refresh_disk_list g) = Ok tt /\
      disk_listbox (lists g') = map disk_line disks /\
      disk_combo_values (lists g') = map disk_line disks /\
      disk_paths (lists g') = map path disks /\
      status_var (form g') =
        status_line (List.length disks) " virtual disk(s)"
          "No virtual disks found. Create one first." /\
      forall (k : nat) (disk : disk_info),
        nth_error disks k = Some disk ->
        nth_error (disk_combo_values (lists g')) k =
          Some (disk_line disk) /\
        list_index (disk_paths (lists g')) (Z.of_nat k) = Ok (path disk)
  | Raises e =>
      fst (refresh_disk_list g) = Raises e /\
      disk_listbox (lists g') = [] /\
      disk_combo_values (lists g') = disk_combo_values (lists g) /\
      disk_paths (lists g') = disk_paths (lists g) /\
      status_var (form g') = status_var (form g)
  end.
Proof.
  intros g'. unfold g'. rewrite refresh_disk_list_eq.
  destruct (list_virtual_disks (cloud_manager g)) as [[disks|e] st'];
    cbn [fst snd].
  - unfold disk_lists.
    cbn [lists form with_form with_lists with_manager disk_listbox
         disk_combo_values disk_paths set_disk_listbox set_disk_paths
         set_disk_combo_values status_var set_status].
    repeat split.
    + rewrite nth_error_map, H. reflexivity.
    + apply list_index_nth. rewrite nth_error_map, H. reflexivity.
  - repeat split.
Qed.

Lemma refresh_disk_list_lists_witness :
  let g' := snd (refresh_disk_list (RT := example_runtime) example_gui) in
  disk_combo_values (lists g') =
    ["alpha.qcow2 (qcow2, 5 GiB (5368709120 bytes))";
     "broken.img (Unknown, 0.01 MB)"] /\
  disk_paths (lists g') =
    ["virtual_disks/alpha.qcow2"; "virtual_disks/broken.img"] /\
  status_var (form g') = "Found 2 virtual disk(s)".
Proof.
  pose proof (refresh_disk_list_lists (RT := example_runtime) example_gui)
    as H.
  cbv zeta in H.
  assert (E : fst (list_virtual_disks (RT := example_runtime)
                     (cloud_manager example_gui)) =
              Ok [ {| index := 1; name := "alpha.qcow2";
                      path := "virtual_disks/alpha.qcow2";
                      format := "qcow2";
                      size := "5 GiB (5368709120 bytes)" |};
                   {| index := 3; name := "broken.img";
                      path := "virtual_disks/broken.img";
                      format := "Unknown"; size := "0.01 MB" |} ])
    by (vm_compute; reflexivity).
  rewrite E in H. destruct H as (_ & _ & Hcombo & Hpaths & Hstatus & _).
  split; [exact Hcombo|]. split; [exact Hpaths|exact Hstatus].
Defined.

(** X26.  [refresh_iso_list] puts the no-ISO choice first in the ISO
    combo box, also when no ISO is found, so the value at position
    [k + 1] describes the [k]-th ISO, whose path is [iso_paths[k]]: the
    index [iso_index - 1] of [create_vm] reads the path of the entry
    selected.  When the listing raises, the list box is left empty and
    the combo box, the paths and the status are as before. *)
Theorem refresh_iso_list_lists `{RT : Runtime} (g : Gui) :
  let g' := snd (refresh_iso_list g) in
  match fst (list_iso_files (cloud_manager g)) with
  | Ok isos =>
      fst (refresh_iso_list g) = Ok tt /\
      iso_listbox (lists g') = map iso_line isos /\
      iso_combo_values (lists g') = no_iso_choice :: map iso_line isos /\
      iso_paths (lists g') = map iso_path isos /\
      status_var (form g') =
        status_line (List.length isos) " ISO image(s)"
          "No ISO images found. Import one first." /\
      forall (k : nat) (iso : iso_info),
        nth_error isos k = Some iso ->
        nth_error (iso_combo_values (lists g')) (S k) =
          Some (iso_line iso) /\
        list_index (iso_paths (lists g')) (Z.of_nat (S k) - 1) =
          Ok (iso_path iso)
  | Raises e =>
      fst (refresh_iso_list g) = Raises e /\
      iso_listbox (lists g') = [] /\
      iso_combo_values (lists g') = iso_combo_values (lists g) /\
      iso_paths (lists g') = iso_paths (lists g) /\
      status_var (form g') = status_var (form g)
  end.
Proof.
  intros g'. unfold g'. rewrite refresh_iso_list_eq.
  destruct (list_iso_files (cloud_manager g)) as [[isos|e] st'];
    cbn [fst snd].
  - unfold iso_lists.
    cbn [lists form with_form with_lists with_manager iso_listbox
         iso_combo_values iso_paths set_iso_listbox set_iso_paths
         set_iso_combo_values status_var set_status].
    repeat split.
    + cbn [nth_error]. rewrite nth_error_map, H. reflexivity.
    + replace (Z.of_nat (S k) - 1) with (Z.of_nat k) by lia.
      apply list_index_nth. rewrite nth_error_map, H. reflexivity.
  - repeat split.
Qed.

Lemma refresh_iso_list_lists_witness :
  let g' := snd (refresh_iso_list (RT := example_runtime) library_gui) in
  iso_combo_values (lists g') =
    [no_iso_choice; "debian.iso (0.00 MB)"; "WIN.ISO (0.01 MB)"] /\
  iso_paths (lists g') = ["iso_images/debian.iso"; "iso_images/WIN.ISO"] /\
  status_var (form g') = "Found 2 ISO image(s)".
Proof.
  pose proof (refresh_iso_list_lists (RT := example_runtime) library_gui)
    as H.
  cbv zeta in H.
  assert (E : fst (list_iso_files (RT := example_runtime)
                     (cloud_manager library_gui)) =
              Ok [ {| iso_name := "debian.iso";
                      iso_path := "iso_images/debian.iso";
                      iso_size := "0.00 MB" |};
                   {| iso_name := "WIN.ISO";
                      iso_path := "iso_images/WIN.ISO";
                      iso_size := "0.01 MB" |} ])
    by (vm_compute; reflexivity).
  rewrite E in H. destruct H as (_ & _ & Hcombo & Hpaths & Hstatus & _).
  split; [exact Hcombo|]. split; [exact Hpaths|exact Hstatus].
Defined.

Lemma list_disks_from_runs `{RT : Runtime} (names : list string) :
  forall (i : Z) (disks : list disk_info) (st : State),
  exists tail,
    runs (w_log (os (snd (list_disks_from i names disks st)))) =
      (runs (w_log (os st)) ++ tail)%list.
Proof.
  induction names as [|filename rest IH]; intros i disks st.
  - exists []. simpl. now rewrite app_nil_r.
  - cbn [list_disks_from]. unfold_calls. unfold_monad.
    destruct (lookup_path (path_join disks_dir filename) (os st))
      as [[data|sub]|] eqn:E; cbv beta iota; try apply IH.
    rewrite E. cbv beta iota.
    set (cmd := ["qemu-img"; "info"; path_join disks_dir filename]).
    destruct st as [w vms].
    cbn [os with_os with_event with_fs w_tool w_fs].
    assert (Hstep : forall fs j d,
               exists tail,
                 runs (w_log (os (snd (list_disks_from j rest d
                        {| os := with_fs fs (with_event (Run cmd) w);
                           virtual_machines := vms |})))) =
                   (runs (w_log w) ++ tail)%list).
    { intros fs j d.
      destruct (IH j d {| os := with_fs fs (with_event (Run cmd) w);
                          virtual_machines := vms |}) as [tail Htail].
      exists (cmd :: tail). rewrite Htail.
      cbn [os with_fs with_event w_log]. rewrite runs_app. cbn.
      now rewrite <- app_assoc. }
    destruct (w_tool w cmd (w_fs w)) as [[c|msg] fs];
      cbn [os with_os with_fs with_event].
    + destruct (returncode c =? 0); cbn [is_CalledProcessError].
      * destruct (scan_info _ _ _) as [format_info size_info].
        apply Hstep.
      * apply Hstep.
    + exists [cmd].
      cbn [is_CalledProcessError snd os with_os w_log with_fs with_event].
      rewrite runs_app. reflexivity.
Qed.

Lemma list_virtual_disks_runs `{RT : Runtime} (st : State) :
  exists tail,
    runs (w_log (os (snd (list_virtual_disks st)))) =
      (runs (w_log (os st)) ++ tail)%list.
Proof.
  unfold list_virtual_disks. unfold bind, listdir. unfold_monad.
  destruct (lookup_path disks_dir (os st)) as [[data|names]|];
    try (exists []; cbn [snd]; now rewrite app_nil_r).
  apply list_disks_from_runs.
Qed.

Lemma normalize_size_choice (s unit : string) :
  In unit ["G"; "M"; "K"] -> normalize_size (s ++ unit) = Ok (s ++ unit).
Proof.
  intros [<- | [<- | [<- | []]]]; unfold normalize_size;
    match goal with
    | |- context [s ++ String ?c ""] =>
        rewrite (last_char_app s c)
    end; reflexivity.
Qed.

Lemma makedirs_not_run d w :
  runs (w_log (with_dir d w)) = runs (w_log w).
Proof.
  unfold with_dir. destruct (missing w d); [|reflexivity].
  cbn [w_log with_fs with_event]. rewrite runs_app. cbn.
  now rewrite app_nil_r.
Qed.

(** X27.  [create_disk] rejects a blank disk name with an error dialog
    and nothing else.  Otherwise, with one of the units the form offers,
    the first program it runs is the creation command for the name
    without surrounding white space, the format chosen and the size and
    unit fields put together, to which no letter is added. *)
Theorem create_disk_spec `{RT : Runtime} (g : Gui) :
  let disk_name := strip (disk_name_var (form g)) in
  let g' := snd (create_disk g) in
  (disk_name = "" ->
   create_disk g =
     (Ok tt, with_dialog (ShowError "Error" "Disk name cannot be empty") g))
  /\
  (disk_name <> "" ->
   In (disk_size_unit_var (form g)) ["G"; "M"; "K"] ->
   exists rest,
     runs (w_log (os (cloud_manager g'))) =
       (runs (w_log (os (cloud_manager g))) ++
        create_command disk_name (disk_format_var (form g))
          (disk_size_var (form g) ++ disk_size_unit_var (form g)) ::
        rest)%list).
Proof.
  intros disk_name g'. split.
  - intros Hblank. unfold create_disk.
    unfold gbind at 1. unfold get_form at 1.
    fold disk_name. rewrite Hblank. reflexivity.
  - intros Hname Hunit. unfold g', create_disk.
    unfold gbind at 1. unfold get_form at 1.
    fold disk_name. apply String.eqb_neq in Hname. rewrite Hname.
    unfold gbind at 1. unfold call at 1.
    pose proof (create_virtual_disk_eq disk_name (disk_format_var (form g))
                  _ _ (cloud_manager g)
                  (normalize_size_choice (disk_size_var (form g)) _ Hunit))
      as Heq.
    cbv zeta in Heq. rewrite Heq. clear Heq.
    set (cmd := create_command disk_name (disk_format_var (form g))
                  (disk_size_var (form g) ++ disk_size_unit_var (form g))).
    set (st1 := with_os _ (cloud_manager g)).
    assert (Hst1 : runs (w_log (os st1)) =
                   (runs (w_log (os (cloud_manager g))) ++ [cmd])%list).
    { unfold st1. cbn [os with_os with_fs with_event w_log].
      rewrite !runs_app, makedirs_not_run. cbn.
      now rewrite app_nil_r. }
    clearbody st1.
    destruct (fst (w_tool (os (cloud_manager g)) cmd _)) as [c|msg].
    + destruct (returncode c =? 0).
      * cbv beta iota.
        unfold gbind at 1. unfold showinfo at 1.
        unfold gbind at 1. unfold update_form at 1.
        rewrite refresh_disk_list_eq.
        cbn [cloud_manager with_form with_dialog with_manager].
        destruct (list_virtual_disks_runs st1) as [tail Htail].
        exists tail.
        destruct (list_virtual_disks st1) as [[disks|e] st2];
          cbn [snd cloud_manager with_form with_lists with_manager] in *;
          rewrite Htail, Hst1, <- app_assoc; reflexivity.
      * cbv beta iota. unfold showerror.
        cbn [snd cloud_manager with_dialog with_manager].
        exists []. exact Hst1.
    + cbn [snd cloud_manager with_manager]. exists []. exact Hst1.
Qed.

Lemma create_disk_spec_witness :
  create_disk (RT := example_runtime) blank_gui =
    (Ok tt,
     with_dialog (ShowError "Error" "Disk name cannot be empty") blank_gui)
  /\
  exists rest,
    runs (w_log (os (cloud_manager
                       (snd (create_disk (RT := example_runtime)
                               example_gui))))) =
      ["qemu-img"; "create"; "-f"; "raw";
       "/srv/cloud/virtual_disks/data.raw"; "20M"] :: rest.
Proof.
  split.
  - apply (proj1 (create_disk_spec (RT := example_runtime) blank_gui)).
    reflexivity.
  - apply (proj2 (create_disk_spec (RT := example_runtime) example_gui)).
    + discriminate.
    + simpl. tauto.
Defined.

Lemma list_iso_files_state `{RT : Runtime} (st : State) :
  snd (list_iso_files st) = st.
Proof.
  unfold list_iso_files. unfold_calls. unfold_monad.
  destruct (lookup_path iso_dir (os st)) as [[data|names]|] eqn:E;
    cbv beta iota; rewrite ?E; try reflexivity.
  now rewrite list_isos_from_spec.
Qed.

(** [import_iso_file] on a source that exists: it answers with a pair
    and its first effect is the move to the destination. *)
Lemma import_iso_file_moves `{RT : Runtime}
  (source_path : string) (dest_name : option string) (st : State) :
  lookup_path source_path (os st) <> None ->
  let dest :=
    path_join iso_dir
      (match dest_name with
       | None => path_basename source_path
       | Some n => n
       end) in
  exists ok message rest,
    fst (import_iso_file source_path dest_name st) = Ok (ok, message) /\
    w_log (os (snd (import_iso_file source_path dest_name st))) =
      (w_log (os st) ++ Rename source_path dest :: rest)%list.
Proof.
  intros Hsome dest. unfold import_iso_file. unfold_calls. unfold_monad.
  destruct (lookup_path source_path (os st)) as [nd|]; [|congruence].
  cbn [negb]. fold dest.
  destruct st as [w vms]. cbn [os with_os with_event w_rename w_fs w_log
    virtual_machines].
  destruct (w_rename w source_path dest (w_fs w)) as [fs|msg];
    cbn [os with_os with_fs with_event w_rename w_fs w_log w_copy2
         is_OSError snd fst].
  - eexists _, _, []. split; reflexivity.
  - destruct (w_copy2 w source_path dest (w_fs w)) as [fs|msg'];
      cbn [os with_os with_fs with_event w_log snd fst];
      eexists _, _, [_]; (split; [reflexivity|]);
      now rewrite <- app_assoc.
Qed.

Lemma import_iso_file_answers `{RT : Runtime}
  (source_path : string) (dest_name : option string) (st : State) :
  exists ok message,
    fst (import_iso_file source_path dest_name st) = Ok (ok, message).
Proof.
  destruct (lookup_path source_path (os st)) as [nd|] eqn:E.
  - destruct (import_iso_file_moves source_path dest_name st)
      as (ok & message & rest & H & _); [congruence|]. eauto.
  - unfold import_iso_file. unfold_calls. unfold_monad. rewrite E.
    eexists _, _. reflexivity.
Qed.

(** X28.  [import_iso] rejects a blank source path with an error dialog
    and nothing else.  Otherwise it calls [import_iso_file] on the source
    path without surrounding white space and the name typed, or no name
    when the name field is blank; that call answers with a pair, and
    the handler opens exactly one dialog, for that pair.  When the pair
    reports failure, the handler returns with the error dialog and the
    manager as the call left it, the form and the lists as they were;
    when it reports success, the handler opens the information dialog,
    clears both fields and ends as [refresh_iso_list] on the result.
    For a source that exists, the first effect is the move of the source
    into [iso_dir], under the name typed or, the name field being blank,
    under the base name of the source. *)
Theorem import_iso_spec `{RT : Runtime} (g : Gui) :
  let source_path := strip (iso_path_var (form g)) in
  let imported :=
    import_iso_file source_path (import_name g) (cloud_manager g) in
  let g' := snd (import_iso g) in
  (source_path = "" ->
   import_iso g =
     (Ok tt,
      with_dialog
        (ShowError "Error" "Please select an ISO file to import") g)) /\
  (source_path <> "" ->
   exists ok message,
     fst imported = Ok (ok, message) /\
     dialogs g' = (dialogs g ++ [result_dialog ok message])%list /\
     (ok = false ->
      import_iso g =
        (Ok tt,
         with_dialog (ShowError "Error" message)
           (with_manager (snd imported) g)) /\
      form g' = form g /\ lists g' = lists g) /\
     (ok = true ->
      import_iso g =
        refresh_iso_list
          (with_form (set_iso_dest_name "" (set_iso_path "" (form g)))
             (with_dialog (ShowInfo "Success" message)
                (with_manager (snd imported) g))) /\
      iso_path_var (form g') = "" /\
      iso_dest_name_var (form g') = "")) /\
  (lookup_path source_path (os (cloud_manager g)) <> None ->
   exists rest,
     w_log (os (cloud_manager g')) =
       (w_log (os (cloud_manager g)) ++
        Rename source_path (import_destination g) :: rest)%list).
Proof.
  intros source_path imported g'.
  assert (Hrun : source_path <> "" ->
            import_iso g =
              match imported with
              | (Ok (true, message), st1) =>
                  refresh_iso_list
                    (with_form
                       (set_iso_dest_name "" (set_iso_path "" (form g)))
                       (with_dialog (ShowInfo "Success" message)
                          (with_manager st1 g)))
              | (Ok (false, message), st1) =>
                  (Ok tt,
                   with_dialog (ShowError "Error" message)
                     (with_manager st1 g))
              | (Raises e, st1) => (Raises e, with_manager st1 g)
              end).
  { intros Hne. unfold import_iso, imported, import_name.
    unfold gbind at 1. unfold get_form at 1.
    fold source_path. apply String.eqb_neq in Hne. rewrite Hne.
    unfold gbind at 1. unfold call at 1. cbv zeta.
    destruct (import_iso_file source_path _ (cloud_manager g))
      as [[[[] message]|e] st1]; reflexivity. }
  split; [|split].
  - intros Hblank. unfold import_iso.
    unfold gbind at 1. unfold get_form at 1.
    fold source_path. rewrite Hblank. reflexivity.
  - intros Hne. unfold g'. rewrite (Hrun Hne).
    destruct (import_iso_file_answers source_path (import_name g)
                (cloud_manager g)) as (ok & message & Hok).
    fold imported in Hok.
    exists ok, message. split; [exact Hok|].
    destruct imported as [r st1]. cbn [fst] in Hok. subst r.
    cbn [snd].
    destruct ok.
    + rewrite refresh_iso_list_eq.
      cbn [cloud_manager with_form with_dialog with_manager].
      destruct (list_iso_files st1) as [[isos|e] st2];
        (split; [reflexivity|]);
        (split; [discriminate|]); intros _; repeat split; reflexivity.
    + split; [reflexivity|].
      split; [intros _; repeat split; reflexivity|discriminate].
  - intros Hsome.
    assert (Hne : source_path <> "").
    { intros Heq. rewrite Heq in Hsome. now apply Hsome. }
    unfold g'. rewrite (Hrun Hne).
    destruct (import_iso_file_moves source_path (import_name g)
                (cloud_manager g) Hsome)
      as (ok & message & rest & Hok & Hlog).
    fold imported in Hok, Hlog.
    exists rest.
    assert (Hdest : import_destination g =
              path_join iso_dir
                match import_name g with
                | None => path_basename source_path
                | Some n => n
                end).
    { unfold import_destination, import_name.
      destruct (strip (iso_dest_name_var (form g)) =? "")%string;
        reflexivity. }
    rewrite Hdest.
    destruct imported as [r st1]. cbn [fst snd] in Hok, Hlog. subst r.
    destruct ok.
    + rewrite refresh_iso_list_eq.
      cbn [cloud_manager with_form with_dialog with_manager].
      pose proof (list_iso_files_state st1) as Hst.
      destruct (list_iso_files st1) as [[isos|e] st2]; cbn [snd] in Hst;
        subst st2;
        cbn [snd cloud_manager with_form with_lists with_manager];
        exact Hlog.
    + cbn [snd cloud_manager with_dialog with_manager]. exact Hlog.
Qed.

Lemma import_iso_spec_witness :
  import_iso (RT := example_runtime) blank_gui =
    (Ok tt,
     with_dialog (ShowError "Error" "Please select an ISO file to import")
       blank_gui) /\
  dialogs (snd (import_iso (RT := example_runtime) example_gui)) =
    [ShowInfo "Success"
       "ISO file imported successfully to iso_images/debian.iso"] /\
  (let g := with_form (set_iso_path "/tmp/missing.iso" example_form)
              example_gui in
   import_iso (RT := example_runtime) g =
     (Ok tt,
      with_dialog (ShowError "Error" "File not found: /tmp/missing.iso")
        g)) /\
  exists rest,
    w_log (os (cloud_manager (snd (import_iso (RT := example_runtime)
                                     example_gui)))) =
      Rename "/tmp/debian.iso" "iso_images/debian.iso" :: rest.
Proof.
  split; [|split; [|split]].
  - apply (proj1 (import_iso_spec (RT := example_runtime) blank_gui)).
    reflexivity.
  - destruct (proj1 (proj2 (import_iso_spec (RT := example_runtime)
                              example_gui)))
      as (ok & message & Hok & Hdialogs & _).
    + vm_compute. discriminate.
    + vm_compute in Hok. injection Hok as <- <-. exact Hdialogs.
  - intros g.
    destruct (proj1 (proj2 (import_iso_spec (RT := example_runtime) g)))
      as (ok & message & Hok & _ & Hfailed & _).
    + vm_compute. discriminate.
    + vm_compute in Hok. injection Hok as <- <-.
      exact (proj1 (Hfailed eq_refl)).
  - apply (proj2 (proj2 (import_iso_spec (RT := example_runtime)
                           example_gui))).
    vm_compute. discriminate.
Defined.

(** X29.  [start_vm] with no line selected opens an error dialog and
    does nothing else.  With a line selected it starts the definition at
    the index of the first selected line and opens one dialog for the
    result; when the memory string of that definition does not convert,
    the exception leaves the handler, which opens no dialog and changes
    nothing. *)
Theorem start_vm_spec `{RT : Runtime} (g : Gui) :
  let g' := snd (start_vm g) in
  (vm_listbox_curselection (user g) = [] ->
   start_vm g =
     (Ok tt,
      with_dialog
        (ShowError "Error" "Please select a virtual machine to start") g))
  /\
  (forall (vms : list VirtualMachine) (i : nat) (others : list Z)
          (vm : VirtualMachine),
     vm_listbox_curselection (user g) = Z.of_nat i :: others ->
     virtual_machines (cloud_manager g) = PList (map config_of vms) ->
     nth_error vms i = Some vm ->
     (forall memory_mb,
        launch_memory_mb (vm_memory vm) = Ok memory_mb ->
        spawns (w_log (os (cloud_manager g'))) =
          (spawns (w_log (os (cloud_manager g))) ++
           [start_command (os (cloud_manager g)) vm memory_mb])%list /\
        exists ok message,
          start_vm g = (Ok tt,
                        with_dialog (result_dialog ok message)
                          (with_manager (cloud_manager g') g))) /\
     (forall e,
        launch_memory_mb (vm_memory vm) = Raises e ->
        start_vm g = (Raises e, g))).
Proof.
  intros g'. split.
  - intros Hsel. unfold start_vm.
    unfold gbind at 1. unfold get_user at 1. now rewrite Hsel.
  - intros vms i others vm Hsel Hvms Hnth.
    assert (Hentry : registry_entry (virtual_machines (cloud_manager g))
                       (Z.of_nat i) = Ok vm)
      by (rewrite Hvms; now apply registry_entry_nth).
    assert (Hrun : start_vm g =
              match start_virtual_machine (Z.of_nat i) (cloud_manager g) with
              | (Ok (ok, message), st') =>
                  (Ok tt, with_dialog (result_dialog ok message)
                            (with_manager st' g))
              | (Raises e, st') => (Raises e, with_manager st' g)
              end).
    { unfold start_vm. unfold gbind at 1. unfold get_user at 1.
      rewrite Hsel. unfold gbind at 1. unfold call at 1.
      destruct (start_virtual_machine (Z.of_nat i) (cloud_manager g))
        as [[[[] message]|e] st']; reflexivity. }
    split.
    + intros memory_mb Hmem.
      destruct (start_virtual_machine_run (cloud_manager g) _ vm memory_mb
                  Hentry Hmem) as [debug_info Hstart].
      cbv zeta in Hstart.
      match type of Hstart with
      | _ = (Ok ?r, _) => set (result := r) in Hstart
      end.
      unfold g'. rewrite Hrun, Hstart.
      destruct result as [ok message].
      cbn [snd cloud_manager with_dialog with_manager os with_os
           with_event w_log].
      split.
      * rewrite !spawns_app. cbn. now rewrite app_nil_r.
      * eexists _, _. reflexivity.
    + intros e Hmem. rewrite Hrun.
      rewrite (start_virtual_machine_unconverted _ _ vm e Hentry Hmem).
      now rewrite with_manager_same.
Qed.

Lemma start_vm_spec_witness :
  start_vm (RT := example_runtime) blank_gui =
    (Ok tt,
     with_dialog
       (ShowError "Error" "Please select a virtual machine to start")
       blank_gui) /\
  spawns (w_log (os (cloud_manager (snd (start_vm (RT := example_runtime)
                                           example_gui))))) =
    [start_command (RT := example_runtime) example_world
       {| vm_name := "installer"; vm_cpu_cores := 1; vm_memory := "512M";
          vm_disk := "virtual_disks/alpha.qcow2";
          vm_iso := Some "/tmp/debian.iso" |} 512].
Proof.
  split.
  - apply (proj1 (start_vm_spec (RT := example_runtime) blank_gui)).
    reflexivity.
  - apply (proj2 (start_vm_spec (RT := example_runtime) example_gui)
             example_vms 1%nat []
             {| vm_name := "installer"; vm_cpu_cores := 1;
                vm_memory := "512M";
                vm_disk := "virtual_disks/alpha.qcow2";
                vm_iso := Some "/tmp/debian.iso" |}
             eq_refl eq_refl eq_refl).
    reflexivity.
Defined.
